(** * Shallow embedding of flopy's GHB and LAK package adapters

    Source files: [flopy/modflow/mfghb.py] (class [ModflowGhb]) and
    [flopy/modflow/mflak.py] (class [ModflowLak]).

    Conventions of the embedding.
    - Python exceptions are values of [pyerr]; a computation that may raise
      and that reads or writes a text stream is a function
      [St -> result A * St] (the monad [M St]): the state is kept on the
      error path as well, because the stream is still there after a raise.
    - A text file is the list of its lines without their terminators;
      [readline] gives the line back with its ["\n"], and [""] at end of file,
      as Python's [file.readline] does.
    - [print] statements (progress messages on stdout) are left out.
    - numpy is taken to be bound to the name [np] in both modules. *)

From Stdlib Require Import ZArith String Ascii List Lia DecimalString DecimalZ.
From stdpp Require Import base option list gmap strings.

Open Scope string_scope.
Open Scope list_scope.
Open Scope Z_scope.

(* ===================================================================== *)
(** ** Python strings and integers *)
(* ===================================================================== *)

Module Py.

(** C-locale [isspace]: space, and the control characters 9 to 13. *)
Definition is_space (c : ascii) : bool :=
  let n := N_of_ascii c in
  (N.eqb n 32 || (N.leb 9 n && N.leb n 13))%N.

Definition lower_char (c : ascii) : ascii :=
  let n := N_of_ascii c in
  if (N.leb 65 n && N.leb n 90)%N then ascii_of_N (n + 32) else c.

Definition upper_char (c : ascii) : ascii :=
  let n := N_of_ascii c in
  if (N.leb 97 n && N.leb n 122)%N then ascii_of_N (n - 32) else c.

Fixpoint map_string (f : ascii -> ascii) (s : string) : string :=
  match s with
  | EmptyString => EmptyString
  | String c s' => String (f c) (map_string f s')
  end.

(** [s.lower()] and [s.upper()] *)
Definition lower : string -> string := map_string lower_char.
Definition upper : string -> string := map_string upper_char.

(** [needle in hay] *)
Fixpoint contains (needle hay : string) : bool :=
  String.prefix needle hay ||
  match hay with
  | EmptyString => false
  | String _ hay' => contains needle hay'
  end.

Fixpoint lstrip (s : string) : string :=
  match s with
  | EmptyString => EmptyString
  | String c s' => if is_space c then lstrip s' else s
  end.

Fixpoint rstrip (s : string) : string :=
  match s with
  | EmptyString => EmptyString
  | String c s' =>
      match rstrip s' with
      | EmptyString => if is_space c then EmptyString else String c EmptyString
      | r => String c r
      end
  end.

(** [s.strip()] *)
Definition strip (s : string) : string := rstrip (lstrip s).

(** [s.split()]: maximal runs of non-blank characters. [cur] is the token
    being read. *)
Fixpoint split_from (cur : string) (s : string) : list string :=
  match s with
  | EmptyString => match cur with EmptyString => [] | _ => [cur] end
  | String c s' =>
      if is_space c then
        match cur with
        | EmptyString => split_from EmptyString s'
        | _ => cur :: split_from EmptyString s'
        end
      else split_from (cur +:+ String c EmptyString) s'
  end.

Definition split (s : string) : list string := split_from EmptyString s.

(** [sep.join(l)] *)
Fixpoint join (sep : string) (l : list string) : string :=
  match l with
  | [] => EmptyString
  | [x] => x
  | x :: l' => x +:+ sep +:+ join sep l'
  end.

(** [s[i:j]] for [0 <= i] *)
Definition slice (s : string) (i j : nat) : string :=
  String.substring i (j - i) (String.substring 0 j s).

(** [int(s)] in base 10: blanks around, an optional sign, then digits. *)
Definition int (s : string) : option Z :=
  match strip s with
  | String "+" r => option_map Z.of_uint (NilZero.uint_of_string r)
  | t => option_map Z.of_int (NilZero.int_of_string t)
  end.

(** [str(z)], also what ['%i'] and ['{}'] print for an integer *)
Definition str_int (z : Z) : string := NilZero.string_of_int (Z.to_int z).

(** ['%10i' % z] and ['{:>w}'.format(s)]: right-justified in [w] columns *)
Fixpoint spaces (n : nat) : string :=
  match n with O => EmptyString | S n' => String " " (spaces n') end.

Definition rjust (w : nat) (s : string) : string :=
  spaces (w - String.length s) +:+ s.

End Py.

(* ===================================================================== *)
(** ** Exceptions and the stream monad *)
(* ===================================================================== *)

Inductive exn_class :=
| IndexError | KeyError | ValueError | TypeError | AttributeError
| UnboundLocalError | AssertionError | NotImplementedError
| FormatError        (* the codec's error class, section 7 of the spec *)
| Exception.

(** An exception instance: its class and [str(e)]. *)
Record pyerr := PyErr { exn_cls : exn_class; exn_msg : string }.

Inductive result (A : Type) :=
| Ok (a : A)
| Raise (e : pyerr).
Arguments Ok {A} a.
Arguments Raise {A} e.

Definition is_ok {A} (r : result A) : bool :=
  match r with Ok _ => true | Raise _ => false end.

#[export] Instance result_ret : MRet result := fun A a => Ok a.
#[export] Instance result_bind : MBind result := fun A B f r =>
  match r with
  | Ok a => f a
  | Raise e => Raise e
  end.

Definition M (St A : Type) : Type := St -> result A * St.

#[export] Instance M_ret {St} : MRet (M St) := fun A a s => (Ok a, s).
#[export] Instance M_bind {St} : MBind (M St) := fun A B f m s =>
  match m s with
  | (Ok a, s') => f a s'
  | (Raise e, s') => (Raise e, s')
  end.

Definition raise {St A} (c : exn_class) (msg : string) : M St A :=
  fun s => (Raise (PyErr c msg), s).

Definition get {St} : M St St := fun s => (Ok s, s).
Definition put {St} (s : St) : M St unit := fun _ => (Ok tt, s).

(** [try: a = m  except: a = d] (a bare [except] catches every class) *)
Definition try_default {St A} (m : M St A) (d : A) : M St A := fun s =>
  match m s with
  | (Ok a, s') => (Ok a, s')
  | (Raise _, s') => (Ok d, s')
  end.

(** A computation that does not touch the stream *)
Definition of_result {St A} (r : result A) : M St A := fun s => (r, s).

(** [l[i]] on a list *)
Definition index {St A} (l : list A) (i : nat) : M St A :=
  match l !! i with
  | Some a => mret a
  | None => raise IndexError "list index out of range"
  end.

(** [int(s)] *)
Definition int_of {St} (s : string) : M St Z :=
  match Py.int s with
  | Some z => mret z
  | None => raise ValueError ("invalid literal for int() with base 10: '" +:+ s +:+ "'")
  end.

(** [for x in l: acc = f acc x] *)
Fixpoint foldM {St A B} (f : B -> A -> M St B) (l : list A) (b : B) : M St B :=
  match l with
  | [] => mret b
  | x :: l' => b' ← f b x; foldM f l' b'
  end.

(** [for x in l: body x] *)
Definition for_each {St A} (l : list A) (body : A -> M St unit) : M St unit :=
  foldM (fun _ x => body x) l tt.

(** [range(n)] and [range(a, b)] *)
Definition range (n : nat) : list nat := seq 0 n.
Definition zrange (a b : Z) : list Z := map (fun i => a + Z.of_nat i) (seq 0 (Z.to_nat (b - a))).

(* ===================================================================== *)
(** ** Floating-point fields *)
(* ===================================================================== *)

(** The adapters only parse floats, print them and test the sign of one of
    them; the development is parametric in how that is done. *)
Class PyFloat := {
  float : Type;
  float_of_string : string -> option float;   (* float(s) *)
  float_to_string : float -> string;          (* '{}'.format(x) *)
  float_is_neg : float -> bool;               (* x < 0. *)
  float_mul : float -> float -> float;        (* x * y *)
  float_lit : Z -> float                      (* the constants 0., 1., 10000., ... *)
}.

(** The host model ([flopy.modflow.Modflow]) as far as the adapters use it. *)
Record host := {
  h_nrow : nat; h_ncol : nat; h_nlay : nat; h_nper : nat;
  h_steady : list bool;            (* model.dis.steady *)
  h_free_format_input : bool;      (* model.free_format_input *)
  h_array_free_format : bool;      (* model.array_free_format *)
  h_version : string;              (* model.version *)
  h_next_unit : Z;                 (* state of model.next_ext_unit() *)
  h_external : list (string * Z);  (* files given to model.add_external *)
  h_output : list (Z * option string * string)  (* model.add_output_file *)
}.

(** A text stream being read: the lines not read yet, and whether the handle
    is open. *)
Record fstate := { pending : list string; handle_open : bool }.

(** What [load] is given as [f]: a file name, or a handle the caller opened. *)
Inductive farg := FileName (name : string) | FileHandle.

(** [open(filename, 'r')] *)
Definition open_read : M fstate unit := fun s =>
  (Ok tt, {| pending := pending s; handle_open := true |}).

(** [f.close()] *)
Definition close_read : M fstate unit := fun s =>
  (Ok tt, {| pending := pending s; handle_open := false |}).

(** [f.readline()] *)
Definition readline : M fstate string := fun s =>
  match pending s with
  | [] => (Ok EmptyString, s)
  | l :: r => (Ok (l +:+ "
"), {| pending := r; handle_open := handle_open s |})
  end.

(** [while True: line = f.readline(); if line[0] != '#': break] *)
Fixpoint skip_comments_from (ls : list string) (h : bool) : result string * fstate :=
  match ls with
  | [] => (Raise (PyErr IndexError "string index out of range"),
           {| pending := []; handle_open := h |})
  | l :: r =>
      match l with
      | String "#" _ => skip_comments_from r h
      | _ => (Ok (l +:+ "
"), {| pending := r; handle_open := h |})
      end
  end.

Definition skip_comments : M fstate string := fun s =>
  skip_comments_from (pending s) (handle_open s).

(* ===================================================================== *)
(** ** Output streams and the fixed-field codec *)
(* ===================================================================== *)

(** A text stream being written: the strings given to [write], in order, and
    whether the handle is open. *)
Record wstate := { written : list string; w_open : bool }.

(** [open(path, 'w')] *)
Definition open_write : M wstate unit := fun _ =>
  (Ok tt, {| written := []; w_open := true |}).

(** [f.write(s)] *)
Definition fwrite (s : string) : M wstate unit := fun st =>
  if w_open st
  then (Ok tt, {| written := written st ++ [s]; w_open := true |})
  else (Raise (PyErr ValueError "I/O operation on closed file"), st).

(** [f.close()] *)
Definition fclose : M wstate unit := fun st =>
  (Ok tt, {| written := written st; w_open := false |}).

(** The text of the file, and its lines as a reader sees them. *)
Definition file_text (st : wstate) : string := fold_right String.append "" (written st).

Fixpoint lines_from (cur : string) (s : string) : list string :=
  match s with
  | EmptyString => match cur with EmptyString => [] | _ => [cur] end
  | String c s' =>
      if Ascii.eqb c "010" then cur :: lines_from EmptyString s'
      else lines_from (cur +:+ String c EmptyString) s'
  end.

Definition file_lines (st : wstate) : list string := lines_from "" (file_text st).

Section Codec.
Context `{PyFloat}.

(** A scalar field of a record. *)
Inductive scalar := SInt (z : Z) | SFloat (x : float) | SStr (s : string).

(** ['{}'.format(v)] *)
Definition scalar_str (v : scalar) : string :=
  match v with
  | SInt z => Py.str_int z
  | SFloat x => float_to_string x
  | SStr s => s
  end.

(** [float(s)] *)
Definition float_of {St} (s : string) : M St float :=
  match float_of_string s with
  | Some x => mret x
  | None => raise ValueError ("could not convert string to float: " +:+ s)
  end.

(** A numpy array: its shape and its elements in row-major order. *)
Record ndarray := { shape : list nat; data : list scalar }.

(** [a.shape[0]] *)
Definition shape0 {St} (a : ndarray) : M St nat :=
  match shape a with
  | n :: _ => mret n
  | [] => raise IndexError "tuple index out of range"
  end.

(** [a[n]] on a one-dimensional array, [a[n, j]] on a two-dimensional one *)
Definition arr_get1 {St} (a : ndarray) (n : nat) : M St scalar :=
  match shape a with
  | [len] => if (n <? len)%nat then index (data a) n
             else raise IndexError "index out of bounds"
  | _ => raise IndexError "invalid index"
  end.

Definition arr_get2 {St} (a : ndarray) (n j : nat) : M St scalar :=
  match shape a with
  | [rows; cols] =>
      if ((n <? rows) && (j <? cols))%nat then index (data a) (n * cols + j)%nat
      else raise IndexError "index out of bounds"
  | _ => raise IndexError "too many indices for array"
  end.

(** The widths of the [ncol] columns: [ipos], or [length] for each. *)
Definition widths (ncol length : nat) (ipos : option (list nat)) : list nat :=
  match ipos with Some p => p | None => repeat length ncol end.

Fixpoint encode_fixed (v : list scalar) (w : list nat) : string :=
  match v, w with
  | [], _ => ""
  | x :: v', wd :: w' => Py.rjust wd (scalar_str x) +:+ encode_fixed v' w'
  | x :: v', [] => scalar_str x +:+ encode_fixed v' []
  end.

Fixpoint encode_free (v : list scalar) : string :=
  match v with
  | [] => ""
  | x :: v' => scalar_str x +:+ " " +:+ encode_free v'
  end.

(** Modelled from the spec: [flopy.utils.write_fixed_var] is not in the
    sources. Section 4.1: in free format the fields are written in order,
    separated by blanks; in fixed format each field is right-justified in its
    column width; an optional comment is appended after the fields and takes
    no part in decoding. The result is one line of text with its terminator. *)
Definition write_fixed_var (v : list scalar) (length : nat) (ipos : option (list nat))
    (free : bool) (comment : option string) : string :=
  (if free then encode_free v else encode_fixed v (widths (List.length v) length ipos))
  +:+ match comment with Some c => "  # " +:+ c | None => "" end
  +:+ "
".

Fixpoint decode_fixed (line : string) (w : list nat) : list string :=
  match w with
  | [] => []
  | wd :: w' => Py.slice line 0 wd :: decode_fixed (Py.slice line wd (String.length line)) w'
  end.

(** Modelled from the spec: [flopy.utils.read_fixed_var] is not in the
    sources. Section 4.1: the line is cut at the column offsets, not split at
    blanks; a line shorter than the sum of the widths is a format error;
    columns after the last field are ignored. *)
Definition read_fixed_var {St} (line : string) (ncol length : nat)
    (ipos : option (list nat)) : M St (list string) :=
  let w := widths ncol length ipos in
  if (String.length line <? fold_right Nat.add 0%nat w)%nat
  then raise FormatError "line shorter than the declared widths"
  else mret (decode_fixed line w).

End Codec.

(* ===================================================================== *)
(** ** General-Head Boundary package ([mfghb.py]) *)
(* ===================================================================== *)

Module Ghb.
Section WithFloat.
Context `{PyFloat}.

Inductive ftype := np_int | np_float32.
Definition dtype := list (string * ftype).

Inductive cell := CInt (z : Z) | CFloat (x : float).
Definition row := list cell.

(** Values of the [stress_period_data] dictionary handed to [mflist]: the
    integers 0 and -1, or a record array. *)
Inductive spd_value :=
| SpdInt (itmp : Z)
| SpdRecs (recs : list row).

(** [ModflowGhb.get_default_dtype] *)
Definition get_default_dtype : dtype :=
  [("k", np_int); ("i", np_int); ("j", np_int);
   ("bhead", np_float32); ("cond", np_float32)].

(** Modelled from the spec: [Package.add_to_dtype] is not in the sources;
    a record schema is extended with one float field per auxiliary name, in
    the order given. *)
Definition add_to_dtype (dt : dtype) (names : list string) (ty : ftype) : dtype :=
  dt ++ map (fun n => (n, ty)) names.

Definition dtype_of (aux_names : option (list string)) : dtype :=
  match aux_names with
  | Some names => add_to_dtype get_default_dtype names np_float32
  | None => get_default_dtype
  end.

Definition fill_cell (ty : ftype) : cell :=
  match ty with
  | np_int => CInt (-10000000000)
  | np_float32 => CFloat (float_lit (-10000000000))
  end.

(** [ModflowGhb.get_empty(ncells, aux_names)]: [ncells] rows of -1.0E+10 *)
Definition get_empty (ncells : nat) (aux_names : option (list string)) : list row :=
  repeat (map (fun f => fill_cell (snd f)) (dtype_of aux_names)) ncells.

(** numpy's conversion of one string to a field of a record *)
Definition cell_of_string (ty : ftype) (s : string) : result cell :=
  match ty with
  | np_int =>
      match Py.int s with
      | Some z => Ok (CInt z)
      | None => Raise (PyErr ValueError
                  ("invalid literal for int() with base 10: '" +:+ s +:+ "'"))
      end
  | np_float32 =>
      match float_of_string s with
      | Some x => Ok (CFloat x)
      | None => Raise (PyErr ValueError ("could not convert string to float: " +:+ s))
      end
  end.

Fixpoint cells_of_strings (dt : dtype) (toks : list string) : result row :=
  match dt, toks with
  | [], _ => Ok []
  | _ :: _, [] => Raise (PyErr ValueError "size of tuple must match number of fields.")
  | (_, ty) :: dt', s :: toks' =>
      c ← cell_of_string ty s;
      r ← cells_of_strings dt' toks';
      mret (c :: r)
  end.

(** [current[ibnd] = tuple(t[:len(current.dtype.names)])]: the row that is
    stored, or the error numpy raises *)
Definition row_of_tokens (dt : dtype) (t : list string) : result row :=
  let tup := take (length dt) t in
  if (length tup <? length dt)%nat
  then Raise (PyErr ValueError "size of tuple must match number of fields.")
  else cells_of_strings dt tup.

(** [x.lower() is lit]: [str.lower] builds a new string object whenever its
    result is not empty, and a new object is never the constant of the code
    object; only the empty string is shared. *)
Definition lower_is (x lit : string) : bool :=
  match Py.lower x, lit with
  | EmptyString, EmptyString => true
  | _, _ => false
  end.

(** The package object. [mflist] is not in the sources: the package keeps
    the dictionary it was built from. *)
Record ghb := {
  ipakcb : Z;
  no_print : bool;
  options : list string;
  pkg_dtype : dtype;
  stress_period_data : gmap nat spd_value
}.

(** [ModflowGhb.__init__] *)
Definition init (ipakcb : Z) (spd : gmap nat spd_value) (dt : option dtype)
    (no_print : bool) (options : option (list string)) : ghb :=
  let options := match options with None => [] | Some o => o end in
  let options := if no_print then options ++ ["NOPRINT"] else options in
  {| ipakcb := ipakcb; no_print := no_print; options := options;
     pkg_dtype := match dt with Some d => d | None => get_default_dtype end;
     stress_period_data := spd |}.

(** *** [ModflowGhb.load] *)

(** The check for parameters (lines 197-200): the line that holds dataset 2 *)
Definition check_parameters (line : string) : M fstate string :=
  if Py.contains "parameter" (Py.lower line) then
    let raw := Py.split (Py.strip line) in
    r1 ← index raw 1;
    n ← int_of r1;
    if n =? 0 then readline
    else raise AssertionError "Parameters are not supported"
  else mret line.

(** Lines 204-209: [ipakcb] *)
Definition header_ipakcb (t : list string) : M fstate Z :=
  try_default (t1 ← index t 1; n ← int_of t1;
               mret (if negb (n =? 0) then 53 else 0)) 0.

(** Lines 212-223: the loop over the option tokens, [t] being [t[it:]] *)
Fixpoint parse_options (t : list string) (options aux_names : list string)
    : M fstate (list string * list string) :=
  match t with
  | [] => mret (options, aux_names)
  | toption :: rest =>
      if lower_is toption "noprint" then
        parse_options rest (options ++ [toption]) aux_names
      else if Py.contains "aux" (Py.lower toption) then
        match rest with
        | [] => raise IndexError "list index out of range"
        | name :: rest' =>
            parse_options rest' (options ++ [Py.join " " [toption; name]])
                          (aux_names ++ [Py.lower name])
        end
      else parse_options rest options aux_names
  end.

Definition header_options (t : list string) : M fstate (list string * list string) :=
  if (2 <? length t)%nat then parse_options (drop 2 t) [] [] else mret ([], []).

(** Lines 239-244: the loop over the [itmp] records of one period, [n]
    records being left to read *)
Fixpoint load_records (dt : dtype) (n ibnd : nat) (current : list row)
    : M fstate (list row) :=
  match n with
  | O => mret current
  | S n' =>
      line ← readline;
      if Py.contains "open/close" (Py.lower line) then
        raise NotImplementedError "load() method does not support 'open/close'"
      else
        r ← of_result (row_of_tokens dt (Py.split (Py.strip line)));
        load_records dt n' (S ibnd) (<[ibnd := r]> current)
  end.

(** Lines 233-245: the block of period [iper], [line] being its count line *)
Definition load_block (aux_names : list string) (iper : nat) (line : string)
    (spd : gmap nat spd_value) : M fstate (gmap nat spd_value) :=
  t0 ← index (Py.split (Py.strip line)) 0;
  itmp ← int_of t0;
  if (itmp =? 0) || (itmp =? -1) then
    mret (<[iper := SpdInt itmp]> spd)
  else if 0 <? itmp then
    let current := get_empty (Z.to_nat itmp) (Some aux_names) in
    current ← load_records (dtype_of (Some aux_names)) (Z.to_nat itmp) 0 current;
    mret (<[iper := SpdRecs current]> spd)
  else mret spd.

(** Lines 228-245: the loop over the stress periods, [n] periods being left *)
Fixpoint load_periods (aux_names : list string) (n iper : nat)
    (spd : gmap nat spd_value) : M fstate (gmap nat spd_value) :=
  match n with
  | O => mret spd
  | S n' =>
      line ← readline;
      if String.eqb line "" then mret spd      (* break *)
      else
        spd' ← load_block aux_names iper line spd;
        load_periods aux_names n' (S iper) spd'
  end.

(** Lines 188-200: opening the file; the line that holds dataset 2 *)
Definition header_line (f : farg) : M fstate string :=
  match f with FileName _ => open_read | FileHandle => mret tt end;;
  line ← skip_comments;
  check_parameters line.

(** Lines 188-223: opening the file and reading the header *)
Definition load_header (f : farg) : M fstate (Z * list string * list string) :=
  line ← header_line f;
  let t := Py.split (Py.strip line) in
  ipakcb ← header_ipakcb t;
  oa ← header_options t;
  mret (ipakcb, oa.1, oa.2).

(** [ModflowGhb.load(f, model, nper)] *)
Definition load (f : farg) (model : host) (nper : option nat) : M fstate ghb :=
  hd ← load_header f;
  let '(ipakcb, options, aux_names) := hd in
  let nper := match nper with Some n => n | None => h_nper model end in
  spd ← load_periods aux_names nper 0 ∅;
  mret (init ipakcb spd (Some (dtype_of (Some aux_names))) false (Some options)).

(** *** The record store behind [stress_period_data] *)

(** Modelled from the spec: [flopy.utils.util_list.mflist] is not in the
    sources. Sections 3 and 4.2: a period is Explicit (a record set), Clear
    (zero records) or carries the nearest earlier Explicit or Clear period
    forward. In the dictionary the source uses, a record array is Explicit,
    the integer 0 is Clear, and a missing key or the negative sentinel
    carries forward. *)
Inductive state_kind := EXPLICIT | CLEAR | EMPTY.

Fixpoint effective (spd : gmap nat spd_value) (period : nat) : state_kind * list row :=
  match spd !! period with
  | Some (SpdRecs rs) => (EXPLICIT, rs)
  | Some (SpdInt 0) => (CLEAR, [])
  | _ => match period with
         | O => (EMPTY, [])
         | S p => effective spd p
         end
  end.

(** Modelled from the spec: [mflist.add_record], section 4.2: a period without
    an Explicit entry gets one, a copy of its effective set; slot [index] is
    set, the set growing when [index] is its length; a larger [index] is an
    [IndexError]. *)
Definition mflist_add_record (spd : gmap nat spd_value) (kper index : nat)
    (values : row) : result (gmap nat spd_value) :=
  let rs := match spd !! kper with
            | Some (SpdRecs rs) => rs
            | _ => (effective spd kper).2
            end in
  if (length rs <? index)%nat then
    Raise (PyErr IndexError "record index out of range")
  else if (index =? length rs)%nat then
    Ok (<[kper := SpdRecs (rs ++ [values])]> spd)
  else Ok (<[kper := SpdRecs (<[index := values]> rs)]> spd).

(** [ModflowGhb.add_record] (lines 130-134): whatever the store raises is
    caught and raised again as a plain [Exception]. *)
Definition add_record (p : ghb) (kper index : nat) (values : row) : result ghb :=
  match mflist_add_record (stress_period_data p) kper index values with
  | Ok spd' =>
      Ok {| ipakcb := ipakcb p; no_print := no_print p; options := options p;
            pkg_dtype := pkg_dtype p; stress_period_data := spd' |}
  | Raise e =>
      Raise (PyErr Exception ("mfghb error adding record to list: " +:+ exn_msg e))
  end.

(** *** [ModflowGhb.write_file] *)

Definition cell_scalar (c : cell) : scalar :=
  match c with CInt z => SInt z | CFloat x => SFloat x end.

(** Modelled from the spec: [mflist.mxact], the largest number of records of
    a period. *)
Definition mxact (spd : gmap nat spd_value) : nat :=
  map_fold (fun _ v m => match v with
                         | SpdRecs rs => Nat.max (length rs) m
                         | SpdInt _ => m
                         end) 0%nat spd.

(** Modelled from the spec: the count a period is written with, section 4.3:
    the length of an Explicit record set, 0 for Clear, the negative sentinel
    for a period that carries forward; 0 as well before the first entry. *)
Definition period_count (spd : gmap nat spd_value) (kper : nat) : Z :=
  match spd !! kper with
  | Some (SpdRecs rs) => Z.of_nat (length rs)
  | Some (SpdInt 0) => 0
  | _ => match effective spd kper with
         | (EMPTY, _) => 0
         | _ => -1
         end
  end.

(** Modelled from the spec: [mflist.write_transient], section 4.3: for each
    period the count line, then the records of an Explicit period, one line
    each. *)
Definition write_transient (free : bool) (nper : nat) (spd : gmap nat spd_value)
    : M wstate unit :=
  for_each (range nper) (fun kper =>
    fwrite (write_fixed_var [SInt (period_count spd kper)] 10 None free None);;
    match spd !! kper with
    | Some (SpdRecs rs) =>
        for_each rs (fun r =>
          fwrite (write_fixed_var (map cell_scalar r) 10 None free None))
    | _ => mret tt
    end).

(** [ModflowGhb.write_file] *)
Definition write_file (model : host) (p : ghb) : M wstate unit :=
  open_write;;
  fwrite ("# GHB for MODFLOW, generated by Flopy." +:+ "
");;
  fwrite (Py.rjust 10 (Py.str_int (Z.of_nat (mxact (stress_period_data p))))
          +:+ Py.rjust 10 (Py.str_int (ipakcb p)));;
  for_each (options p) (fun option => fwrite ("  " +:+ option));;
  fwrite "
";;
  write_transient (h_free_format_input model) (h_nper model) (stress_period_data p);;
  fclose.

End WithFloat.
End Ghb.

(* ===================================================================== *)
(** ** Array collaborators of the Lake package *)
(* ===================================================================== *)

(** [Util3d] and [Transient3d] ([flopy.utils]) are not in the sources; the
    Lake adapter only loads arrays, builds the per-period container and asks
    it for the entry of a period. *)
Class ArrayIO := {
  util3d : Type;
  transient3d : Type;
  (* Util3d.load(f, model, shape, dtype, name, ext_unit_dict) *)
  util3d_load : nat * nat * nat -> M fstate util3d;
  (* Transient3d(model, shape, dtype, value, name) *)
  transient3d_init : nat * nat * nat -> option (gmap nat util3d) -> result transient3d;
  (* the same constructor, given a Transient3d as value *)
  transient3d_copy : nat * nat * nat -> transient3d -> result transient3d;
  (* Transient3d.get_kper_entry(kper) *)
  get_kper_entry : transient3d -> nat -> Z * string
}.

(* ===================================================================== *)
(** ** Lake package ([mflak.py]) *)
(* ===================================================================== *)

Module Lak.
Section WithCollaborators.
Context `{PyFloat} `{ArrayIO}.

(** The dynamically typed arguments of the constructor. *)
Inductive stages_arg :=
| StagesFloat (x : float)
| StagesList (l : list scalar)
| StagesArray (a : ndarray)
| StagesOther.                       (* an object without [shape]: int, tuple *)

Inductive sr_item := SrScalar (s : scalar) | SrRow (r : list scalar).

Inductive stage_range_arg :=
| RangeList (l : list sr_item)
| RangeFloat (x : float)
| RangeArray (a : ndarray).

Inductive filenames_arg :=
| FnNone
| FnStr (s : string)
| FnList (l : list (option string)).

(** What [lakarr] and [bdlknc] may be: a dictionary of arrays, or the
    container itself (as [load] passes it). *)
Inductive t3_value :=
| T3Dict (d : gmap nat util3d)
| T3Obj (t : transient3d).

Definition make_transient3d (dims : nat * nat * nat) (v : option t3_value)
    : result transient3d :=
  match v with
  | None => transient3d_init dims None
  | Some (T3Dict d) => transient3d_init dims (Some d)
  | Some (T3Obj t) => transient3d_copy dims t
  end.

Definition sill_entry : Type := list (list scalar * list scalar).

Inductive sill_arg :=
| SillDict (d : gmap nat sill_entry)
| SillOther (v : sill_entry).

Inductive flux_value :=
| FvArray (a : ndarray)
| FvNum (v : scalar)
| FvDict (d : gmap nat (list scalar))
| FvList (l : list (list scalar)).

Inductive flux_arg :=
| FluxDict (d : gmap nat flux_value)
| FluxOther (v : flux_value).

Record lak_args := {
  a_nlakes : Z;
  a_ipakcb : option Z;
  a_theta : float;
  a_nssitr : Z;
  a_sscncr : float;
  a_surfdep : float;
  a_stages : stages_arg;
  a_stage_range : option stage_range_arg;
  a_tab_files : option (list (option string));
  a_tab_units : option (list Z);
  a_lakarr : option t3_value;
  a_bdlknc : option t3_value;
  a_sill_data : option sill_arg;
  a_flux_data : option flux_arg;
  a_unitnumber : option Z;
  a_filenames : filenames_arg;
  a_options : option (list string)
}.

(** The package object. *)
Record lak := {
  options : list string;
  nlakes : Z;
  ipakcb : Z;
  theta : float;
  nssitr : Z;
  sscncr : float;
  surfdep : float;
  stages : ndarray;
  stage_range : ndarray;
  tabdata : bool;
  iunit_tab : option (list Z);
  lakarr : transient3d;
  bdlknc : transient3d;
  sill_data : option (gmap nat sill_entry);
  flux_data : option (gmap nat flux_value);
  unit_number : Z
}.

(** [ModflowLak.defaultunit] and [ModflowLak.ftype] *)
Definition defaultunit : Z := 119.
Definition ftype : string := "LAK".

(** Modelled from the spec: the host model's [next_external_unit],
    [register_output_file] and the registry of external files
    ([model.next_ext_unit], [model.add_output_file], [model.add_external])
    are not in the sources. *)
Definition next_ext_unit : M host Z := fun m =>
  (Ok (h_next_unit m),
   {| h_nrow := h_nrow m; h_ncol := h_ncol m; h_nlay := h_nlay m; h_nper := h_nper m;
      h_steady := h_steady m; h_free_format_input := h_free_format_input m;
      h_version := h_version m;
      h_array_free_format := h_array_free_format m; h_next_unit := h_next_unit m + 1;
      h_external := h_external m; h_output := h_output m |}).

Definition add_external (fname : string) (iu : Z) : M host unit := fun m =>
  (Ok tt,
   {| h_nrow := h_nrow m; h_ncol := h_ncol m; h_nlay := h_nlay m; h_nper := h_nper m;
      h_steady := h_steady m; h_free_format_input := h_free_format_input m;
      h_version := h_version m;
      h_array_free_format := h_array_free_format m; h_next_unit := h_next_unit m;
      h_external := h_external m ++ [(fname, iu)]; h_output := h_output m |}).

Definition add_output_file (iu : Z) (fname : option string) (package : string)
    : M host unit := fun m =>
  (Ok tt,
   {| h_nrow := h_nrow m; h_ncol := h_ncol m; h_nlay := h_nlay m; h_nper := h_nper m;
      h_steady := h_steady m; h_free_format_input := h_free_format_input m;
      h_version := h_version m;
      h_array_free_format := h_array_free_format m; h_next_unit := h_next_unit m;
      h_external := h_external m; h_output := h_output m ++ [(iu, fname, package)] |}).

(** Lines 82-89: is TABLEINPUT among the options, and the number of file
    names the package has *)
Definition has_tableinput (options : option (list string)) : bool :=
  match options with
  | Some l => existsb (fun o => Py.contains "TABLEINPUT" (Py.upper o)) l
  | None => false
  end.

Definition name_count (tabdata : bool) (nlakes : Z) : Z :=
  if tabdata then 2 + nlakes else 2.

(** Lines 90-96 *)
Definition fill_filenames (fn : filenames_arg) (nlen : Z) : list (option string) :=
  match fn with
  | FnNone => repeat None (Z.to_nat nlen)
  | FnStr s => Some s :: repeat None (Z.to_nat (nlen - 1))
  | FnList l =>
      if Z.of_nat (length l) <? nlen then l ++ repeat None (Z.to_nat (nlen - 2))
      else l
  end.

(** Lines 119-123: [raise ValueError] at the first file name that is [None] *)
Fixpoint check_tab_files (idx : nat) (tab_files : list (option string)) : M host unit :=
  match tab_files with
  | [] => mret tt
  | None :: _ =>
      raise ValueError ("a filename must be specified for the tabfile for lake "
                        +:+ Py.str_int (Z.of_nat idx + 1))
  | Some _ :: rest => check_tab_files (S idx) rest
  end.

(** Lines 125-128 *)
Definition alloc_tab_units (tab_files : list (option string)) : M host (list Z) :=
  foldM (fun units _ => u ← next_ext_unit; mret (units ++ [u])) tab_files [].

(** Lines 130-131: [for iu, fname in zip(tab_units, tab_files)]; the names
    are known not to be [None] here *)
Fixpoint register_tab_files (tab_units : list Z) (tab_files : list (option string))
    : M host unit :=
  match tab_units, tab_files with
  | iu :: us, Some fname :: fs => add_external fname iu;; register_tab_files us fs
  | iu :: us, None :: fs => register_tab_files us fs
  | _, _ => mret tt
  end.

(** Lines 106-131: the table input files. The test [len(tab_files) < nlakes]
    only builds a message; nothing is raised there. *)
Definition init_tab_files (tabdata : bool) (nlakes : Z)
    (filenames : list (option string))
    (tab_files : option (list (option string))) (tab_units : option (list Z))
    : M host (option (list Z)) :=
  if tabdata then
    let tab_files := match tab_files with None => drop 2 filenames | Some t => t end in
    let msg := if Z.of_nat (length tab_files) <? nlakes
               then Some ("a tabfile must be specified for each lake"
                          +:+ Py.str_int (Z.of_nat (length tab_files))
                          +:+ " tabfiles specified " +:+ "instead of "
                          +:+ Py.str_int nlakes +:+ " tabfiles")
               else None in
    check_tab_files 0 tab_files;;
    tab_units ← match tab_units with
                | None => alloc_tab_units tab_files
                | Some u => mret u
                end;
    register_tab_files tab_units tab_files;;
    mret (Some tab_units)
  else mret tab_units.

(** [np.array(l)] for a list of scalars *)
Definition np_array1 (l : list scalar) : ndarray :=
  {| shape := [length l]; data := l |}.

(** [np.array(l)] for a list of rows: two-dimensional when every item is a
    row of one and the same length, one-dimensional otherwise *)
Definition row_length (it : sr_item) : option nat :=
  match it with SrRow r => Some (length r) | SrScalar _ => None end.

Definition item_data (it : sr_item) : list scalar :=
  match it with SrRow r => r | SrScalar s => [s] end.

Definition np_array2 (l : list sr_item) : ndarray :=
  match l with
  | [] => {| shape := [0%nat]; data := [] |}
  | it :: rest =>
      match row_length it with
      | Some m =>
          if forallb (fun it' => match row_length it' with
                                 | Some m' => (m' =? m)%nat | None => false end) rest
          then {| shape := [length l; m]; data := concat (map item_data l) |}
          else {| shape := [length l]; data := concat (map item_data l) |}
      | None => {| shape := [length l]; data := concat (map item_data l) |}
      end
  end.

(** Lines 159-167: [stages] *)
Definition init_stages (nlakes : Z) (st : stages_arg) : M host ndarray :=
  stages ← match st with
           | StagesFloat x =>
               (* np.array(nlakes, dtype=np.float) * stages: zero-dimensional *)
               mret {| shape := []; data := [SFloat (float_mul (float_lit nlakes) x)] |}
           | StagesList l => mret (np_array1 l)
           | StagesArray a => mret a
           | StagesOther => raise AttributeError "object has no attribute 'shape'"
           end;
  n ← shape0 stages;
  if negb (Z.of_nat n =? nlakes) then
    raise Exception ("stages shape should be (" +:+ Py.str_int nlakes
                     +:+ ") but is only (" +:+ Py.str_int (Z.of_nat n) +:+ ").")
  else mret stages.

(** Lines 168-178: [stage_range] before the test of its shape *)
Definition default_stage_range (nlakes : Z) : ndarray :=
  {| shape := [Z.to_nat nlakes; 2%nat];
     data := concat (repeat [SFloat (float_lit (-10000)); SFloat (float_lit 10000)]
                            (Z.to_nat nlakes)) |}.

Definition init_stage_range (nlakes : Z) (sr : option stage_range_arg) : M host ndarray :=
  match sr with
  | None => mret (default_stage_range nlakes)
  | Some (RangeList l) => mret (np_array2 l)
  | Some (RangeFloat _) =>
      raise Exception ("stage_range should be a list or array of size ("
                       +:+ Py.str_int nlakes +:+ ", 2)")
  | Some (RangeArray a) => mret a
  end.

Definition shape_str (s : list nat) : string :=
  "(" +:+ Py.join ", " (map (fun n => Py.str_int (Z.of_nat n)) s) +:+ ")".

(** Lines 179-184 *)
Definition check_stage_range (model : host) (nlakes : Z) (sr : ndarray) : M host unit :=
  steady0 ← index (h_steady model) 0;
  if (steady0 : bool) then
    if negb (bool_decide (map Z.of_nat (shape sr) = [nlakes; 2])) then
      raise Exception ("stages shape should be (" +:+ Py.str_int nlakes
                       +:+ ",2) but is only " +:+ shape_str (shape sr) +:+ ".")
    else mret tt
  else mret tt.

(** [try: steady = self.parent.dis.steady[key]  except: steady = True] *)
Definition steady_or_true (model : host) (key : nat) : bool :=
  default true (h_steady model !! key).

(** [d[k]] on a dictionary *)
Definition dict_get {St A} (d : gmap nat A) (k : nat) : M St A :=
  match d !! k with
  | Some v => mret v
  | None => raise KeyError (Py.str_int (Z.of_nat k))
  end.

(** Lines 217-247: one item of [flux_data]; the value that is stored back *)
Definition check_flux_value (model : host) (nlakes : Z) (nkeys : nat)
    (key : nat) (value : flux_value) : M host flux_value :=
  match value with
  | FvArray a =>
      n ← shape0 a;
      match n with
      | O =>
          if negb (Z.of_nat nkeys =? nlakes) then
            raise Exception ("flux_data dictionary must have "
                             +:+ Py.str_int nlakes +:+ " entries")
          else mret (FvDict ∅)
      | S _ =>
          (* value[k, :].aslist() *)
          match shape a with
          | _ :: _ :: _ =>
              raise AttributeError "'numpy.ndarray' object has no attribute 'aslist'"
          | _ => raise IndexError "too many indices for array"
          end
      end
  | FvNum (SStr _) => mret value
  | FvNum _ =>
      (* (np.ones(6, dtype=np.float) * value).aslist() for each lake *)
      if 0 <? nlakes then
        raise AttributeError "'numpy.ndarray' object has no attribute 'aslist'"
      else mret (FvDict ∅)
  | FvDict d =>
      let steady := steady_or_true model key in
      let nlen := if steady && (0 <? key)%nat then 6%nat else 4%nat in
      for_each (range (Z.to_nat nlakes)) (fun k =>
        td ← dict_get d k;
        if (length td <? nlen)%nat then
          raise Exception ("flux_data entry for stress period"
                           +:+ "has " +:+ Py.str_int (Z.of_nat nlen) +:+ " entries but "
                           +:+ "should have " +:+ Py.str_int (Z.of_nat (length td))
                           +:+ " entries")
        else mret tt);;
      mret value
  | FvList _ => mret value
  end.

(** Lines 208-247 *)
Definition init_flux_data (model : host) (nlakes : Z) (fd : option flux_arg)
    : M host (option (gmap nat flux_value)) :=
  match fd with
  | None => mret None
  | Some arg =>
      let d := match arg with FluxDict d => d | FluxOther v => {[ 0%nat := v ]} end in
      d' ← foldM (fun acc kv =>
                    v' ← check_flux_value model nlakes (size d) kv.1 kv.2;
                    mret (<[kv.1 := v']> acc))
                 (map_to_list d) d;
      mret (Some d')
  end.

(** Lines 200-206 *)
Definition init_sill_data (sd : option sill_arg) : option (gmap nat sill_entry) :=
  match sd with
  | None => None
  | Some (SillDict d) => Some d
  | Some (SillOther v) => Some {[ 0%nat := v ]}
  end.

(** [ModflowLak.__init__]; the host model is the state, for the files the
    constructor registers with it. *)
Definition init (a : lak_args) : M host lak :=
  let unitnumber := default defaultunit (a_unitnumber a) in
  let tabdata := has_tableinput (a_options a) in
  let nlen := name_count tabdata (a_nlakes a) in
  let filenames := fill_filenames (a_filenames a) nlen in
  ipakcb ← match a_ipakcb a with
           | Some u =>
               fname ← index filenames 1;
               add_output_file u fname ftype;;
               mret u
           | None => mret 0
           end;
  tab_units ← init_tab_files tabdata (a_nlakes a) filenames (a_tab_files a) (a_tab_units a);
  let options := default [] (a_options a) in
  stages ← init_stages (a_nlakes a) (a_stages a);
  stage_range ← init_stage_range (a_nlakes a) (a_stage_range a);
  model ← get;
  check_stage_range model (a_nlakes a) stage_range;;
  match a_lakarr a, a_bdlknc a with
  | None, None => raise Exception "lakarr and bdlknc must be specified"
  | _, _ => mret tt
  end;;
  let dims := (h_nlay model, h_nrow model, h_ncol model) in
  lakarr ← of_result (make_transient3d dims (a_lakarr a));
  bdlknc ← of_result (make_transient3d dims (a_bdlknc a));
  let sill_data := init_sill_data (a_sill_data a) in
  flux_data ← init_flux_data model (a_nlakes a) (a_flux_data a);
  mret {| options := options; nlakes := a_nlakes a; ipakcb := ipakcb;
          theta := a_theta a; nssitr := a_nssitr a; sscncr := a_sscncr a;
          surfdep := a_surfdep a; stages := stages; stage_range := stage_range;
          tabdata := tabdata; iunit_tab := tab_units;
          lakarr := lakarr; bdlknc := bdlknc;
          sill_data := sill_data; flux_data := flux_data;
          unit_number := unitnumber |}.

(** *** [ModflowLak.write_file] *)

(** [x.keys()] when [x] may be [None] *)
Definition keys_of {St A} (d : option (gmap nat A)) : M St (gmap nat A) :=
  match d with
  | Some m => mret m
  | None => raise AttributeError "'NoneType' object has no attribute 'keys'"
  end.

(** [ds9[n]] *)
Definition flux_row {St} (ds9 : flux_value) (n : nat) : M St (list scalar) :=
  match ds9 with
  | FvDict d => dict_get d n
  | FvList l => index l n
  | FvArray a =>
      match shape a with
      | [rows; cols] =>
          if (n <? rows)%nat then mret (take cols (drop (n * cols) (data a)))
          else raise IndexError "index out of bounds"
      | _ => raise IndexError "invalid index"
      end
  | FvNum _ => raise TypeError "object is not subscriptable"
  end.

(** Lines 298-310: dataset 3, one line per lake *)
Definition write_lake_line (model : host) (p : lak) (steady : bool) (n : nat)
    : M wstate unit :=
  st ← arr_get1 (stages p) n;
  sr ← (if steady then
          lo ← arr_get2 (stage_range p) n 0;
          hi ← arr_get2 (stage_range p) n 1;
          mret [lo; hi]
        else mret []);
  tu ← (if tabdata p then
          match iunit_tab p with
          | Some units => u ← index units n; mret [SInt u]
          | None => raise TypeError "'NoneType' object has no attribute '__getitem__'"
          end
        else mret []);
  let ipos := [10%nat] ++ (if steady then [10%nat; 10%nat] else [])
                       ++ (if tabdata p then [5%nat] else []) in
  fwrite (write_fixed_var ([st] ++ sr ++ tu) 10 (Some ipos)
                          (h_free_format_input model) None).

(** Lines 332-350: datasets 7 and 8 of one period *)
Definition write_sills (model : host) (ds8_keys : gmap nat sill_entry) (kper : nat)
    : M wstate unit :=
  let ds8 := default [] (ds8_keys !! kper) in
  let nslms := length ds8 in
  fwrite (write_fixed_var [SInt (Z.of_nat nslms)] 5 None
                          (h_free_format_input model) (Some "Data set 7"));;
  for_each ds8 (fun d =>
    fwrite (write_fixed_var d.1 5 None (h_free_format_input model) (Some "Data set 8a"));;
    fwrite (write_fixed_var d.2 10 None (h_free_format_input model) (Some "Data set 8b"))).

(** Lines 352-366: dataset 9 of one period *)
Definition write_fluxes (model : host) (p : lak) (ds9 : flux_value) (kper : nat)
    : M wstate unit :=
  for_each (range (Z.to_nat (nlakes p))) (fun n =>
    let steady := steady_or_true model kper in
    row ← flux_row ds9 n;
    let t := if (0 <? kper)%nat && steady then row else take 4 row in
    fwrite (write_fixed_var t 10 None (h_free_format_input model) (Some "Data set 9a"))).

(** Lines 315-366: the block of one stress period *)
Definition write_period (model : host) (p : lak)
    (ds8_keys : gmap nat sill_entry) (ds9_keys : gmap nat flux_value) (kper : nat)
    : M wstate unit :=
  let '(itmp, file_entry_lakarr) := get_kper_entry (lakarr p) kper in
  let '(ibd, file_entry_bdlknc) := get_kper_entry (bdlknc p) kper in
  let itmp2 := if bool_decide (is_Some (ds9_keys !! kper)) then 1 else 0 in
  fwrite (write_fixed_var [SInt itmp; SInt itmp2; SInt 1] 10 None
            (h_free_format_input model)
            (Some ("Stress period " +:+ Py.str_int (Z.of_nat kper + 1))));;
  (if 0 <? itmp then
     fwrite file_entry_lakarr;;
     fwrite file_entry_bdlknc;;
     write_sills model ds8_keys kper
   else mret tt);;
  (if 0 <? itmp2 then
     ds9 ← dict_get ds9_keys kper;
     write_fluxes model p ds9 kper
   else mret tt).

(** Lines 272-366: everything between [open] and [close] *)
Definition write_body (model : host) (p : lak) : M wstate unit :=
  fwrite ("# " +:+ ftype +:+ " package for " +:+ h_version model
          +:+ ", generated by Flopy." +:+ "
");;
  (if (0 <? length (options p))%nat then
     for_each (options p) (fun option => fwrite (option +:+ " "));;
     fwrite "
"
   else mret tt);;
  fwrite (write_fixed_var [SInt (nlakes p); SInt (ipakcb p)] 10 None
                          (h_free_format_input model) None);;
  let steady := existsb id (h_steady model) in
  let t := [SFloat (theta p)]
           ++ (if float_is_neg (theta p) || steady
               then [SInt (nssitr p); SFloat (sscncr p)] else [])
           ++ (if float_is_neg (theta p) then [SFloat (surfdep p)] else []) in
  fwrite (write_fixed_var t 10 None (h_free_format_input model) None);;
  steady0 ← index (h_steady model) 0;
  for_each (range (Z.to_nat (nlakes p))) (write_lake_line model p steady0);;
  ds8_keys ← keys_of (sill_data p);
  ds9_keys ← keys_of (flux_data p);
  let nper := length (h_steady model) in
  for_each (range nper) (write_period model p ds8_keys ds9_keys).

(** [ModflowLak.write_file] *)
Definition write_file (model : host) (p : lak) : M wstate unit :=
  open_write;;
  write_body model p;;
  fclose.

(** *** [ModflowLak.load] (with [ext_unit_dict=None]) *)

(** [t = line.split()] in free format, [read_fixed_var] otherwise *)
Definition tokens (model : host) (line : string) (fixed : M fstate (list string))
    : M fstate (list string) :=
  if h_array_free_format model then mret (Py.split line) else fixed.

(** [int(t[i])] and [float(t[i])] *)
Definition int_at (t : list string) (i : nat) : M fstate Z :=
  x ← index t i; int_of x.
Definition float_at (t : list string) (i : nat) : M fstate float :=
  x ← index t i; float_of x.

(** Lines 443-462: dataset 2 *)
Definition load_dataset2 (model : host) : M fstate (float * Z * float * float) :=
  line ← readline;
  let line := Py.rstrip line in
  t ← tokens model line (read_fixed_var line 4 10 None);
  theta ← float_at t 0;
  ns ← (if float_is_neg theta then
          nssitr ← try_default (int_at t 1) 0;
          sscncr ← try_default (float_at t 2) (float_lit 0);
          mret (nssitr, sscncr)
        else mret (0, float_lit 0));
  surfdep ← (if float_is_neg theta then float_at t 3 else mret (float_lit 0));
  mret (theta, ns.1, ns.2, surfdep).

(** Lines 475-488: dataset 3, the line of one lake *)
Definition load_lake_line (model : host) (tabdata : bool)
    (acc : list scalar * list (float * float) * list Z) (lake : nat)
    : M fstate (list scalar * list (float * float) * list Z) :=
  let '(stages, stage_range, tab_units) := acc in
  line ← readline;
  let line := Py.rstrip line in
  t ← tokens model line (read_fixed_var line 1 10 (Some [10; 10; 10; 5]%nat));
  t0 ← index t 0;
  steady0 ← index (h_steady model) 0;
  sr ← (if (steady0 : bool) then
          lo ← float_at t 1; hi ← float_at t 2; mret [(lo, hi)]
        else mret []);
  let ipos := if (steady0 : bool) then 3%nat else 1%nat in
  tu ← (if tabdata then iu ← int_at t ipos; mret [iu] else mret []);
  mret (stages ++ [SStr t0], stage_range ++ sr, tab_units ++ tu).

(** Lines 533-552: one sill record, datasets 8a and 8b *)
Definition load_sill (model : host) : M fstate (list scalar * list scalar) :=
  line ← readline;
  let line := Py.rstrip line in
  t ← tokens model line
        (ic ← int_of (Py.slice line 0 5);
         read_fixed_var line (Z.to_nat (ic + 1)) 5 None);
  ic ← int_at t 0;
  ds8a ← foldM (fun acc j => v ← int_at t (Z.to_nat j); mret (acc ++ [SInt v]))
               (zrange 1 (ic + 1)) [SInt ic];
  line ← readline;
  let line := Py.rstrip line in
  t ← tokens model line (read_fixed_var line (Z.to_nat (ic - 1)) 10 None);
  silvt ← foldM (fun acc j => v ← float_at t j; mret (acc ++ [SFloat v]))
                (range (Z.to_nat (ic - 1))) [];
  mret (ds8a, silvt).

(** Lines 559-580: dataset 9, the line of one lake *)
Definition load_flux (model : host) (iper : nat) (stage_range : list (float * float))
    (ds9 : gmap nat (list scalar)) (n : nat) : M fstate (gmap nat (list scalar)) :=
  line ← readline;
  let line := Py.rstrip line in
  t ← tokens model line (read_fixed_var line 6 10 None);
  t0 ← float_at t 0; t1 ← float_at t 1; t2 ← float_at t 2; t3 ← float_at t 3;
  steady ← index (h_steady model) iper;
  ext ← (if (steady : bool) then
           match iper with
           | O => r ← index stage_range n; mret [SFloat r.1; SFloat r.2]
           | S _ => t4 ← float_at t 4; t5 ← float_at t 5; mret [SFloat t4; SFloat t5]
           end
         else mret [SFloat (float_lit 0); SFloat (float_lit 0)]);
  mret (<[n := [SFloat t0; SFloat t1; SFloat t2; SFloat t3] ++ ext]> ds9).

(** The dictionaries [load] fills period by period. *)
Record loaded := {
  lake_loc : gmap nat util3d;
  lake_lknc : gmap nat util3d;
  l_sill_data : gmap nat sill_entry;
  l_flux_data : gmap nat flux_value
}.

(** Lines 494-581: the block of one stress period; [dims] is [None] when
    [nper] was given, [nlay], [nrow] and [ncol] being unbound then *)
Definition load_period (model : host) (dims : option (nat * nat * nat)) (nlakes : Z)
    (stage_range : list (float * float)) (acc : loaded) (iper : nat) : M fstate loaded :=
  line ← readline;
  let line := Py.rstrip line in
  t ← tokens model line (read_fixed_var line 3 10 None);
  itmp ← int_at t 0; itmp1 ← int_at t 1; lwrt ← int_at t 2;
  acc ← (if 0 <? itmp then
           shp ← match dims with
                 | Some d => mret d
                 | None => raise UnboundLocalError
                             "local variable 'nlay' referenced before assignment"
                 end;
           lakarr ← util3d_load shp;
           bdlknc ← util3d_load shp;
           line ← readline;
           let t := Py.split (Py.rstrip line) in
           nslms ← int_at t 0;
           sills ← (if 0 <? nslms then
                      ds8 ← foldM (fun ds8 _ => d ← load_sill model; mret (ds8 ++ [d]))
                                  (range (Z.to_nat nslms)) [];
                      mret (<[iper := ds8]> (l_sill_data acc))
                    else mret (l_sill_data acc));
           mret {| lake_loc := <[iper := lakarr]> (lake_loc acc);
                   lake_lknc := <[iper := bdlknc]> (lake_lknc acc);
                   l_sill_data := sills; l_flux_data := l_flux_data acc |}
         else mret acc);
  if 0 <=? itmp1 then
    ds9 ← foldM (load_flux model iper stage_range) (range (Z.to_nat nlakes)) ∅;
    mret {| lake_loc := lake_loc acc; lake_lknc := lake_lknc acc;
            l_sill_data := l_sill_data acc;
            l_flux_data := <[iper := FvDict ds9]> (l_flux_data acc) |}
  else mret acc.

(** Lines 407-581: what is read from the stream *)
Record lak_file := {
  f_options : list string; f_nlakes : Z; f_ipakcb : Z; f_theta : float;
  f_nssitr : Z; f_sscncr : float; f_surfdep : float;
  f_stages : list scalar; f_stage_range : list (float * float);
  f_tab_units : option (list Z); f_dims : option (nat * nat * nat);
  f_periods : loaded
}.

(** Lines 410-430: opening the file; the options, and the line that holds
    dataset 1b *)
Definition load_head (f : farg) : M fstate (list string * bool * string) :=
  match f with FileName _ => open_read | FileHandle => mret tt end;;
  line ← skip_comments;
  if Py.contains "TABLEINPUT" (Py.upper line) then
    line ← readline; mret (["TABLEINPUT"], true, line)
  else mret ([], false, line).

Definition load_stream (f : farg) (model : host) (nper : option nat) : M fstate lak_file :=
  hd ← load_head f;
  let '(options, tabdata, line) := hd in
  let t := Py.split (Py.strip line) in
  nlakes ← int_at t 0;
  ipakcb ← try_default (int_at t 1) 0;
  ds2 ← load_dataset2 model;
  let '(theta, nssitr, sscncr, surfdep) := ds2 in
  let dims := match nper with
              | None => Some (h_nlay model, h_nrow model, h_ncol model)
              | Some _ => None
              end in
  let nper := match nper with Some n => n | None => h_nper model end in
  ds3 ← foldM (load_lake_line model tabdata) (range (Z.to_nat nlakes)) ([], [], []);
  let '(stages, stage_range, tab_units) := ds3 in
  periods ← foldM (load_period model dims nlakes stage_range) (range nper)
                  {| lake_loc := ∅; lake_lknc := ∅; l_sill_data := ∅; l_flux_data := ∅ |};
  mret {| f_options := options; f_nlakes := nlakes; f_ipakcb := ipakcb;
          f_theta := theta; f_nssitr := nssitr; f_sscncr := sscncr;
          f_surfdep := surfdep; f_stages := stages; f_stage_range := stage_range;
          f_tab_units := if (tabdata : bool) then Some tab_units else None;
          f_dims := dims; f_periods := periods |}.

(** Lines 583-618: the containers and the package built from what was read *)
Definition build (model : host) (r : lak_file) : result (lak * host) :=
  match f_dims r with
  | None => Raise (PyErr UnboundLocalError
                         "local variable 'nlay' referenced before assignment")
  | Some dims =>
      match transient3d_init dims (Some (lake_loc (f_periods r))) with
      | Raise e => Raise e
      | Ok loc =>
          match transient3d_init dims (Some (lake_lknc (f_periods r))) with
          | Raise e => Raise e
          | Ok lknc =>
              let n := match f_tab_units r with
                       | Some _ => 2 + f_nlakes r | None => 2 end in
              let args :=
                {| a_nlakes := f_nlakes r; a_ipakcb := Some (f_ipakcb r);
                   a_theta := f_theta r; a_nssitr := f_nssitr r;
                   a_sscncr := f_sscncr r; a_surfdep := f_surfdep r;
                   a_stages := StagesList (f_stages r);
                   a_stage_range :=
                     Some (RangeList (map (fun lh => SrRow [SFloat lh.1; SFloat lh.2])
                                          (f_stage_range r)));
                   a_tab_files := None; a_tab_units := f_tab_units r;
                   a_lakarr := Some (T3Obj loc); a_bdlknc := Some (T3Obj lknc);
                   a_sill_data := Some (SillDict (l_sill_data (f_periods r)));
                   a_flux_data := Some (FluxDict (l_flux_data (f_periods r)));
                   a_unitnumber := None;
                   a_filenames := FnList (repeat None (Z.to_nat n));
                   a_options := Some (f_options r) |} in
              match init args model with
              | (Ok p, model') => Ok (p, model')
              | (Raise e, _) => Raise e
              end
          end
      end
  end.

(** [ModflowLak.load(f, model, nper)] *)
Definition load (f : farg) (model : host) (nper : option nat) : M fstate (lak * host) :=
  r ← load_stream f model nper;
  of_result (build model r).

End WithCollaborators.
End Lak.

(* ===================================================================== *)
(** ** Instances used to run the adapters on concrete files *)
(* ===================================================================== *)

Module Run.

(** Floats restricted to whole numbers, written [12], [12.] or [12.0] and
    printed the way Python prints them, [12.0]. *)
Fixpoint before_dot (s : string) : string :=
  match s with
  | EmptyString => EmptyString
  | String c s' => if Ascii.eqb c "." then EmptyString else String c (before_dot s')
  end.

Fixpoint after_dot (s : string) : option string :=
  match s with
  | EmptyString => None
  | String c s' => if Ascii.eqb c "." then Some s' else after_dot s'
  end.

Fixpoint all_zero (s : string) : bool :=
  match s with
  | EmptyString => true
  | String c s' => Ascii.eqb c "0" && all_zero s'
  end.

Definition whole_of_string (s : string) : option Z :=
  let s := Py.strip s in
  match after_dot s with
  | None => Py.int s
  | Some frac => if all_zero frac then Py.int (before_dot s) else None
  end.

#[export] Instance whole_float : PyFloat := {|
  float := Z;
  float_of_string := whole_of_string;
  float_to_string := fun z => Py.str_int z +:+ ".0";
  float_is_neg := fun z => z <? 0;
  float_mul := Z.mul;
  float_lit := fun z => z
|}.

(** Arrays held as the one control line that stands for them in the file. *)
Definition load_line (dims : nat * nat * nat) : M fstate string :=
  line ← readline;
  if String.eqb line "" then raise ValueError "array control record expected"
  else mret (Py.rstrip line).

#[export] Instance line_arrays : ArrayIO := {|
  util3d := string;
  transient3d := gmap nat string;
  util3d_load := load_line;
  transient3d_init := fun _ v => Ok (default ∅ v);
  transient3d_copy := fun _ t => Ok t;
  get_kper_entry := fun t kper =>
    match t !! kper with
    | Some u => (1, u +:+ "
")
    | None => (-1, "")
    end
|}.

Definition model0 (nper : nat) (steady : list bool) : host :=
  {| h_nrow := 10; h_ncol := 10; h_nlay := 1; h_nper := nper;
     h_steady := steady; h_free_format_input := true; h_array_free_format := true;
     h_version := "mf2005"; h_next_unit := 1000; h_external := []; h_output := [] |}.

Definition closed_file (ls : list string) : fstate :=
  {| pending := ls; handle_open := false |}.

Definition no_stream : wstate := {| written := []; w_open := false |}.

End Run.

(* ===================================================================== *)
(** ** Concrete files and packages *)
(* ===================================================================== *)

Module Cases.
Import Run.

(** A GHB file of three stress periods: two records, then the sentinel -1,
    then 0. *)
Definition ghb_three : list string :=
  ["# GHB for MODFLOW, generated by Flopy.";
   "         2         0  AUX temp";
   "2";
   "1 2 3 4.0 5.0 7.0";
   "1 2 4 4.0 5.0 8.0";
   "-1";
   "0"].

(** The same file cut after the block of the first period. *)
Definition ghb_cut : list string :=
  ["# GHB for MODFLOW, generated by Flopy.";
   "         2         0  AUX temp";
   "2";
   "1 2 3 4.0 5.0 7.0";
   "1 2 4 4.0 5.0 8.0"].

(** A header whose two fields are not numbers. *)
Definition ghb_bad_header : list string :=
  ["abc xyz"; "1"; "1 2 3 4.0 5.0"].

(** A count line that is not a number. *)
Definition ghb_bad_count : list string :=
  ["         1         0"; "one"; "1 2 3 4.0 5.0"].

(** A file with the NOPRINT option. *)
Definition ghb_noprint : list string :=
  ["         1         0  NOPRINT"; "1"; "1 2 3 4.0 5.0"].

(** A block whose second record is given by reference to another file. *)
Definition ghb_external : list string :=
  ["         2         0";
   "2";
   "1 2 3 4.0 5.0";
   "OPEN/CLOSE ghb_2.dat";
   "0"].

Definition empty_ghb : Ghb.ghb := Ghb.init 0 ∅ None false None.

(** A lake package of one lake and two steady stress periods, with flux data
    for the first period only. *)
Definition lake_model : host := model0 2 [true; true].

Definition lake_args : Lak.lak_args :=
  {| Lak.a_nlakes := 1; Lak.a_ipakcb := None;
     Lak.a_theta := -1; Lak.a_nssitr := 0; Lak.a_sscncr := 0; Lak.a_surfdep := 0;
     Lak.a_stages := Lak.StagesList [SFloat 5];
     Lak.a_stage_range := None;
     Lak.a_tab_files := None; Lak.a_tab_units := None;
     Lak.a_lakarr := Some (Lak.T3Dict {[ 0%nat := "CONSTANT 1" ]});
     Lak.a_bdlknc := Some (Lak.T3Dict {[ 0%nat := "CONSTANT 2" ]});
     Lak.a_sill_data := Some (Lak.SillDict ∅);
     Lak.a_flux_data :=
       Some (Lak.FluxDict
               {[ 0%nat := Lak.FvDict
                    {[ 0%nat := [SFloat 1; SFloat 2; SFloat 3;
                                 SFloat 4; SFloat 5; SFloat 6] ]} ]});
     Lak.a_unitnumber := None; Lak.a_filenames := Lak.FnNone;
     Lak.a_options := None |}.

(** The same package with the default [sill_data=None]. *)
Definition lake_args_no_sill : Lak.lak_args :=
  {| Lak.a_nlakes := 1; Lak.a_ipakcb := None;
     Lak.a_theta := -1; Lak.a_nssitr := 0; Lak.a_sscncr := 0; Lak.a_surfdep := 0;
     Lak.a_stages := Lak.StagesList [SFloat 5];
     Lak.a_stage_range := None;
     Lak.a_tab_files := None; Lak.a_tab_units := None;
     Lak.a_lakarr := Some (Lak.T3Dict {[ 0%nat := "CONSTANT 1" ]});
     Lak.a_bdlknc := Some (Lak.T3Dict {[ 0%nat := "CONSTANT 2" ]});
     Lak.a_sill_data := None;
     Lak.a_flux_data := None;
     Lak.a_unitnumber := None; Lak.a_filenames := Lak.FnNone;
     Lak.a_options := None |}.

(** Three lakes with TABLEINPUT and two table files. *)
Definition lake_args_tables : Lak.lak_args :=
  {| Lak.a_nlakes := 3; Lak.a_ipakcb := None;
     Lak.a_theta := -1; Lak.a_nssitr := 0; Lak.a_sscncr := 0; Lak.a_surfdep := 0;
     Lak.a_stages := Lak.StagesList [SFloat 5; SFloat 6; SFloat 7];
     Lak.a_stage_range := None;
     Lak.a_tab_files := Some [Some "lake1.tab"; Some "lake2.tab"];
     Lak.a_tab_units := None;
     Lak.a_lakarr := Some (Lak.T3Dict {[ 0%nat := "CONSTANT 1" ]});
     Lak.a_bdlknc := Some (Lak.T3Dict {[ 0%nat := "CONSTANT 2" ]});
     Lak.a_sill_data := None;
     Lak.a_flux_data := None;
     Lak.a_unitnumber := None; Lak.a_filenames := Lak.FnNone;
     Lak.a_options := Some ["TABLEINPUT"] |}.

(** One lake, two stages. *)
Definition lake_args_two_stages : Lak.lak_args :=
  {| Lak.a_nlakes := 1; Lak.a_ipakcb := None;
     Lak.a_theta := -1; Lak.a_nssitr := 0; Lak.a_sscncr := 0; Lak.a_surfdep := 0;
     Lak.a_stages := Lak.StagesList [SFloat 5; SFloat 6];
     Lak.a_stage_range := None;
     Lak.a_tab_files := None; Lak.a_tab_units := None;
     Lak.a_lakarr := Some (Lak.T3Dict {[ 0%nat := "CONSTANT 1" ]});
     Lak.a_bdlknc := Some (Lak.T3Dict {[ 0%nat := "CONSTANT 2" ]});
     Lak.a_sill_data := None;
     Lak.a_flux_data := None;
     Lak.a_unitnumber := None; Lak.a_filenames := Lak.FnNone;
     Lak.a_options := None |}.

(** A LAK file whose number of lakes is not a number. *)
Definition lak_bad_header : list string :=
  ["# LAK package"; "two 0"; "-1.0 0 0.0 0.0"].

(** What a run of the GHB loader leaves in the dictionary. *)
Definition loaded_spd (run : result Ghb.ghb * fstate) : gmap nat Ghb.spd_value :=
  match run.1 with
  | Ok pkg => Ghb.stress_period_data pkg
  | Raise _ => ∅
  end.

Definition loaded_ipakcb (run : result Ghb.ghb * fstate) : option Z :=
  match run.1 with Ok pkg => Some (Ghb.ipakcb pkg) | Raise _ => None end.

Definition loaded_options (run : result Ghb.ghb * fstate) : option (list string) :=
  match run.1 with Ok pkg => Some (Ghb.options pkg) | Raise _ => None end.

Definition ghb_run (nper : nat) (file : list string) : result Ghb.ghb * fstate :=
  Ghb.load (FileName "x.ghb") (model0 nper [true]) None (closed_file file).

(** The stream once the header of a file is read, and once [n] more lines
    are. *)
Definition after_header (file : list string) (n : nat) : fstate :=
  {| pending := drop n file; handle_open := true |}.

Definition first_block : gmap nat Ghb.spd_value :=
  {[ 0%nat := Ghb.SpdRecs
       [[Ghb.CInt 1; Ghb.CInt 2; Ghb.CInt 3; Ghb.CFloat 4; Ghb.CFloat 5; Ghb.CFloat 7];
        [Ghb.CInt 1; Ghb.CInt 2; Ghb.CInt 4; Ghb.CFloat 4; Ghb.CFloat 5; Ghb.CFloat 8]] ]}.

(** The lake package built, written and loaded again. *)
Definition lake_built : result Lak.lak * host := Lak.init lake_args lake_model.

Definition write_built (built : result Lak.lak * host) : result unit * wstate :=
  match built with
  | (Ok p, m') => Lak.write_file m' p no_stream
  | (Raise e, _) => (Raise e, no_stream)
  end.

Definition lake_written : result unit * wstate := write_built lake_built.

Definition lake_reloaded : result (Lak.lak * host) * fstate :=
  Lak.load (FileName "x.lak") lake_built.2 None (closed_file (file_lines lake_written.2)).

(** The stress periods a package has flux data for. *)
Definition flux_periods (built : result Lak.lak * host) : list nat :=
  match built.1 with
  | Ok p => match Lak.flux_data p with
            | Some fd => map fst (map_to_list fd)
            | None => []
            end
  | Raise _ => []
  end.

Definition a_record : Ghb.row :=
  [Ghb.CInt 1; Ghb.CInt 1; Ghb.CInt 1; Ghb.CFloat 4; Ghb.CFloat 5].

End Cases.

(* ===================================================================== *)
(** ** Predicates the statements are written with *)
(* ===================================================================== *)

(** [m] leaves the component [proj] of the state as it found it, on the
    normal and on the error path. *)
Definition preserves {St A B} (proj : St -> B) (m : M St A) : Prop :=
  forall s, proj (m s).2 = proj s.

(** [m] raises from the state [s]. *)
Definition raises {St A} (m : M St A) (s : St) : Prop :=
  exists e s', m s = (Raise e, s').

(** A writer that is entered with the stream open and leaves it closed
    exactly when it returns normally. *)
Definition closes_iff_ok (m : M wstate unit) : Prop :=
  forall s, w_open s = true -> w_open (m s).2 = negb (is_ok (m s).1).

(** A reader that leaves the handle open whatever state it starts from. *)
Definition leaves_open {A} (m : M fstate A) : Prop :=
  forall s, handle_open (m s).2 = true.

Section Statements.
Context `{PyFloat} `{ArrayIO}.

(** [reads_blocks aux iper k spd s spd' s']: starting at period [iper] with
    the dictionary [spd] and the stream [s], the blocks of [k] periods are
    read one after the other, each from its count line on and none of them
    raising, and leave [spd'] and [s']. *)
Inductive reads_blocks (aux : list string)
  : nat -> nat -> gmap nat Ghb.spd_value -> fstate
    -> gmap nat Ghb.spd_value -> fstate -> Prop :=
| reads_done iper spd s : reads_blocks aux iper 0 spd s spd s
| reads_next iper k spd s line rest spd1 s1 spd2 s2 :
    pending s = line :: rest ->
    Ghb.load_block aux iper (line +:+ "
") spd {| pending := rest; handle_open := handle_open s |} = (Ok spd1, s1) ->
    reads_blocks aux (S iper) k spd1 s1 spd2 s2 ->
    reads_blocks aux iper (S k) spd s spd2 s2.

(** A record line the loader accepts. *)
Definition good_record (dt : Ghb.dtype) (line : string) : bool :=
  negb (Py.contains "open/close" (Py.lower (line +:+ "
")))
  && is_ok (Ghb.row_of_tokens dt (Py.split (Py.strip (line +:+ "
")))).

(** The record set [add_record] works on: the Explicit set of the period, or
    a copy of the set in effect there. *)
Definition working_set (spd : gmap nat Ghb.spd_value) (kper : nat) : list Ghb.row :=
  match spd !! kper with
  | Some (Ghb.SpdRecs rs) => rs
  | _ => (Ghb.effective spd kper).2
  end.

(** The length of the array the constructor makes of [stages]: none for a
    float, whose array is zero-dimensional. *)
Definition stages_length (st : Lak.stages_arg) : option Z :=
  match st with
  | Lak.StagesFloat _ => None
  | Lak.StagesList l => Some (Z.of_nat (length l))
  | Lak.StagesArray a => Z.of_nat <$> head (shape a)
  | Lak.StagesOther => None
  end.

(** The shape of the array the constructor makes of [stage_range]. *)
Definition stage_range_shape (sr : Lak.stage_range_arg) : option (list Z) :=
  match sr with
  | Lak.RangeList l => Some (map Z.of_nat (shape (Lak.np_array2 l)))
  | Lak.RangeArray a => Some (map Z.of_nat (shape a))
  | Lak.RangeFloat _ => None
  end.

(** The units [model.next_ext_unit()] gives to [n] files in a row. *)
Definition units_from (start : Z) (n : nat) : list Z :=
  map (fun i => start + Z.of_nat i) (seq 0 n).

(** The files [zip(tab_units, tab_files)] registers with the model. *)
Fixpoint registered (tab_units : list Z) (tab_files : list (option string))
    : list (string * Z) :=
  match tab_units, tab_files with
  | iu :: us, Some fname :: fs => (fname, iu) :: registered us fs
  | iu :: us, None :: fs => registered us fs
  | _, _ => []
  end.

Definition all_named (tab_files : list (option string)) : bool :=
  forallb (fun f => match f with Some _ => true | None => false end) tab_files.

(** The units the package ends with: those given, or fresh ones. *)
Definition tab_units_of (model : host) (tab_units : option (list Z))
    (tab_files : list (option string)) : list Z :=
  match tab_units with
  | Some u => u
  | None => units_from (h_next_unit model) (length tab_files)
  end.

End Statements.

(** *** Further predicates *)

(** A line that starts with [#]. *)
Definition is_comment (l : string) : bool :=
  match l with
  | String "#" _ => true
  | _ => false
  end.

(** The stream once [load] has opened it, when it is given a file name. *)
Definition opened (f : farg) (s : fstate) : fstate :=
  match f with
  | FileName _ => {| pending := pending s; handle_open := true |}
  | FileHandle => s
  end.

(** A token the option loop of the GHB loader takes for AUX. *)
Definition mentions_aux (tok : string) : bool :=
  Py.contains "aux" (Py.lower tok).

Section MoreStatements.
Context `{PyFloat} `{ArrayIO}.

(** A row that has the fields of a schema: an integer in each [np.int]
    field, a float in each [np.float32] one, and no other cell. *)
Fixpoint conforms (dt : Ghb.dtype) (r : Ghb.row) : bool :=
  match dt, r with
  | [], [] => true
  | (_, Ghb.np_int) :: dt', Ghb.CInt _ :: r' => conforms dt' r'
  | (_, Ghb.np_float32) :: dt', Ghb.CFloat _ :: r' => conforms dt' r'
  | _, _ => false
  end.

(** What the loader may leave in the dictionary for a period: 0, -1, or a
    record array that is not empty and whose rows have the schema. *)
Definition loaded_value_ok (dt : Ghb.dtype) (v : Ghb.spd_value) : Prop :=
  match v with
  | Ghb.SpdInt z => z = 0 \/ z = -1
  | Ghb.SpdRecs rs => rs <> [] /\ forallb (conforms dt) rs = true
  end.

(** The dictionary the period loop has built so far: its keys are below
    [n], and its values are what the loader may store. *)
Definition store_ok (dt : Ghb.dtype) (n : nat) (spd : gmap nat Ghb.spd_value) : Prop :=
  forall j v, spd !! j = Some v -> (j < n)%nat /\ loaded_value_ok dt v.

(** What Python raises when [nlay] is read and was never bound. *)
Definition unbound_nlay : pyerr :=
  PyErr UnboundLocalError "local variable 'nlay' referenced before assignment".

(** Lines 590-617: the arguments [ModflowLak.load] hands to the constructor
    (with [ext_unit_dict=None]), [loc] and [lknc] being the two containers
    it has built. *)
Definition loaded_args (r : Lak.lak_file) (loc lknc : transient3d) : Lak.lak_args :=
  {| Lak.a_nlakes := Lak.f_nlakes r; Lak.a_ipakcb := Some (Lak.f_ipakcb r);
     Lak.a_theta := Lak.f_theta r; Lak.a_nssitr := Lak.f_nssitr r;
     Lak.a_sscncr := Lak.f_sscncr r; Lak.a_surfdep := Lak.f_surfdep r;
     Lak.a_stages := Lak.StagesList (Lak.f_stages r);
     Lak.a_stage_range :=
       Some (Lak.RangeList (map (fun lh => Lak.SrRow [SFloat lh.1; SFloat lh.2])
                                (Lak.f_stage_range r)));
     Lak.a_tab_files := None; Lak.a_tab_units := Lak.f_tab_units r;
     Lak.a_lakarr := Some (Lak.T3Obj loc); Lak.a_bdlknc := Some (Lak.T3Obj lknc);
     Lak.a_sill_data := Some (Lak.SillDict (Lak.l_sill_data (Lak.f_periods r)));
     Lak.a_flux_data := Some (Lak.FluxDict (Lak.l_flux_data (Lak.f_periods r)));
     Lak.a_unitnumber := None;
     Lak.a_filenames :=
       Lak.FnList (repeat None (Z.to_nat (match Lak.f_tab_units r with
                                          | Some _ => 2 + Lak.f_nlakes r
                                          | None => 2
                                          end)));
     Lak.a_options := Some (Lak.f_options r) |}.

(** A value kept as the text that was read. *)
Definition is_text (v : scalar) : bool :=
  match v with SStr _ => true | _ => false end.

(** The number of values the constructor asks of the flux entry of a lake
    in period [key]. *)
Definition flux_entry_length (steady : list bool) (key : nat) : nat :=
  if default true (steady !! key) && (0 <? key)%nat then 6%nat else 4%nat.

(** What the constructor accepts as the flux data of period [key], [nkeys]
    being the number of periods [flux_data] has. *)
Definition flux_value_accepted (steady : list bool) (nlakes : Z) (nkeys : nat)
    (key : nat) (v : Lak.flux_value) : Prop :=
  match v with
  | Lak.FvArray a => (exists sh, shape a = 0%nat :: sh) /\ Z.of_nat nkeys = nlakes
  | Lak.FvNum (SStr _) => True
  | Lak.FvNum _ => nlakes <= 0
  | Lak.FvDict rows =>
      forall k, (k < Z.to_nat nlakes)%nat ->
        exists td, rows !! k = Some td /\ (flux_entry_length steady key <= length td)%nat
  | Lak.FvList _ => True
  end.

(** What it keeps in [flux_data] for an accepted value. *)
Definition flux_value_stored (v : Lak.flux_value) : Lak.flux_value :=
  match v with
  | Lak.FvArray _ => Lak.FvDict ∅
  | Lak.FvNum (SStr _) => v
  | Lak.FvNum _ => Lak.FvDict ∅
  | Lak.FvDict _ => v
  | Lak.FvList _ => v
  end.

(** Flux data as the loader builds them: a dictionary that has, for each
    lake, a list of six values. *)
Definition six_values (nlakes : Z) (v : Lak.flux_value) : Prop :=
  exists rows, v = Lak.FvDict rows /\
    forall k, (k < Z.to_nat nlakes)%nat ->
      exists td, rows !! k = Some td /\ length td = 6%nat.

End MoreStatements.

(** *** Further files and packages *)

Module MoreCases.
Import Run Cases.

(** Two comment lines. *)
Definition two_comments : list string :=
  ["# GHB for MODFLOW"; "#"].

(** What [ghb_three] leaves in the dictionary. *)
Definition three_periods : gmap nat Ghb.spd_value :=
  <[2%nat := Ghb.SpdInt 0]> (<[1%nat := Ghb.SpdInt (-1)]> first_block).

Definition ghb_three_loaded : Ghb.ghb :=
  Ghb.init 0 three_periods (Some (Ghb.dtype_of (Some ["temp"]))) false
           (Some ["AUX temp"]).

(** A file that ends inside its only block: two records are announced and
    one is there. *)
Definition ghb_short_block : list string :=
  ["         2         0";
   "2";
   "1 2 3 4.0 5.0"].

(** Files that start with the parameter line, with and without
    parameters. *)
Definition ghb_no_parameters : list string :=
  ["# GHB"; "PARAMETER 0 0"; "         1         0"; "1"; "1 2 3 4.0 5.0"].

Definition ghb_parameters : list string :=
  ["# GHB"; "PARAMETER 2 10"; "         1         0"; "1"; "1 2 3 4.0 5.0"].

(** A file whose header gives 77 as the unit of the cell-by-cell flows. *)
Definition ghb_unit77 : list string :=
  ["         1        77  AUX temp";
   "1";
   "1 2 3 4.0 5.0 7.0"].

Definition ghb_unit77_loaded : Ghb.ghb :=
  Ghb.init 53
    {[ 0%nat := Ghb.SpdRecs
         [[Ghb.CInt 1; Ghb.CInt 2; Ghb.CInt 3;
           Ghb.CFloat 4; Ghb.CFloat 5; Ghb.CFloat 7]] ]}
    (Some (Ghb.dtype_of (Some ["temp"]))) false (Some ["AUX temp"]).

(** A model of one steady stress period, and the same model once a loaded
    lake package has registered its cell-by-cell file with it. *)
Definition one_period : host := model0 1 [true].

Definition one_period_registered : host :=
  {| h_nrow := 10; h_ncol := 10; h_nlay := 1; h_nper := 1;
     h_steady := [true]; h_free_format_input := true; h_array_free_format := true;
     h_version := "mf2005"; h_next_unit := 1000; h_external := [];
     h_output := [(0, None, "LAK")] |}.

Definition end_of_file : fstate := {| pending := []; handle_open := true |}.

Definition no_periods : Lak.loaded :=
  {| Lak.lake_loc := ∅; Lak.lake_lknc := ∅;
     Lak.l_sill_data := ∅; Lak.l_flux_data := ∅ |}.

(** A lake file of one lake and one stress period that has neither arrays
    nor flux data; [theta] is 0 and dataset 2 goes on with [nssitr] and
    [sscncr]. *)
Definition lak_small : list string :=
  ["# LAK"; "1 0"; "0.0 50 7.0"; "5.0 -10000.0 10000.0"; "0 -1 0"].

Definition lak_small_read (dims : option (nat * nat * nat)) : Lak.lak_file :=
  {| Lak.f_options := []; Lak.f_nlakes := 1; Lak.f_ipakcb := 0;
     Lak.f_theta := 0; Lak.f_nssitr := 0; Lak.f_sscncr := 0; Lak.f_surfdep := 0;
     Lak.f_stages := [SStr "5.0"]; Lak.f_stage_range := [(-10000, 10000)];
     Lak.f_tab_units := None; Lak.f_dims := dims; Lak.f_periods := no_periods |}.

Definition lak_small_loaded : Lak.lak :=
  {| Lak.options := []; Lak.nlakes := 1; Lak.ipakcb := 0;
     Lak.theta := 0; Lak.nssitr := 0; Lak.sscncr := 0; Lak.surfdep := 0;
     Lak.stages := {| shape := [1%nat]; data := [SStr "5.0"] |};
     Lak.stage_range :=
       {| shape := [1%nat; 2%nat]; data := [SFloat (-10000); SFloat 10000] |};
     Lak.tabdata := false; Lak.iunit_tab := None;
     Lak.lakarr := ∅; Lak.bdlknc := ∅;
     Lak.sill_data := Some ∅; Lak.flux_data := Some ∅;
     Lak.unit_number := 119 |}.

(** The same lake with TABLEINPUT. *)
Definition lak_tables : list string :=
  ["TABLEINPUT"; "1 0"; "-1.0 0 0.0 0.0"; "5.0 -10000.0 10000.0 77"; "0 -1 0"].

Definition lak_tables_read : Lak.lak_file :=
  {| Lak.f_options := ["TABLEINPUT"]; Lak.f_nlakes := 1; Lak.f_ipakcb := 0;
     Lak.f_theta := -1; Lak.f_nssitr := 0; Lak.f_sscncr := 0; Lak.f_surfdep := 0;
     Lak.f_stages := [SStr "5.0"]; Lak.f_stage_range := [(-10000, 10000)];
     Lak.f_tab_units := Some [77];
     Lak.f_dims := Some (1%nat, 10%nat, 10%nat); Lak.f_periods := no_periods |}.

(** A lake file with flux data for its only stress period; the stage of the
    lake is not a number. *)
Definition lak_flux : list string :=
  ["# LAK"; "1 0"; "-1.0 0 0.0 0.0"; "high -10000.0 10000.0";
   "0 0 0"; "1.0 2.0 3.0 4.0"].

Definition lak_flux_rows : gmap nat (list scalar) :=
  {[ 0%nat := [SFloat 1; SFloat 2; SFloat 3; SFloat 4;
               SFloat (-10000); SFloat 10000] ]}.

Definition lak_flux_data : gmap nat Lak.flux_value :=
  {[ 0%nat := Lak.FvDict lak_flux_rows ]}.

Definition lak_flux_read : Lak.lak_file :=
  {| Lak.f_options := []; Lak.f_nlakes := 1; Lak.f_ipakcb := 0;
     Lak.f_theta := -1; Lak.f_nssitr := 0; Lak.f_sscncr := 0; Lak.f_surfdep := 0;
     Lak.f_stages := [SStr "high"]; Lak.f_stage_range := [(-10000, 10000)];
     Lak.f_tab_units := None;
     Lak.f_dims := Some (1%nat, 10%nat, 10%nat);
     Lak.f_periods :=
       {| Lak.lake_loc := ∅; Lak.lake_lknc := ∅;
          Lak.l_sill_data := ∅; Lak.l_flux_data := lak_flux_data |} |}.

Definition lak_flux_loaded : Lak.lak :=
  {| Lak.options := []; Lak.nlakes := 1; Lak.ipakcb := 0;
     Lak.theta := -1; Lak.nssitr := 0; Lak.sscncr := 0; Lak.surfdep := 0;
     Lak.stages := {| shape := [1%nat]; data := [SStr "high"] |};
     Lak.stage_range :=
       {| shape := [1%nat; 2%nat]; data := [SFloat (-10000); SFloat 10000] |};
     Lak.tabdata := false; Lak.iunit_tab := None;
     Lak.lakarr := ∅; Lak.bdlknc := ∅;
     Lak.sill_data := Some ∅; Lak.flux_data := Some lak_flux_data;
     Lak.unit_number := 119 |}.

(** The package the constructor returns for [lake_args_no_sill]. *)
Definition lake_no_sill : Lak.lak :=
  {| Lak.options := []; Lak.nlakes := 1; Lak.ipakcb := 0;
     Lak.theta := -1; Lak.nssitr := 0; Lak.sscncr := 0; Lak.surfdep := 0;
     Lak.stages := {| shape := [1%nat]; data := [SFloat 5] |};
     Lak.stage_range :=
       {| shape := [1%nat; 2%nat]; data := [SFloat (-10000); SFloat 10000] |};
     Lak.tabdata := false; Lak.iunit_tab := None;
     Lak.lakarr := {[ 0%nat := "CONSTANT 1" ]};
     Lak.bdlknc := {[ 0%nat := "CONSTANT 2" ]};
     Lak.sill_data := None; Lak.flux_data := None;
     Lak.unit_number := 119 |}.

(** The flux data of [lake_args], and the package built from them. *)
Definition lake_flux_arg : gmap nat Lak.flux_value :=
  {[ 0%nat := Lak.FvDict
       {[ 0%nat := [SFloat 1; SFloat 2; SFloat 3; SFloat 4; SFloat 5; SFloat 6] ]} ]}.

Definition lake_with_flux : Lak.lak :=
  {| Lak.options := []; Lak.nlakes := 1; Lak.ipakcb := 0;
     Lak.theta := -1; Lak.nssitr := 0; Lak.sscncr := 0; Lak.surfdep := 0;
     Lak.stages := {| shape := [1%nat]; data := [SFloat 5] |};
     Lak.stage_range :=
       {| shape := [1%nat; 2%nat]; data := [SFloat (-10000); SFloat 10000] |};
     Lak.tabdata := false; Lak.iunit_tab := None;
     Lak.lakarr := {[ 0%nat := "CONSTANT 1" ]};
     Lak.bdlknc := {[ 0%nat := "CONSTANT 2" ]};
     Lak.sill_data := Some ∅; Lak.flux_data := Some lake_flux_arg;
     Lak.unit_number := 119 |}.

(** Arguments without [lakarr] and [bdlknc], and arguments with the unit of
    the cell-by-cell flows and a list of one file name. *)
Definition lake_args_no_arrays : Lak.lak_args :=
  {| Lak.a_nlakes := 1; Lak.a_ipakcb := None;
     Lak.a_theta := -1; Lak.a_nssitr := 0; Lak.a_sscncr := 0; Lak.a_surfdep := 0;
     Lak.a_stages := Lak.StagesList [SFloat 5];
     Lak.a_stage_range := None;
     Lak.a_tab_files := None; Lak.a_tab_units := None;
     Lak.a_lakarr := None; Lak.a_bdlknc := None;
     Lak.a_sill_data := None; Lak.a_flux_data := None;
     Lak.a_unitnumber := None; Lak.a_filenames := Lak.FnNone;
     Lak.a_options := None |}.

Definition lake_args_one_name : Lak.lak_args :=
  {| Lak.a_nlakes := 1; Lak.a_ipakcb := Some 53;
     Lak.a_theta := -1; Lak.a_nssitr := 0; Lak.a_sscncr := 0; Lak.a_surfdep := 0;
     Lak.a_stages := Lak.StagesList [SFloat 5];
     Lak.a_stage_range := None;
     Lak.a_tab_files := None; Lak.a_tab_units := None;
     Lak.a_lakarr := Some (Lak.T3Dict {[ 0%nat := "CONSTANT 1" ]});
     Lak.a_bdlknc := Some (Lak.T3Dict {[ 0%nat := "CONSTANT 2" ]});
     Lak.a_sill_data := None; Lak.a_flux_data := None;
     Lak.a_unitnumber := None; Lak.a_filenames := Lak.FnList [Some "model.lak"];
     Lak.a_options := None |}.

End MoreCases.

(* ===================================================================== *)
(** ** Facts about the stream monad *)
(* ===================================================================== *)

Section MonadFacts.
Context {St : Type}.

Lemma bind_ok {A B} (m : M St A) (f : A -> M St B) s a s' :
  m s = (Ok a, s') -> (m ≫= f) s = f a s'.
Proof. intros E. unfold mbind, M_bind. now rewrite E. Qed.

Lemma bind_raise {A B} (m : M St A) (f : A -> M St B) s e s' :
  m s = (Raise e, s') -> (m ≫= f) s = (Raise e, s').
Proof. intros E. unfold mbind, M_bind. now rewrite E. Qed.

Lemma bind_inv {A B} (m : M St A) (f : A -> M St B) s r s' :
  (m ≫= f) s = (r, s') ->
  (exists a s1, m s = (Ok a, s1) /\ f a s1 = (r, s')) \/
  (exists e, m s = (Raise e, s') /\ r = Raise e).
Proof.
  unfold mbind, M_bind. destruct (m s) as [[a|e] s1]; intros E.
  - left. eauto.
  - right. exists e. split; congruence.
Qed.

Context {B : Type} (proj : St -> B).

Lemma preserves_ret {A} (a : A) : preserves proj (mret a).
Proof. intros s. reflexivity. Qed.

Lemma preserves_raise {A} c msg : preserves proj (raise (A:=A) c msg).
Proof. intros s. reflexivity. Qed.

Lemma preserves_of_result {A} (r : result A) : preserves proj (of_result r).
Proof. intros s. reflexivity. Qed.

Lemma preserves_bind {A C} (m : M St A) (f : A -> M St C) :
  preserves proj m -> (forall a, preserves proj (f a)) -> preserves proj (m ≫= f).
Proof.
  intros Hm Hf s. unfold mbind, M_bind.
  specialize (Hm s). destruct (m s) as [[a|e] s1]; simpl in *.
  - rewrite Hf. exact Hm.
  - exact Hm.
Qed.

Lemma preserves_try_default {A} (m : M St A) d :
  preserves proj m -> preserves proj (try_default m d).
Proof.
  intros Hm s. unfold try_default. specialize (Hm s).
  destruct (m s) as [[a|e] s1]; exact Hm.
Qed.

Lemma preserves_index {A} (l : list A) i : preserves proj (index l i).
Proof. unfold index. destruct (l !! i); [apply preserves_ret | apply preserves_raise]. Qed.

Lemma preserves_int_of s : preserves proj (int_of s).
Proof. unfold int_of. destruct (Py.int s); [apply preserves_ret | apply preserves_raise]. Qed.

Lemma preserves_foldM {A C} (f : C -> A -> M St C) l :
  (forall c a, preserves proj (f c a)) -> forall c, preserves proj (foldM f l c).
Proof.
  intros Hf. induction l as [|x l IH]; intros c; simpl.
  - apply preserves_ret.
  - apply preserves_bind; [apply Hf | intros; apply IH].
Qed.

Lemma preserves_for_each {A} (l : list A) (body : A -> M St unit) :
  (forall a, preserves proj (body a)) -> preserves proj (for_each l body).
Proof. intros Hb. unfold for_each. apply preserves_foldM. intros; apply Hb. Qed.

End MonadFacts.

(** Goals [preserves proj m], by the structure of [m]. *)
Ltac preserves_step :=
  match goal with
  | |- preserves _ (mret _) => apply preserves_ret
  | |- preserves _ (raise _ _) => apply preserves_raise
  | |- preserves _ (of_result _) => apply preserves_of_result
  | |- preserves _ (index _ _) => apply preserves_index
  | |- preserves _ (int_of _) => apply preserves_int_of
  | |- preserves _ (try_default _ _) => apply preserves_try_default
  | |- preserves _ (for_each _ _) => apply preserves_for_each; intros
  | |- preserves _ (foldM _ _ _) => apply preserves_foldM; intros
  | |- preserves _ (_ ≫= _) => apply preserves_bind; [ | intros ]
  | |- preserves _ (if ?b then _ else _) => destruct b
  | |- preserves _ (match ?x with _ => _ end) => destruct x
  | |- preserves _ (let '(_, _) := ?x in _) => destruct x
  end.

Lemma readline_keeps_handle : preserves handle_open readline.
Proof. intros s. unfold readline. now destruct (pending s). Qed.

Lemma skip_comments_keeps_handle : preserves handle_open skip_comments.
Proof.
  intros s. unfold skip_comments.
  generalize (handle_open s) as h. generalize (pending s) as ls.
  induction ls as [|l ls IH]; intros h; simpl; [reflexivity|].
  destruct l as [|c l']; [reflexivity|].
  destruct (Ascii.eqb_spec c "#") as [->|Hc]; [apply IH|].
  destruct c as [[] [] [] [] [] [] [] []]; try reflexivity. now destruct Hc.
Qed.

Lemma fwrite_keeps_open s : preserves w_open (fwrite s).
Proof. intros st. unfold fwrite. destruct (w_open st) eqn:E; simpl; congruence. Qed.

Create HintDb preserves.
#[export] Hint Resolve readline_keeps_handle skip_comments_keeps_handle
  fwrite_keeps_open : preserves.

Ltac preserves_tac := repeat first [ solve [auto with preserves] | preserves_step ].

Lemma closes_fclose : closes_iff_ok fclose.
Proof. intros s _. reflexivity. Qed.

Lemma closes_bind {A} (m : M wstate A) (f : A -> M wstate unit) :
  preserves w_open m -> (forall a, closes_iff_ok (f a)) -> closes_iff_ok (m ≫= f).
Proof.
  intros Hm Hf s Hs. unfold mbind, M_bind.
  specialize (Hm s). destruct (m s) as [[a|e] s1]; simpl in *.
  - apply Hf. congruence.
  - congruence.
Qed.

Lemma closes_after_open (k : M wstate unit) :
  closes_iff_ok k ->
  forall s, w_open ((open_write ≫= fun _ => k) s).2
            = negb (is_ok ((open_write ≫= fun _ => k) s).1).
Proof. intros Hk s. unfold mbind, M_bind, open_write. now apply Hk. Qed.

Lemma leaves_open_after_open {A} (k : M fstate A) :
  preserves handle_open k -> leaves_open (open_read ≫= fun _ => k).
Proof. intros Hk s. unfold mbind, M_bind, open_read. now rewrite Hk. Qed.

Lemma leaves_open_bind {A C} (m : M fstate A) (f : A -> M fstate C) :
  leaves_open m -> (forall a, preserves handle_open (f a)) -> leaves_open (m ≫= f).
Proof.
  intros Hm Hf s. unfold mbind, M_bind.
  specialize (Hm s). destruct (m s) as [[a|e] s1]; simpl in *.
  - now rewrite Hf.
  - exact Hm.
Qed.

Section StreamFacts.
Context `{PyFloat}.

Lemma float_of_preserves {St B} (proj : St -> B) s : preserves proj (float_of s).
Proof. unfold float_of. preserves_tac. Qed.

Lemma arr_get1_preserves {St B} (proj : St -> B) a n : preserves proj (arr_get1 a n).
Proof. unfold arr_get1. preserves_tac. Qed.

Lemma arr_get2_preserves {St B} (proj : St -> B) a n j : preserves proj (arr_get2 a n j).
Proof. unfold arr_get2. preserves_tac. Qed.

Lemma read_fixed_var_preserves {St B} (proj : St -> B) line ncol len ipos :
  preserves proj (read_fixed_var line ncol len ipos).
Proof. unfold read_fixed_var. preserves_tac. Qed.

(** *** The GHB loader never closes its stream *)

Lemma ghb_load_records_keeps dt n : forall ibnd cur,
  preserves handle_open (Ghb.load_records dt n ibnd cur).
Proof.
  induction n as [|n IH]; intros ibnd cur; simpl; preserves_tac.
Qed.

Lemma ghb_load_block_keeps aux iper line spd :
  preserves handle_open (Ghb.load_block aux iper line spd).
Proof.
  pose proof ghb_load_records_keeps. unfold Ghb.load_block. preserves_tac.
Qed.

Lemma ghb_load_periods_keeps aux n : forall iper spd,
  preserves handle_open (Ghb.load_periods aux n iper spd).
Proof.
  pose proof ghb_load_block_keeps.
  induction n as [|n IH]; intros iper spd; simpl; preserves_tac.
Qed.

Lemma ghb_parse_options_keeps t : forall o a,
  preserves handle_open (Ghb.parse_options t o a).
Proof.
  remember (length t) as n eqn:Hn. revert t Hn.
  induction n as [n IH] using lt_wf_ind. intros t -> o a.
  destruct t as [|x t]; simpl; preserves_tac;
    (eapply IH; [|reflexivity]; simpl; lia).
Qed.

Lemma ghb_header_line_leaves_open name : leaves_open (Ghb.header_line (FileName name)).
Proof.
  unfold Ghb.header_line. apply leaves_open_after_open.
  unfold Ghb.check_parameters. preserves_tac.
Qed.

Lemma ghb_load_leaves_open name model nper :
  leaves_open (Ghb.load (FileName name) model nper).
Proof.
  unfold Ghb.load. apply leaves_open_bind.
  - unfold Ghb.load_header. apply leaves_open_bind.
    + apply ghb_header_line_leaves_open.
    + intros line. pose proof ghb_parse_options_keeps.
      unfold Ghb.header_ipakcb, Ghb.header_options. preserves_tac.
  - intros [[ip o] a]. pose proof ghb_load_periods_keeps. preserves_tac.
Qed.

End StreamFacts.

Section WriterFacts.
Context `{PyFloat}.

(** *** [ModflowGhb.write_file] *)

Lemma ghb_write_transient_keeps free nper spd :
  preserves w_open (Ghb.write_transient free nper spd).
Proof. unfold Ghb.write_transient. preserves_tac. Qed.

Lemma ghb_write_file_closes model p s :
  w_open (Ghb.write_file model p s).2 = negb (is_ok (Ghb.write_file model p s).1).
Proof.
  pose proof ghb_write_transient_keeps.
  unfold Ghb.write_file. apply closes_after_open.
  repeat (apply closes_bind; [preserves_tac | intros]).
  apply closes_fclose.
Qed.

End WriterFacts.

Section LakStreamFacts.
Context `{PyFloat} `{ArrayIO}.

(** *** [ModflowLak.write_file] *)

Lemma lak_write_body_keeps model p : preserves w_open (Lak.write_body model p).
Proof.
  pose proof (arr_get1_preserves w_open).
  pose proof (arr_get2_preserves w_open).
  unfold Lak.write_body, Lak.write_lake_line, Lak.write_period, Lak.write_sills,
    Lak.write_fluxes, Lak.flux_row, Lak.keys_of, Lak.dict_get.
  preserves_tac.
Qed.

Lemma lak_write_file_closes model p s :
  w_open (Lak.write_file model p s).2 = negb (is_ok (Lak.write_file model p s).1).
Proof.
  unfold Lak.write_file. apply closes_after_open.
  apply closes_bind; [apply lak_write_body_keeps | intros; apply closes_fclose].
Qed.

(** *** [ModflowLak.load] *)

(** The array loader is a collaborator: it is taken not to close the stream
    it reads from. *)
Hypothesis util3d_load_keeps : forall dims, preserves handle_open (util3d_load dims).

Lemma lak_tokens_keeps model line fixed :
  preserves handle_open fixed -> preserves handle_open (Lak.tokens model line fixed).
Proof. intros. unfold Lak.tokens. preserves_tac. Qed.

Lemma lak_int_at_keeps t i : preserves handle_open (Lak.int_at t i).
Proof. unfold Lak.int_at. preserves_tac. Qed.

Lemma lak_float_at_keeps t i : preserves handle_open (Lak.float_at t i).
Proof. pose proof (float_of_preserves handle_open). unfold Lak.float_at. preserves_tac. Qed.

Lemma lak_load_sill_keeps model : preserves handle_open (Lak.load_sill model).
Proof.
  pose proof lak_int_at_keeps. pose proof lak_float_at_keeps.
  pose proof (read_fixed_var_preserves handle_open).
  unfold Lak.load_sill.
  repeat first [ apply lak_tokens_keeps | solve [auto with preserves] | preserves_step ].
Qed.

Lemma lak_load_flux_keeps model iper sr ds9 n :
  preserves handle_open (Lak.load_flux model iper sr ds9 n).
Proof.
  pose proof lak_float_at_keeps.
  pose proof (read_fixed_var_preserves handle_open).
  unfold Lak.load_flux.
  repeat first [ apply lak_tokens_keeps | solve [auto with preserves] | preserves_step ].
Qed.

Lemma lak_load_period_keeps model dims nlakes sr acc iper :
  preserves handle_open (Lak.load_period model dims nlakes sr acc iper).
Proof.
  pose proof lak_int_at_keeps. pose proof lak_load_sill_keeps.
  pose proof lak_load_flux_keeps.
  pose proof (read_fixed_var_preserves handle_open).
  unfold Lak.load_period.
  repeat first [ apply lak_tokens_keeps | solve [auto with preserves] | preserves_step ].
Qed.

Lemma lak_load_head_leaves_open name : leaves_open (Lak.load_head (FileName name)).
Proof.
  unfold Lak.load_head. apply leaves_open_after_open. preserves_tac.
Qed.

Lemma lak_load_leaves_open name model nper :
  leaves_open (Lak.load (FileName name) model nper).
Proof.
  pose proof lak_int_at_keeps. pose proof lak_float_at_keeps.
  pose proof lak_load_period_keeps.
  pose proof (read_fixed_var_preserves handle_open).
  unfold Lak.load. apply leaves_open_bind.
  - unfold Lak.load_stream. apply leaves_open_bind.
    + apply lak_load_head_leaves_open.
    + intros [[options tabdata] line].
      unfold Lak.load_dataset2, Lak.load_lake_line.
      repeat first [ apply lak_tokens_keeps | solve [auto with preserves]
                   | preserves_step ].
  - intros r. apply preserves_of_result.
Qed.

End LakStreamFacts.

(* ===================================================================== *)
(** ** The period loop of the GHB loader *)
(* ===================================================================== *)

Lemma readline_cons s l r :
  pending s = l :: r ->
  readline s = (Ok (l +:+ "
"), {| pending := r; handle_open := handle_open s |}).
Proof. intros E. unfold readline. now rewrite E. Qed.

Lemma readline_eof s : pending s = [] -> readline s = (Ok "", s).
Proof. intros E. unfold readline. now rewrite E. Qed.

Lemma line_not_empty l : String.eqb (l +:+ "
") "" = false.
Proof. now destruct l. Qed.

Lemma index_ok {St A} (l : list A) i a (s : St) :
  l !! i = Some a -> index l i s = (Ok a, s).
Proof. intros E. unfold index. now rewrite E. Qed.

Lemma int_of_ok {St} tok z (s : St) : Py.int tok = Some z -> int_of tok s = (Ok z, s).
Proof. intros E. unfold int_of. now rewrite E. Qed.

Lemma int_of_raise {St} tok (s : St) :
  Py.int tok = None ->
  int_of tok s = (Raise (PyErr ValueError
                    ("invalid literal for int() with base 10: '" +:+ tok +:+ "'")), s).
Proof. intros E. unfold int_of. now rewrite E. Qed.

Section GhbLoop.
Context `{PyFloat}.

Lemma load_periods_eof aux n iper spd s :
  pending s = [] -> Ghb.load_periods aux n iper spd s = (Ok spd, s).
Proof.
  intros E. destruct n; [reflexivity|]. simpl.
  erewrite bind_ok by (apply readline_eof; exact E). reflexivity.
Qed.

Lemma load_periods_cons aux n iper spd s l r :
  pending s = l :: r ->
  Ghb.load_periods aux (S n) iper spd s
  = (Ghb.load_block aux iper (l +:+ "
") spd ≫= Ghb.load_periods aux n (S iper))
      {| pending := r; handle_open := handle_open s |}.
Proof.
  intros E. simpl.
  erewrite bind_ok by (apply readline_cons; exact E).
  now rewrite line_not_empty.
Qed.

(** The block of a period touches the key of that period only. *)
Lemma load_block_other aux iper line spd s spd' s' j :
  Ghb.load_block aux iper line spd s = (Ok spd', s') ->
  j <> iper -> spd' !! j = spd !! j.
Proof.
  unfold Ghb.load_block. intros E Hj.
  apply bind_inv in E as [(t0 & s1 & _ & E)|(e & _ & ?)]; [|discriminate].
  apply bind_inv in E as [(itmp & s2 & _ & E)|(e & _ & ?)]; [|discriminate].
  destruct ((itmp =? 0) || (itmp =? -1)).
  { injection E as <- <-. now rewrite lookup_insert_ne. }
  destruct (0 <? itmp).
  - apply bind_inv in E as [(cur & s3 & _ & E)|(e & _ & ?)]; [|discriminate].
    injection E as <- <-. now rewrite lookup_insert_ne.
  - now injection E as <- <-.
Qed.

Lemma load_periods_below aux n : forall iper spd s spd' s' j,
  Ghb.load_periods aux n iper spd s = (Ok spd', s') ->
  (j < iper)%nat -> spd' !! j = spd !! j.
Proof.
  induction n as [|n IH]; intros iper spd s spd' s' j E Hj.
  - now injection E as <- <-.
  - destruct (pending s) as [|l r] eqn:Ep.
    + rewrite load_periods_eof in E by exact Ep. now injection E as <- <-.
    + rewrite (load_periods_cons _ _ _ _ _ _ _ Ep) in E.
      apply bind_inv in E as [(spd1 & s1 & E1 & E)|(e & _ & ?)]; [|discriminate].
      rewrite (IH _ _ _ _ _ j E) by lia.
      eapply load_block_other; [exact E1 | lia].
Qed.

Lemma load_periods_above aux n : forall iper spd s spd' s' j,
  Ghb.load_periods aux n iper spd s = (Ok spd', s') ->
  (iper + n <= j)%nat -> spd' !! j = spd !! j.
Proof.
  induction n as [|n IH]; intros iper spd s spd' s' j E Hj.
  - now injection E as <- <-.
  - destruct (pending s) as [|l r] eqn:Ep.
    + rewrite load_periods_eof in E by exact Ep. now injection E as <- <-.
    + rewrite (load_periods_cons _ _ _ _ _ _ _ Ep) in E.
      apply bind_inv in E as [(spd1 & s1 & E1 & E)|(e & _ & ?)]; [|discriminate].
      rewrite (IH _ _ _ _ _ j E) by lia.
      eapply load_block_other; [exact E1 | lia].
Qed.

(** Reading [p + m] periods is reading [p] periods and then [m] more. *)
Lemma load_periods_split aux p m : forall iper spd s spd1 s1,
  Ghb.load_periods aux p iper spd s = (Ok spd1, s1) ->
  Ghb.load_periods aux (p + m) iper spd s
  = Ghb.load_periods aux m (iper + p) spd1 s1.
Proof.
  induction p as [|p IH]; intros iper spd s spd1 s1 E.
  - injection E as <- <-. now rewrite Nat.add_0_r.
  - destruct (pending s) as [|l r] eqn:Ep.
    + rewrite load_periods_eof in E by exact Ep. injection E as <- <-.
      now rewrite !load_periods_eof by exact Ep.
    + rewrite (load_periods_cons _ _ _ _ _ _ _ Ep) in E.
      change (S p + m)%nat with (S (p + m)).
      rewrite (load_periods_cons _ _ _ _ _ _ _ Ep).
      apply bind_inv in E as [(spd2 & s2 & E1 & E)|(e & _ & ?)]; [|discriminate].
      rewrite (bind_ok _ _ _ _ _ E1).
      rewrite (IH _ _ _ _ _ E). f_equal. lia.
Qed.

Lemma load_periods_split_raise aux p m : forall iper spd s e s1,
  Ghb.load_periods aux p iper spd s = (Raise e, s1) ->
  Ghb.load_periods aux (p + m) iper spd s = (Raise e, s1).
Proof.
  induction p as [|p IH]; intros iper spd s e s1 E.
  - discriminate.
  - destruct (pending s) as [|l r] eqn:Ep.
    + rewrite load_periods_eof in E by exact Ep. discriminate.
    + rewrite (load_periods_cons _ _ _ _ _ _ _ Ep) in E.
      change (S p + m)%nat with (S (p + m)).
      rewrite (load_periods_cons _ _ _ _ _ _ _ Ep).
      apply bind_inv in E as [(spd2 & s2 & E1 & E)|(e' & E1 & [= ->])].
      * rewrite (bind_ok _ _ _ _ _ E1). now apply IH.
      * now rewrite (bind_raise _ _ _ _ _ E1).
Qed.

End GhbLoop.

Section GhbBlocks.
Context `{PyFloat}.

Lemma reads_load_periods aux iper k spd s spd' s' :
  reads_blocks aux iper k spd s spd' s' ->
  forall n, (k <= n)%nat -> ((k < n)%nat -> pending s' = []) ->
  Ghb.load_periods aux n iper spd s = (Ok spd', s').
Proof.
  induction 1 as [iper spd s|iper k spd s line rest spd1 s1 spd2 s2 Ep E1 _ IH];
    intros n Hk Heof.
  - destruct n; [reflexivity|]. apply load_periods_eof, Heof. lia.
  - destruct n as [|n]; [lia|].
    rewrite (load_periods_cons _ _ _ _ _ _ _ Ep), (bind_ok _ _ _ _ _ E1).
    apply IH; [lia | intros; apply Heof; lia].
Qed.

Lemma load_periods_reads aux n : forall iper spd s spd' s',
  Ghb.load_periods aux n iper spd s = (Ok spd', s') ->
  exists k, (k <= n)%nat /\ reads_blocks aux iper k spd s spd' s'
            /\ ((k < n)%nat -> pending s' = []).
Proof.
  induction n as [|n IH]; intros iper spd s spd' s' E.
  - injection E as <- <-. exists 0%nat. split; [lia|]. split; [constructor|lia].
  - destruct (pending s) as [|l r] eqn:Ep.
    + rewrite load_periods_eof in E by exact Ep. injection E as <- <-.
      exists 0%nat. split; [lia|]. split; [constructor|auto].
    + rewrite (load_periods_cons _ _ _ _ _ _ _ Ep) in E.
      apply bind_inv in E as [(spd1 & s1 & E1 & E)|(e & _ & ?)]; [|discriminate].
      apply IH in E as (k & Hk & Hr & Heof).
      exists (S k). split; [lia|]. split.
      * econstructor; eauto.
      * intros; apply Heof; lia.
Qed.

(** After [k] blocks read from period 0 on, no key from [k] on is set. *)
Lemma reads_blocks_absent aux k s spd s' j :
  reads_blocks aux 0 k ∅ s spd s' -> (k <= j)%nat -> spd !! j = None.
Proof.
  intros Hr Hj.
  pose proof (reads_load_periods _ _ _ _ _ _ _ Hr k (le_n _)) as E.
  rewrite (load_periods_above _ _ _ _ _ _ _ j (E ltac:(lia))) by lia.
  apply lookup_empty.
Qed.

(** [load] is its header, then the period loop, then the constructor. *)
Lemma ghb_load_unfold f model nper s ip opts aux s1 :
  Ghb.load_header f s = (Ok (ip, opts, aux), s1) ->
  Ghb.load f model nper s
  = (spd ← Ghb.load_periods aux
             (match nper with Some n => n | None => h_nper model end) 0 ∅;
     mret (Ghb.init ip spd (Some (Ghb.dtype_of (Some aux))) false (Some opts))) s1.
Proof. intros E. unfold Ghb.load. now rewrite (bind_ok _ _ _ _ _ E). Qed.

(** The records before an [open/close] line are read, then the loader
    raises. *)
Lemma load_records_open_close dt bad rest : forall recs n ibnd cur s,
  pending s = recs ++ bad :: rest ->
  (length recs < n)%nat ->
  forallb (good_record dt) recs = true ->
  Py.contains "open/close" (Py.lower (bad +:+ "
")) = true ->
  Ghb.load_records dt n ibnd cur s
  = (Raise (PyErr NotImplementedError "load() method does not support 'open/close'"),
     {| pending := rest; handle_open := handle_open s |}).
Proof.
  induction recs as [|r recs IH]; intros n ibnd cur s Ep Hn Hgood Hbad;
    (destruct n as [|n]; [simpl in Hn; lia|]); simpl Ghb.load_records.
  - rewrite (bind_ok _ _ _ _ _ (readline_cons _ _ _ Ep)). now rewrite Hbad.
  - simpl in Hgood. apply andb_prop in Hgood as [Hr Hgood].
    unfold good_record in Hr. apply andb_prop in Hr as [Hoc Hrow].
    rewrite (bind_ok _ _ _ _ _ (readline_cons _ _ _ Ep)).
    apply negb_true_iff in Hoc. rewrite Hoc.
    destruct (Ghb.row_of_tokens dt _) as [row|e] eqn:Erow; [|discriminate].
    unfold mbind at 1, M_bind, of_result.
    rewrite (IH n (S ibnd) _ {| pending := recs ++ bad :: rest;
                                handle_open := handle_open s |});
      simpl in *; auto; lia.
Qed.

Lemma load_records_length dt n : forall ibnd cur s cur' s',
  Ghb.load_records dt n ibnd cur s = (Ok cur', s') -> length cur' = length cur.
Proof.
  induction n as [|n IH]; intros ibnd cur s cur' s' E; simpl in E.
  - now injection E as <- <-.
  - apply bind_inv in E as [(line & s1 & _ & E)|(e & _ & ?)]; [|discriminate].
    destruct (Py.contains _ _); [discriminate|].
    apply bind_inv in E as [(r & s2 & _ & E)|(e & _ & ?)]; [|discriminate].
    apply IH in E. now rewrite length_insert in E.
Qed.

(** What the block of a period stores, by the count its line reads. *)
Lemma load_block_stores aux iper line spd s tok itmp spd' s' :
  Py.split (Py.strip line) !! 0%nat = Some tok ->
  Py.int tok = Some itmp ->
  Ghb.load_block aux iper line spd s = (Ok spd', s') ->
  (itmp = 0 -> spd' !! iper = Some (Ghb.SpdInt 0)) /\
  (itmp = -1 -> spd' !! iper = Some (Ghb.SpdInt (-1))) /\
  (itmp < -1 -> spd' !! iper = spd !! iper) /\
  (0 < itmp -> exists rs, spd' !! iper = Some (Ghb.SpdRecs rs)
                          /\ length rs = Z.to_nat itmp).
Proof.
  intros Htok Hint E. unfold Ghb.load_block in E.
  rewrite (bind_ok _ _ _ _ _ (index_ok _ _ _ _ Htok)) in E.
  rewrite (bind_ok _ _ _ _ _ (int_of_ok _ _ _ Hint)) in E.
  destruct ((itmp =? 0) || (itmp =? -1)) eqn:E01.
  { injection E as <- <-. rewrite lookup_insert_eq.
    repeat split; intros; subst; try reflexivity; lia. }
  apply orb_false_iff in E01 as [E0 E1].
  apply Z.eqb_neq in E0, E1.
  destruct (0 <? itmp) eqn:Epos.
  - apply bind_inv in E as [(cur & s1 & Ec & E)|(e & _ & ?)]; [|discriminate].
    injection E as <- <-. rewrite lookup_insert_eq.
    apply Z.ltb_lt in Epos.
    repeat split; intros; try lia.
    exists cur. split; [reflexivity|].
    apply load_records_length in Ec. rewrite Ec.
    unfold Ghb.get_empty. apply repeat_length.
  - injection E as <- <-. apply Z.ltb_ge in Epos.
    repeat split; intros; try lia.
Qed.

(** C2 (amended). On load, once the header and the blocks of the periods
    before [p] are read, the count line of period [p] decides what the
    dictionary holds at key [p]: a count of 0 stores the integer 0 (Clear); a
    count of -1 stores the integer -1, so the key is present and holds the
    sentinel; a count below -1 leaves the key absent; a positive count stores
    a record array of that many rows. *)
Theorem ghb_load_count_line f model nper s ip opts aux s0 p spd_p s_p
    line rest tok itmp pkg s' :
  Ghb.load_header f s = (Ok (ip, opts, aux), s0) ->
  reads_blocks aux 0 p ∅ s0 spd_p s_p ->
  pending s_p = line :: rest ->
  (p < match nper with Some n => n | None => h_nper model end)%nat ->
  Py.split (Py.strip (line +:+ "
")) !! 0%nat = Some tok ->
  Py.int tok = Some itmp ->
  Ghb.load f model nper s = (Ok pkg, s') ->
  (itmp = 0 -> Ghb.stress_period_data pkg !! p = Some (Ghb.SpdInt 0)) /\
  (itmp = -1 -> Ghb.stress_period_data pkg !! p = Some (Ghb.SpdInt (-1))) /\
  (itmp < -1 -> Ghb.stress_period_data pkg !! p = None) /\
  (0 < itmp -> exists rs, Ghb.stress_period_data pkg !! p = Some (Ghb.SpdRecs rs)
                          /\ length rs = Z.to_nat itmp).
Proof.
  intros Hhdr Hr Hline Hp Htok Hint Hload.
  rewrite (ghb_load_unfold _ _ _ _ _ _ _ _ Hhdr) in Hload.
  apply bind_inv in Hload as [(spd & s1 & E & Hpkg)|(e & _ & ?)]; [|discriminate].
  injection Hpkg as <- <-. cbn [Ghb.stress_period_data Ghb.init].
  set (n := match nper with Some n => n | None => h_nper model end) in *.
  pose proof (reads_load_periods _ _ _ _ _ _ _ Hr p (le_n _)
                ltac:(intros; lia)) as Ep.
  replace n with (p + S (n - S p))%nat in E by lia.
  rewrite (load_periods_split _ _ _ _ _ _ _ _ Ep) in E.
  change (0 + p)%nat with p in E.
  rewrite (load_periods_cons _ _ _ _ _ _ _ Hline) in E.
  apply bind_inv in E as [(spd1 & s2 & E1 & E)|(e & _ & ?)]; [|discriminate].
  pose proof (load_periods_below _ _ _ _ _ _ _ p E ltac:(lia)) as Hkeep.
  rewrite Hkeep.
  destruct (load_block_stores _ _ _ _ _ _ _ _ _ Htok Hint E1) as (H0 & H1 & H2 & H3).
  repeat split; auto.
  intros Hneg. rewrite (H2 Hneg). simpl.
  eapply reads_blocks_absent; [exact Hr | lia].
Qed.

(** C3 (amended). A load that returns has read the header and the blocks of
    the first [k] periods, where either [k] is the number of periods or the
    file ends where the count line of period [k] is expected; the keys from
    [k] on are then absent. Conversely a file that ends at the count line of
    a period [k] loads, with the dictionary of the first [k] periods. Any
    other failure is raised, and no package is returned. *)
Theorem ghb_load_all_blocks_or_eof f model nper s :
  let n := match nper with Some n => n | None => h_nper model end in
  (forall pkg s', Ghb.load f model nper s = (Ok pkg, s') ->
     exists ip opts aux s1 k,
       Ghb.load_header f s = (Ok (ip, opts, aux), s1) /\ (k <= n)%nat /\
       reads_blocks aux 0 k ∅ s1 (Ghb.stress_period_data pkg) s' /\
       ((k < n)%nat -> pending s' = []) /\
       (forall j, (k <= j)%nat -> Ghb.stress_period_data pkg !! j = None)) /\
  (forall ip opts aux s1 k spd s',
     Ghb.load_header f s = (Ok (ip, opts, aux), s1) -> (k <= n)%nat ->
     reads_blocks aux 0 k ∅ s1 spd s' ->
     ((k < n)%nat -> pending s' = []) ->
     Ghb.load f model nper s
     = (Ok (Ghb.init ip spd (Some (Ghb.dtype_of (Some aux))) false (Some opts)), s')).
Proof.
  intros n. split.
  - intros pkg s' Hload.
    destruct (Ghb.load_header f s) as [[[[ip opts] aux]|e] s1] eqn:Hhdr.
    + rewrite (ghb_load_unfold _ _ _ _ _ _ _ _ Hhdr) in Hload.
      apply bind_inv in Hload as [(spd & s2 & E & Hpkg)|(e & _ & ?)]; [|discriminate].
      injection Hpkg as <- <-. cbn [Ghb.stress_period_data Ghb.init].
      apply load_periods_reads in E as (k & Hk & Hr & Heof).
      exists ip, opts, aux, s1, k. repeat split; auto.
      intros j Hj. eapply reads_blocks_absent; eauto.
    + unfold Ghb.load in Hload. rewrite (bind_raise _ _ _ _ _ Hhdr) in Hload.
      discriminate.
  - intros ip opts aux s1 k spd s' Hhdr Hk Hr Heof.
    rewrite (ghb_load_unfold _ _ _ _ _ _ _ _ Hhdr).
    now rewrite (bind_ok _ _ _ _ _ (reads_load_periods _ _ _ _ _ _ _ Hr n Hk Heof)).
Qed.

(** C5. Once the header and the blocks of the periods before [p] are read, if
    the count line of period [p] announces [itmp] records and, after fewer
    than [itmp] well-formed record lines, a line contains [open/close] (in
    any case of letters), [load] raises [NotImplementedError] on that line. *)
Theorem ghb_load_open_close_unsupported f model nper s ip opts aux s0 p spd_p s_p
    cline recs bad rest tok itmp :
  Ghb.load_header f s = (Ok (ip, opts, aux), s0) ->
  reads_blocks aux 0 p ∅ s0 spd_p s_p ->
  (p < match nper with Some n => n | None => h_nper model end)%nat ->
  pending s_p = cline :: recs ++ bad :: rest ->
  Py.split (Py.strip (cline +:+ "
")) !! 0%nat = Some tok ->
  Py.int tok = Some itmp ->
  (length recs < Z.to_nat itmp)%nat ->
  forallb (good_record (Ghb.dtype_of (Some aux))) recs = true ->
  Py.contains "open/close" (Py.lower (bad +:+ "
")) = true ->
  Ghb.load f model nper s
  = (Raise (PyErr NotImplementedError "load() method does not support 'open/close'"),
     {| pending := rest; handle_open := handle_open s_p |}).
Proof.
  intros Hhdr Hr Hp Hline Htok Hint Hlen Hgood Hbad.
  rewrite (ghb_load_unfold _ _ _ _ _ _ _ _ Hhdr).
  set (n := match nper with Some n => n | None => h_nper model end) in *.
  pose proof (reads_load_periods _ _ _ _ _ _ _ Hr p (le_n _)
                ltac:(intros; lia)) as Ep.
  apply bind_raise.
  replace n with (p + S (n - S p))%nat by lia.
  rewrite (load_periods_split _ _ _ _ _ _ _ _ Ep).
  rewrite (load_periods_cons _ _ _ _ _ _ _ Hline).
  apply bind_raise. unfold Ghb.load_block.
  rewrite (bind_ok _ _ _ _ _ (index_ok _ _ _ _ Htok)).
  rewrite (bind_ok _ _ _ _ _ (int_of_ok _ _ _ Hint)).
  assert (0 < itmp) as Hpos by lia.
  replace ((itmp =? 0) || (itmp =? -1)) with false
    by (symmetry; apply orb_false_iff; split; apply Z.eqb_neq; lia).
  replace (0 <? itmp) with true by (symmetry; apply Z.ltb_lt; lia).
  apply bind_raise.
  now rewrite (load_records_open_close _ bad rest recs (Z.to_nat itmp) 0%nat _
                 {| pending := recs ++ bad :: rest; handle_open := handle_open s_p |}
                 eq_refl Hlen Hgood Hbad).
Qed.

End GhbBlocks.

(* ===================================================================== *)
(** ** Counts in the header and in the control lines *)
(* ===================================================================== *)

Section HeaderCounts.
Context `{PyFloat} `{ArrayIO}.

Lemma header_ipakcb_default (t : list string) tok st :
  t !! 1%nat = Some tok -> Py.int tok = None ->
  Ghb.header_ipakcb t st = (Ok 0, st).
Proof.
  intros Ht Hi. unfold Ghb.header_ipakcb, try_default.
  rewrite (bind_ok _ _ _ _ _ (index_ok _ _ _ _ Ht)).
  now rewrite (bind_raise _ _ _ _ _ (int_of_raise _ _ Hi)).
Qed.

Lemma header_ipakcb_total (t : list string) st :
  exists z, Ghb.header_ipakcb t st = (Ok z, st) /\ (z = 0 \/ z = 53).
Proof.
  unfold Ghb.header_ipakcb, try_default, index.
  destruct (t !! 1%nat) as [tok|]; unfold mbind, M_bind, mret, M_ret, raise; simpl.
  - unfold int_of. destruct (Py.int tok) as [z|]; simpl.
    + exists (if negb (z =? 0) then 53 else 0). split; [reflexivity|].
      destruct (z =? 0); auto.
    + exists 0. auto.
  - exists 0. auto.
Qed.

Lemma lak_ipakcb_default (t : list string) tok (st : fstate) :
  t !! 1%nat = Some tok -> Py.int tok = None ->
  try_default (Lak.int_at t 1) 0 st = (Ok 0, st).
Proof.
  intros Ht Hi. unfold try_default, Lak.int_at.
  rewrite (bind_ok _ _ _ _ _ (index_ok _ _ _ _ Ht)).
  now rewrite (int_of_raise _ _ Hi).
Qed.

(** C4 (amended). A token that is not a number aborts the load, with Python's
    [ValueError], where the count of a stress period (GHB) or the number of
    lakes (LAK) is read. Where the cell-by-cell flag, the second field of the
    header, is read, such a token is caught and the flag is 0, in both
    loaders; reading that flag never raises in the GHB loader, and what the
    GHB loader makes of its header does not depend on the first field, which
    it does not read. *)
Theorem header_and_control_counts :
  (* GHB: the flag of the header *)
  (forall f model nper s line s1 tok pkg s',
     Ghb.header_line f s = (Ok line, s1) ->
     Py.split (Py.strip line) !! 1%nat = Some tok -> Py.int tok = None ->
     Ghb.load f model nper s = (Ok pkg, s') -> Ghb.ipakcb pkg = 0) /\
  (forall t st, exists z, Ghb.header_ipakcb t st = (Ok z, st) /\ (z = 0 \/ z = 53)) /\
  (forall first first' rest,
     Ghb.header_ipakcb (first :: rest) = Ghb.header_ipakcb (first' :: rest) /\
     Ghb.header_options (first :: rest) = Ghb.header_options (first' :: rest)) /\
  (* GHB: the count line of a period *)
  (forall f model nper s ip opts aux s0 p spd_p s_p line rest tok,
     Ghb.load_header f s = (Ok (ip, opts, aux), s0) ->
     reads_blocks aux 0 p ∅ s0 spd_p s_p ->
     (p < match nper with Some n => n | None => h_nper model end)%nat ->
     pending s_p = line :: rest ->
     Py.split (Py.strip (line +:+ "
")) !! 0%nat = Some tok ->
     Py.int tok = None ->
     Ghb.load f model nper s
     = (Raise (PyErr ValueError
                 ("invalid literal for int() with base 10: '" +:+ tok +:+ "'")),
        {| pending := rest; handle_open := handle_open s_p |})) /\
  (* LAK: the number of lakes *)
  (forall f model nper s options tabdata line s1 tok,
     Lak.load_head f s = (Ok (options, tabdata, line), s1) ->
     Py.split (Py.strip line) !! 0%nat = Some tok -> Py.int tok = None ->
     Lak.load f model nper s
     = (Raise (PyErr ValueError
                 ("invalid literal for int() with base 10: '" +:+ tok +:+ "'")), s1)) /\
  (* LAK: the flag of the header *)
  (forall f model nper s options tabdata line s1 tok r s',
     Lak.load_head f s = (Ok (options, tabdata, line), s1) ->
     Py.split (Py.strip line) !! 1%nat = Some tok -> Py.int tok = None ->
     Lak.load_stream f model nper s = (Ok r, s') -> Lak.f_ipakcb r = 0).
Proof.
  split; [|split; [|split; [|split; [|split]]]].
  - intros f model nper s line s1 tok pkg s' Hl Ht Hi Hload.
    unfold Ghb.load, Ghb.load_header in Hload.
    apply bind_inv in Hload as [([[ip o] a] & s2 & Hh & Hload)|(e & _ & ?)];
      [|discriminate].
    rewrite (bind_ok _ _ _ _ _ Hl) in Hh.
    rewrite (bind_ok _ _ _ _ _ (header_ipakcb_default _ _ _ Ht Hi)) in Hh.
    apply bind_inv in Hh as [(oa & s3 & _ & Hh)|(e & _ & ?)]; [|discriminate].
    injection Hh as <- <- <- <-.
    apply bind_inv in Hload as [(spd & s4 & _ & Hload)|(e & _ & ?)]; [|discriminate].
    now injection Hload as <- <-.
  - apply header_ipakcb_total.
  - intros first first' rest. split; reflexivity.
  - intros f model nper s ip opts aux s0 p spd_p s_p line rest tok
      Hhdr Hr Hp Hline Htok Hint.
    rewrite (ghb_load_unfold _ _ _ _ _ _ _ _ Hhdr).
    set (n := match nper with Some n => n | None => h_nper model end) in *.
    pose proof (reads_load_periods _ _ _ _ _ _ _ Hr p (le_n _)
                  ltac:(intros; lia)) as Ep.
    apply bind_raise.
    replace n with (p + S (n - S p))%nat by lia.
    rewrite (load_periods_split _ _ _ _ _ _ _ _ Ep).
    rewrite (load_periods_cons _ _ _ _ _ _ _ Hline).
    apply bind_raise. unfold Ghb.load_block.
    rewrite (bind_ok _ _ _ _ _ (index_ok _ _ _ _ Htok)).
    apply bind_raise. now apply int_of_raise.
  - intros f model nper s options tabdata line s1 tok Hh Ht Hi.
    unfold Lak.load. apply bind_raise.
    unfold Lak.load_stream. rewrite (bind_ok _ _ _ _ _ Hh).
    apply bind_raise. unfold Lak.int_at.
    rewrite (bind_ok _ _ _ _ _ (index_ok _ _ _ _ Ht)).
    now apply int_of_raise.
  - intros f model nper s options tabdata line s1 tok r s' Hh Ht Hi Hload.
    unfold Lak.load_stream in Hload. rewrite (bind_ok _ _ _ _ _ Hh) in Hload.
    apply bind_inv in Hload as [(nlakes & s2 & _ & Hload)|(e & _ & ?)]; [|discriminate].
    apply bind_inv in Hload as [(ip & s3 & Hip & Hload)|(e & _ & ?)]; [|discriminate].
    rewrite (lak_ipakcb_default _ _ _ Ht Hi) in Hip. injection Hip as <- <-.
    apply bind_inv in Hload as [([[[th ns] sc] sd] & s4 & _ & Hload)|(e & _ & ?)];
      [|discriminate].
    apply bind_inv in Hload as [([[st sr] tu] & s5 & _ & Hload)|(e & _ & ?)];
      [|discriminate].
    apply bind_inv in Hload as [(per & s6 & _ & Hload)|(e & _ & ?)]; [|discriminate].
    now injection Hload as <- <-.
Qed.

End HeaderCounts.

(* ===================================================================== *)
(** ** Adding a record through the GHB package *)
(* ===================================================================== *)

Section AddRecord.
Context `{PyFloat}.

(** C6 (amended). [add_record(kper, index, values)] works on the Explicit
    record set of the period or, when there is none, on a copy of the set in
    effect. With [index] greater than the length of that set, the
    [IndexError] of the store is caught and the call fails with a plain
    [Exception] whose message starts with "mfghb error adding record to
    list: "; with [index] equal to the length the set grows by [values]; with
    a smaller [index] the slot is replaced; the period then holds an Explicit
    set, and no other period changes. *)
Theorem ghb_add_record_wraps_errors (p : Ghb.ghb) (kper index : nat) (values : Ghb.row) :
  let rs := working_set (Ghb.stress_period_data p) kper in
  ((length rs < index)%nat ->
     exists msg, Ghb.add_record p kper index values
                 = Raise (PyErr Exception ("mfghb error adding record to list: " +:+ msg)))
  /\
  (index = length rs ->
     exists p', Ghb.add_record p kper index values = Ok p' /\
       Ghb.stress_period_data p' = <[kper := Ghb.SpdRecs (rs ++ [values])]>
                                      (Ghb.stress_period_data p))
  /\
  ((index < length rs)%nat ->
     exists p', Ghb.add_record p kper index values = Ok p' /\
       Ghb.stress_period_data p' = <[kper := Ghb.SpdRecs (<[index := values]> rs)]>
                                      (Ghb.stress_period_data p)).
Proof.
  intros rs. unfold Ghb.add_record, Ghb.mflist_add_record.
  fold (working_set (Ghb.stress_period_data p) kper). fold rs.
  repeat split.
  - intros Hlt. apply Nat.ltb_lt in Hlt. rewrite Hlt. eauto.
  - intros ->. rewrite Nat.ltb_irrefl, Nat.eqb_refl. eauto.
  - intros Hlt.
    replace (length rs <? index)%nat with false by (symmetry; apply Nat.ltb_ge; lia).
    replace (index =? length rs)%nat with false by (symmetry; apply Nat.eqb_neq; lia).
    eauto.
Qed.

End AddRecord.

(* ===================================================================== *)
(** ** The Lake constructor *)
(* ===================================================================== *)

Lemma raises_bind_l {St A B} (m : M St A) (f : A -> M St B) s :
  raises m s -> raises (m ≫= f) s.
Proof. intros (e & s' & E). exists e, s'. now apply bind_raise. Qed.

Lemma raises_bind_ok {St A B} (m : M St A) (f : A -> M St B) s a s1 :
  m s = (Ok a, s1) -> raises (f a) s1 -> raises (m ≫= f) s.
Proof. intros E (e & s' & Ef). exists e, s'. now rewrite (bind_ok _ _ _ _ _ E). Qed.

Lemma raises_bind_any {St A B} (m : M St A) (f : A -> M St B) s :
  (forall a s1, m s = (Ok a, s1) -> raises (f a) s1) -> raises (m ≫= f) s.
Proof.
  intros Hf. unfold raises, mbind, M_bind.
  destruct (m s) as [[a|e] s1]; [now apply Hf | eauto].
Qed.

Section LakInit.
Context `{PyFloat} `{ArrayIO}.

Lemma init_stages_raises nlakes st model :
  stages_length st <> Some nlakes -> raises (Lak.init_stages nlakes st) model.
Proof.
  intros Hlen. unfold Lak.init_stages.
  destruct st as [x|l|a|]; simpl in Hlen.
  - eexists _, _. reflexivity.
  - unfold mbind, M_bind, mret, M_ret, shape0; simpl.
    destruct (Z.of_nat (length l) =? nlakes) eqn:E; simpl.
    + apply Z.eqb_eq in E. congruence.
    + eexists _, _. reflexivity.
  - unfold mbind, M_bind, mret, M_ret, shape0; simpl.
    destruct (shape a) as [|n sh]; simpl in *.
    + eexists _, _. reflexivity.
    + destruct (Z.of_nat n =? nlakes) eqn:E; simpl.
      * apply Z.eqb_eq in E. congruence.
      * eexists _, _. reflexivity.
  - eexists _, _. reflexivity.
Qed.

Lemma next_ext_unit_steady : preserves h_steady Lak.next_ext_unit.
Proof. intros m. reflexivity. Qed.
Lemma add_external_steady f u : preserves h_steady (Lak.add_external f u).
Proof. intros m. reflexivity. Qed.
Lemma add_output_file_steady u f pk : preserves h_steady (Lak.add_output_file u f pk).
Proof. intros m. reflexivity. Qed.

Lemma check_tab_files_steady tf : forall idx, preserves h_steady (Lak.check_tab_files idx tf).
Proof. induction tf as [|[x|] tf IH]; intros idx; simpl; preserves_tac. Qed.

Lemma register_tab_files_steady tu : forall tf,
  preserves h_steady (Lak.register_tab_files tu tf).
Proof.
  pose proof add_external_steady.
  induction tu as [|u tu IH]; intros [|[x|] tf]; simpl; preserves_tac.
Qed.

Lemma init_tab_files_steady td nl fn tf tu :
  preserves h_steady (Lak.init_tab_files td nl fn tf tu).
Proof.
  pose proof next_ext_unit_steady. pose proof check_tab_files_steady.
  pose proof register_tab_files_steady.
  unfold Lak.init_tab_files, Lak.alloc_tab_units. preserves_tac.
Qed.

Lemma check_stage_range_raises model m nlakes sr :
  h_steady model !! 0%nat = Some true ->
  map Z.of_nat (shape sr) <> [nlakes; 2] ->
  raises (Lak.check_stage_range model nlakes sr) m.
Proof.
  intros Hsteady Hshape. unfold Lak.check_stage_range.
  eapply raises_bind_ok; [apply index_ok; exact Hsteady|].
  rewrite bool_decide_eq_false_2 by exact Hshape.
  eexists _, _. reflexivity.
Qed.

Lemma state_after {St A B} (proj : St -> B) (m : M St A) s a s1 :
  preserves proj m -> m s = (Ok a, s1) -> proj s1 = proj s.
Proof. intros Hm E. specialize (Hm s). now rewrite E in Hm. Qed.

(** C7. The constructor raises when the array made of [stages] does not have
    [nlakes] entries (the array made of a float is zero-dimensional: it has
    no length, and every float raises), and when the first stress period is
    steady and the array made of [stage_range] does not have the shape
    [(nlakes, 2)]. *)
Theorem lak_init_validates_lake_count (a : Lak.lak_args) (model : host) :
  stages_length (Lak.a_stages a) <> Some (Lak.a_nlakes a)
  \/ (h_steady model !! 0%nat = Some true /\
      exists sr, Lak.a_stage_range a = Some sr /\
                 stage_range_shape sr <> Some [Lak.a_nlakes a; 2]) ->
  exists e model', Lak.init a model = (Raise e, model').
Proof.
  intros Hbad. change (raises (Lak.init a) model). unfold Lak.init.
  apply raises_bind_any. intros ipakcb m1 E1.
  assert (h_steady m1 = h_steady model) as Hs1.
  { pose proof add_output_file_steady.
    eapply state_after; [|exact E1]. preserves_tac. }
  apply raises_bind_any. intros tab_units m2 E2.
  assert (h_steady m2 = h_steady model) as Hs2.
  { rewrite <- Hs1. eapply state_after; [|exact E2]. apply init_tab_files_steady. }
  destruct Hbad as [Hst|(Hsteady & sr & Hsr & Hshape)].
  { apply raises_bind_l. now apply init_stages_raises. }
  apply raises_bind_any. intros stages m3 E3.
  assert (m3 = m2) as ->.
  { eapply (state_after (fun m => m)); [|exact E3].
    unfold Lak.init_stages, shape0. preserves_tac. }
  rewrite Hsr. clear Hsr. rewrite <- Hs2 in Hsteady.
  destruct sr as [l|x|arr]; simpl Lak.init_stage_range; simpl in Hshape;
    try (assert (map Z.of_nat (shape (Lak.np_array2 l)) <> [Lak.a_nlakes a; 2])
           by congruence);
    try (assert (map Z.of_nat (shape arr) <> [Lak.a_nlakes a; 2]) by congruence).
  - eapply raises_bind_ok; [reflexivity|].
    eapply raises_bind_ok; [reflexivity|].
    apply raises_bind_l. now apply check_stage_range_raises.
  - apply raises_bind_l. eexists _, _. reflexivity.
  - eapply raises_bind_ok; [reflexivity|].
    eapply raises_bind_ok; [reflexivity|].
    apply raises_bind_l. now apply check_stage_range_raises.
Qed.

(** *** Table input files *)

Lemma units_from_S start n : units_from start (S n) = start :: units_from (start + 1) n.
Proof.
  unfold units_from. simpl. f_equal; [lia|].
  rewrite <- seq_shift, map_map. apply map_ext. intros i. lia.
Qed.

Lemma check_tab_files_named tf : forall idx m,
  all_named tf = true -> Lak.check_tab_files idx tf m = (Ok tt, m).
Proof.
  induction tf as [|[x|] tf IH]; intros idx m Hn; simpl in *;
    [reflexivity | now apply IH | discriminate].
Qed.

Lemma alloc_units_result tf : forall acc m,
  exists m',
    foldM (fun units (_ : option string) => u ← Lak.next_ext_unit; mret (units ++ [u]))
          tf acc m
    = (Ok (acc ++ units_from (h_next_unit m) (length tf)), m')
    /\ h_external m' = h_external m /\ h_steady m' = h_steady m.
Proof.
  induction tf as [|x tf IH]; intros acc m; simpl.
  - exists m. rewrite app_nil_r. auto.
  - erewrite bind_ok by reflexivity.
    match goal with
    | |- exists _, foldM _ _ ?acc' ?m1 = _ /\ _ =>
        destruct (IH acc' m1) as (m' & E & Hext & Hst)
    end.
    exists m'. rewrite E. simpl in *. rewrite units_from_S, <- app_assoc. auto.
Qed.

Lemma register_result tu : forall tf m,
  exists m',
    Lak.register_tab_files tu tf m = (Ok tt, m')
    /\ h_external m' = h_external m ++ registered tu tf
    /\ h_steady m' = h_steady m.
Proof.
  induction tu as [|u tu IH]; intros tf m.
  - exists m. simpl. rewrite app_nil_r. auto.
  - destruct tf as [|[x|] tf]; simpl.
    + exists m. rewrite app_nil_r. auto.
    + erewrite bind_ok by reflexivity.
      match goal with
      | |- exists _, Lak.register_tab_files _ _ ?m1 = _ /\ _ =>
          destruct (IH tf m1) as (m' & E & Hext & Hst)
      end.
      exists m'. rewrite E. simpl in *. rewrite Hext, <- app_assoc. auto.
    + apply IH.
Qed.

Lemma init_tab_files_named nlakes fn tf tu model :
  all_named tf = true ->
  exists m',
    Lak.init_tab_files true nlakes fn (Some tf) tu model
    = (Ok (Some (tab_units_of model tu tf)), m')
    /\ h_external m' = h_external model ++ registered (tab_units_of model tu tf) tf
    /\ h_steady m' = h_steady model.
Proof.
  intros Hn. unfold Lak.init_tab_files.
  rewrite (bind_ok _ _ _ _ _ (check_tab_files_named _ 0%nat model Hn)).
  destruct tu as [u|]; simpl tab_units_of.
  - rewrite bind_ok with (a := u) (s' := model) by reflexivity.
    destruct (register_result u tf model) as (m' & E & Hext & Hst).
    exists m'. rewrite (bind_ok _ _ _ _ _ E). auto.
  - destruct (alloc_units_result tf [] model) as (m1 & E1 & Hext1 & Hst1).
    unfold Lak.alloc_tab_units. rewrite (bind_ok _ _ _ _ _ E1). simpl.
    destruct (register_result (units_from (h_next_unit model) (length tf)) tf m1)
      as (m' & E & Hext & Hst).
    exists m'. rewrite (bind_ok _ _ _ _ _ E). rewrite Hext, Hext1, Hst, Hst1. auto.
Qed.

(** C10. With TABLEINPUT among the options and a list of table files that is
    shorter than the number of lakes but names every file it holds, the
    test of the count raises nothing: the table files are registered with
    the model, each with its unit; and when the other arguments are
    acceptable the constructor returns the package, which holds those
    units. *)
Theorem lak_init_short_tab_files (a : Lak.lak_args) (model : host)
    (tf : list (option string)) :
  Lak.has_tableinput (Lak.a_options a) = true ->
  Lak.a_tab_files a = Some tf ->
  Z.of_nat (length tf) < Lak.a_nlakes a ->
  all_named tf = true ->
  let units := tab_units_of model (Lak.a_tab_units a) tf in
  (forall fn, exists m',
     Lak.init_tab_files true (Lak.a_nlakes a) fn (Lak.a_tab_files a)
                        (Lak.a_tab_units a) model
     = (Ok (Some units), m')
     /\ h_external m' = h_external model ++ registered units tf) /\
  (forall l la bd,
     Lak.a_ipakcb a = None ->
     Lak.a_stages a = Lak.StagesList l -> Z.of_nat (length l) = Lak.a_nlakes a ->
     Lak.a_stage_range a = None ->
     h_steady model <> [] ->
     Lak.a_lakarr a <> None ->
     (forall dims, Lak.make_transient3d dims (Lak.a_lakarr a) = Ok la) ->
     (forall dims, Lak.make_transient3d dims (Lak.a_bdlknc a) = Ok bd) ->
     Lak.a_flux_data a = None ->
     exists p m',
       Lak.init a model = (Ok p, m')
       /\ Lak.tabdata p = true /\ Lak.iunit_tab p = Some units
       /\ h_external m' = h_external model ++ registered units tf).
Proof.
  intros Htab Htf Hshort Hnamed units. split.
  - intros fn. rewrite Htf.
    destruct (init_tab_files_named (Lak.a_nlakes a) fn tf (Lak.a_tab_units a)
                model Hnamed) as (m' & E & Hext & _).
    exists m'. auto.
  - intros l la bd Hip Hst Hlen Hsr Hsteady Hlak Hla Hbd Hflux.
    unfold Lak.init. rewrite Hip, Htab, Htf, Hst, Hsr, Hflux.
    rewrite bind_ok with (a := 0) (s' := model) by reflexivity.
    destruct (init_tab_files_named (Lak.a_nlakes a)
                (Lak.fill_filenames (Lak.a_filenames a)
                   (Lak.name_count true (Lak.a_nlakes a)))
                tf (Lak.a_tab_units a) model Hnamed) as (m1 & E1 & Hext & Hs1).
    rewrite (bind_ok _ _ _ _ _ E1).
    rewrite bind_ok with (a := Lak.np_array1 l) (s' := m1).
    2:{ unfold Lak.init_stages.
        rewrite bind_ok with (a := Lak.np_array1 l) (s' := m1) by reflexivity.
        rewrite bind_ok with (a := length l) (s' := m1) by reflexivity.
        rewrite Hlen, Z.eqb_refl. reflexivity. }
    rewrite bind_ok with (a := Lak.default_stage_range (Lak.a_nlakes a)) (s' := m1)
      by reflexivity.
    rewrite bind_ok with (a := m1) (s' := m1) by reflexivity.
    rewrite bind_ok with (a := tt) (s' := m1).
    2:{ unfold Lak.check_stage_range. rewrite Hs1.
        destruct (h_steady model) as [|b st] eqn:Est; [congruence|].
        rewrite bind_ok with (a := b) (s' := m1) by reflexivity.
        destruct b; [|reflexivity].
        rewrite bool_decide_eq_true_2; [reflexivity|].
        simpl. rewrite Z2Nat.id by lia. reflexivity. }
    rewrite bind_ok with (a := tt) (s' := m1).
    2:{ destruct (Lak.a_lakarr a); [reflexivity | congruence]. }
    rewrite Hla, Hbd.
    rewrite bind_ok with (a := la) (s' := m1) by reflexivity.
    rewrite bind_ok with (a := bd) (s' := m1) by reflexivity.
    rewrite bind_ok with (a := None) (s' := m1) by reflexivity.
    eexists _, m1. split; [reflexivity|]. simpl. auto.
Qed.

End LakInit.

(* ===================================================================== *)
(** ** Releasing the stream *)
(* ===================================================================== *)

(** C9 (amended). [write_file] closes the stream it opened exactly when it
    returns normally, [close] being its last statement: on every path on
    which an error is raised the stream is left open. [load] never closes the
    stream it opens for a file name, whether it returns or raises (the array
    loader being taken not to close the stream it is handed). *)
Theorem stream_released_only_by_normal_write `{PyFloat} `{ArrayIO} :
  (forall dims, preserves handle_open (util3d_load dims)) ->
  (forall name model nper s,
     handle_open (Ghb.load (FileName name) model nper s).2 = true) /\
  (forall name model nper s,
     handle_open (Lak.load (FileName name) model nper s).2 = true) /\
  (forall model p s,
     w_open (Ghb.write_file model p s).2 = negb (is_ok (Ghb.write_file model p s).1)) /\
  (forall model p s,
     w_open (Lak.write_file model p s).2 = negb (is_ok (Lak.write_file model p s).1)).
Proof.
  intros Hu. repeat split; intros.
  - apply ghb_load_leaves_open.
  - now apply lak_load_leaves_open.
  - apply ghb_write_file_closes.
  - apply lak_write_file_closes.
Qed.

(* ===================================================================== *)
(** ** Runs on concrete files *)
(* ===================================================================== *)

Section ConcreteRuns.
Import Run Cases.

(** C1. The lake package [lake_args] has flux data for the first of its two
    stress periods only. [write_file] writes 0 as the second field of the
    count line of the second period and no flux line after it; [load] takes
    that 0 for "flux data follow", reads past the end of the file and raises:
    the period is not read back as absent, and the file does not load. *)
Theorem lak_absent_flux_not_read_back :
  is_ok lake_built.1 = true /\
  flux_periods lake_built = [0%nat] /\
  lake_written.1 = Ok tt /\
  file_lines lake_written.2
  = ["# LAK package for mf2005, generated by Flopy.";
     "1 0 ";
     "-1.0 0 0.0 0.0 ";
     "5.0 -10000.0 10000.0 ";
     "1 1 1   # Stress period 1";
     "CONSTANT 1";
     "CONSTANT 2";
     "0   # Data set 7";
     "1.0 2.0 3.0 4.0   # Data set 9a";
     "-1 0 1   # Stress period 2"] /\
  lake_reloaded.1 = Raise (PyErr IndexError "list index out of range").
Proof. repeat split; reflexivity. Qed.

(** C2, as stated, fails: the count line of the second period of [ghb_three]
    reads -1, and the key of that period is in the dictionary. *)
Lemma ghb_load_keeps_sentinel_key :
  is_ok (ghb_run 3 ghb_three).1 = true
  /\ ghb_three !! 5%nat = Some "-1"
  /\ loaded_spd (ghb_run 3 ghb_three) !! 1%nat <> None.
Proof.
  split; [reflexivity|]. split; [reflexivity|].
  change (Some (Ghb.SpdInt (-1)) <> None). discriminate.
Qed.

Lemma ghb_load_count_line_witness :
  loaded_spd (ghb_run 3 ghb_three) !! 1%nat = Some (Ghb.SpdInt (-1)).
Proof.
  assert (Hok : is_ok (ghb_run 3 ghb_three).1 = true) by reflexivity.
  unfold loaded_spd.
  destruct (ghb_run 3 ghb_three) as [[pkg|e] s'] eqn:Erun; [|discriminate Hok].
  cbn [fst].
  refine (proj1 (proj2
    (ghb_load_count_line (FileName "x.ghb") (model0 3 [true]) None
       (closed_file ghb_three) 0 ["AUX temp"] ["temp"] (after_header ghb_three 2)
       1%nat first_block (after_header ghb_three 5) "-1" ["0"] "-1" (-1) pkg s'
       _ _ _ _ _ _ Erun)) eq_refl).
  - reflexivity.
  - apply (reads_next _ _ _ _ _ "2"
             ["1 2 3 4.0 5.0 7.0"; "1 2 4 4.0 5.0 8.0"; "-1"; "0"]
             first_block (after_header ghb_three 5));
      [reflexivity | reflexivity | apply reads_done].
  - reflexivity.
  - simpl. lia.
  - reflexivity.
  - reflexivity.
Defined.

(** C3, as stated, fails: [ghb_cut] ends before the count line of the second
    of three periods, and [load] returns a package that holds the first
    period only. *)
Lemma ghb_load_truncated_file_loads :
  is_ok (ghb_run 3 ghb_cut).1 = true
  /\ loaded_spd (ghb_run 3 ghb_cut) = first_block
  /\ loaded_spd (ghb_run 3 ghb_cut) !! 1%nat = None
  /\ loaded_spd (ghb_run 3 ghb_cut) !! 2%nat = None.
Proof. repeat split; reflexivity. Qed.

Lemma ghb_load_all_blocks_or_eof_witness :
  ghb_run 3 ghb_cut
  = (Ok (Ghb.init 0 first_block (Some (Ghb.dtype_of (Some ["temp"]))) false
                  (Some ["AUX temp"])), after_header ghb_cut 5).
Proof.
  refine (proj2 (ghb_load_all_blocks_or_eof (FileName "x.ghb") (model0 3 [true])
                   None (closed_file ghb_cut))
                0 ["AUX temp"] ["temp"] (after_header ghb_cut 2) 1%nat
                first_block (after_header ghb_cut 5) _ _ _ _).
  - reflexivity.
  - simpl. lia.
  - apply (reads_next _ _ _ _ _ "2" ["1 2 3 4.0 5.0 7.0"; "1 2 4 4.0 5.0 8.0"]
             first_block (after_header ghb_cut 5));
      [reflexivity | reflexivity | apply reads_done].
  - intros _. reflexivity.
Defined.

(** C4, as stated, fails: neither field of the header of [ghb_bad_header] is
    a number, and [load] returns a package, whose flag is 0. *)
Lemma ghb_load_accepts_bad_header :
  Py.int "abc" = None /\ Py.int "xyz" = None
  /\ is_ok (ghb_run 1 ghb_bad_header).1 = true
  /\ loaded_ipakcb (ghb_run 1 ghb_bad_header) = Some 0
  /\ is_Some (loaded_spd (ghb_run 1 ghb_bad_header) !! 0%nat).
Proof.
  repeat split; try reflexivity.
  eexists. reflexivity.
Qed.

Lemma header_and_control_counts_witness :
  ghb_run 1 ghb_bad_count
  = (Raise (PyErr ValueError "invalid literal for int() with base 10: 'one'"),
     {| pending := ["1 2 3 4.0 5.0"]; handle_open := true |})
  /\
  Lak.load (FileName "x.lak") lake_model None (closed_file lak_bad_header)
  = (Raise (PyErr ValueError "invalid literal for int() with base 10: 'two'"),
     {| pending := ["-1.0 0 0.0 0.0"]; handle_open := true |}).
Proof.
  split.
  - refine (proj1 (proj2 (proj2 (proj2 header_and_control_counts)))
              (FileName "x.ghb") (model0 1 [true]) None (closed_file ghb_bad_count)
              0 [] [] (after_header ghb_bad_count 1) 0%nat ∅
              (after_header ghb_bad_count 1) "one" ["1 2 3 4.0 5.0"] "one" _ _ _ _ _ _).
    + reflexivity.
    + apply reads_done.
    + simpl. lia.
    + reflexivity.
    + reflexivity.
    + reflexivity.
  - refine (proj1 (proj2 (proj2 (proj2 (proj2 header_and_control_counts))))
              (FileName "x.lak") lake_model None (closed_file lak_bad_header)
              [] false "two 0
" {| pending := ["-1.0 0 0.0 0.0"]; handle_open := true |} "two" _ _ _).
    + reflexivity.
    + reflexivity.
    + reflexivity.
Defined.

Lemma ghb_load_open_close_witness :
  ghb_run 2 ghb_external
  = (Raise (PyErr NotImplementedError "load() method does not support 'open/close'"),
     {| pending := ["0"]; handle_open := true |}).
Proof.
  refine (ghb_load_open_close_unsupported (FileName "x.ghb") (model0 2 [true]) None
            (closed_file ghb_external) 0 [] [] (after_header ghb_external 1) 0%nat ∅
            (after_header ghb_external 1)
            "2" ["1 2 3 4.0 5.0"] "OPEN/CLOSE ghb_2.dat" ["0"] "2" 2
            _ _ _ _ _ _ _ _ _).
  - reflexivity.
  - apply reads_done.
  - simpl. lia.
  - reflexivity.
  - reflexivity.
  - reflexivity.
  - simpl. lia.
  - reflexivity.
  - reflexivity.
Defined.

(** C6, as stated, fails: with an index beyond the length of the record set
    the call fails, but not with [IndexError]. *)
Lemma ghb_add_record_not_index_error :
  (length (working_set (Ghb.stress_period_data empty_ghb) 0) < 5)%nat
  /\ Ghb.add_record empty_ghb 0 5 a_record
     = Raise (PyErr Exception
                "mfghb error adding record to list: record index out of range")
  /\ ~ (exists msg, Ghb.add_record empty_ghb 0 5 a_record
                    = Raise (PyErr IndexError msg)).
Proof.
  split; [change (0 < 5)%nat; lia|]. split; [reflexivity|].
  intros [msg E].
  change (Raise (PyErr Exception
            "mfghb error adding record to list: record index out of range")
          = Raise (A := Ghb.ghb) (PyErr IndexError msg)) in E.
  discriminate.
Qed.

Lemma ghb_add_record_witness :
  exists msg,
    Ghb.add_record empty_ghb 0 5 a_record
    = Raise (PyErr Exception ("mfghb error adding record to list: " +:+ msg)).
Proof.
  refine (proj1 (ghb_add_record_wraps_errors empty_ghb 0 5 a_record) _).
  change (0 < 5)%nat. lia.
Defined.

Lemma lak_init_validates_witness :
  exists e model', Lak.init lake_args_two_stages lake_model = (Raise e, model').
Proof.
  apply lak_init_validates_lake_count. left. simpl. discriminate.
Defined.

(** C9, as stated, fails: [load] returns with the stream it opened still
    open, and [write_file] leaves its stream open when it raises (here on the
    default [sill_data=None]). *)
Lemma streams_left_open :
  (is_ok (ghb_run 3 ghb_three).1 = true
   /\ handle_open (ghb_run 3 ghb_three).2 = true)
  /\
  (is_ok (Lak.init lake_args_no_sill lake_model).1 = true
   /\ (write_built (Lak.init lake_args_no_sill lake_model)).1
      = Raise (PyErr AttributeError "'NoneType' object has no attribute 'keys'")
   /\ w_open (write_built (Lak.init lake_args_no_sill lake_model)).2 = true).
Proof. repeat split; reflexivity. Qed.

Lemma load_line_keeps_handle dims : preserves handle_open (Run.load_line dims).
Proof. unfold Run.load_line. preserves_tac. Qed.

Lemma stream_released_witness :
  handle_open (Lak.load (FileName "x.lak") lake_model None
                        (closed_file lak_bad_header)).2 = true.
Proof.
  exact (proj1 (proj2 (stream_released_only_by_normal_write load_line_keeps_handle))
           "x.lak" lake_model None (closed_file lak_bad_header)).
Defined.

Lemma lak_init_short_tab_files_witness :
  exists p m',
    Lak.init lake_args_tables lake_model = (Ok p, m')
    /\ Lak.tabdata p = true /\ Lak.iunit_tab p = Some [1000; 1001]
    /\ h_external m' = [("lake1.tab", 1000); ("lake2.tab", 1001)].
Proof.
  refine (proj2 (lak_init_short_tab_files lake_args_tables lake_model
                   [Some "lake1.tab"; Some "lake2.tab"] _ _ _ _)
            [SFloat 5; SFloat 6; SFloat 7] {[ 0%nat := "CONSTANT 1" ]}
            {[ 0%nat := "CONSTANT 2" ]} _ _ _ _ _ _ _ _ _);
    try reflexivity; try discriminate.
Defined.

(** C8. [x.lower() is 'noprint'] is never true, so the loader records no
    NOPRINT: the header of [ghb_noprint] has the option and the package
    loaded from it has no option at all. *)
Theorem ghb_load_drops_noprint :
  (forall tok, Ghb.lower_is tok "noprint" = false) /\
  is_ok (ghb_run 1 ghb_noprint).1 = true /\
  loaded_options (ghb_run 1 ghb_noprint) = Some [].
Proof.
  split.
  - intros tok. unfold Ghb.lower_is. now destruct (Py.lower tok).
  - split; reflexivity.
Qed.

End ConcreteRuns.

(* ===================================================================== *)
(** ** Further properties of the GHB loader *)
(* ===================================================================== *)

Lemma skip_comments_step l r h :
  skip_comments_from (l :: r) h
  = if is_comment l then skip_comments_from r h
    else (Ok (l +:+ "
"), {| pending := r; handle_open := h |}).
Proof.
  destruct l as [|c l']; [reflexivity|].
  destruct c as [[] [] [] [] [] [] [] []]; reflexivity.
Qed.

Lemma skip_comments_run (comments : list string) (h : bool) :
  forallb is_comment comments = true ->
  (forall l rest, is_comment l = false ->
     skip_comments {| pending := comments ++ l :: rest; handle_open := h |}
     = (Ok (l +:+ "
"), {| pending := rest; handle_open := h |})) /\
  skip_comments {| pending := comments; handle_open := h |}
  = (Raise (PyErr IndexError "string index out of range"),
     {| pending := []; handle_open := h |}).
Proof.
  intros Hc. unfold skip_comments. simpl pending. simpl handle_open.
  induction comments as [|c comments IH]; simpl in Hc.
  - split; [|reflexivity]. intros l rest Hl. simpl app.
    now rewrite skip_comments_step, Hl.
  - apply andb_prop in Hc as [Hc1 Hc]. destruct (IH Hc) as [IH1 IH2]. split.
    + intros l rest Hl. simpl app. rewrite skip_comments_step, Hc1. now apply IH1.
    + now rewrite skip_comments_step, Hc1.
Qed.

(** X1. The header loop of both loaders skips the lines that start with [#]
    and hands back the first line that does not, as the line read, leaving
    the stream after it; on a file that has no other line than such comments
    (the empty file too) it raises [IndexError], [line[0]] being taken of the
    empty string. *)
Theorem skip_comments_first_line (comments : list string) (h : bool) :
  forallb is_comment comments = true ->
  (forall l rest, is_comment l = false ->
     skip_comments {| pending := comments ++ l :: rest; handle_open := h |}
     = (Ok (l +:+ "
"), {| pending := rest; handle_open := h |})) /\
  skip_comments {| pending := comments; handle_open := h |}
  = (Raise (PyErr IndexError "string index out of range"),
     {| pending := []; handle_open := h |}).
Proof. exact (skip_comments_run comments h). Qed.

Section GhbHeader.
Context `{PyFloat}.

Lemma parse_options_skip tok rest o a :
  mentions_aux tok = false ->
  Ghb.parse_options (tok :: rest) o a = Ghb.parse_options rest o a.
Proof.
  intros Hm. simpl. unfold mentions_aux in Hm. rewrite Hm.
  unfold Ghb.lower_is. now destruct (Py.lower tok).
Qed.

Lemma parse_options_aux tok name rest o a :
  mentions_aux tok = true ->
  Ghb.parse_options (tok :: name :: rest) o a
  = Ghb.parse_options rest (o ++ [tok +:+ " " +:+ name]) (a ++ [Py.lower name]).
Proof.
  intros Hm. simpl. unfold mentions_aux in Hm. rewrite Hm.
  unfold Ghb.lower_is. now destruct (Py.lower tok).
Qed.

(** X2. The option loop of the GHB loader keeps nothing but AUX: a token in
    which [aux] occurs (in any case of letters) takes the token after it,
    whatever it is, as the name of an auxiliary field, records the two in
    [options] and the lower-cased name in [aux_names]; every other token is
    dropped; and such a token at the end of the line, with no name after it,
    raises [IndexError]. *)
Theorem ghb_option_loop (o a : list string) (s : fstate) :
  (forall t, forallb (fun tok => negb (mentions_aux tok)) t = true ->
     Ghb.parse_options t o a s = (Ok (o, a), s)) /\
  (forall pre tok name rest,
     forallb (fun tok => negb (mentions_aux tok)) pre = true ->
     mentions_aux tok = true ->
     Ghb.parse_options (pre ++ tok :: name :: rest) o a s
     = Ghb.parse_options rest (o ++ [tok +:+ " " +:+ name]) (a ++ [Py.lower name]) s) /\
  (forall pre tok,
     forallb (fun tok => negb (mentions_aux tok)) pre = true ->
     mentions_aux tok = true ->
     Ghb.parse_options (pre ++ [tok]) o a s
     = (Raise (PyErr IndexError "list index out of range"), s)).
Proof.
  assert (Hpre : forall pre rest, forallb (fun tok => negb (mentions_aux tok)) pre = true ->
            Ghb.parse_options (pre ++ rest) o a = Ghb.parse_options rest o a).
  { induction pre as [|x pre IH]; intros rest Hp; [reflexivity|].
    simpl in Hp. apply andb_prop in Hp as [Hx Hp]. apply negb_true_iff in Hx.
    simpl app. rewrite parse_options_skip by exact Hx. now apply IH. }
  split; [|split].
  - intros t Ht. rewrite <- (app_nil_r t). now rewrite Hpre.
  - intros pre tok name rest Hp Ht. rewrite Hpre by exact Hp.
    now rewrite parse_options_aux.
  - intros pre tok Hp Ht. rewrite Hpre by exact Hp.
    simpl. unfold mentions_aux in Ht. rewrite Ht.
    unfold Ghb.lower_is. now destruct (Py.lower tok).
Qed.

Lemma cells_conform dt : forall toks r,
  Ghb.cells_of_strings dt toks = Ok r -> conforms dt r = true.
Proof.
  induction dt as [|[nm ty] dt IH]; intros toks r E; simpl in E.
  - now injection E as <-.
  - destruct toks as [|tok toks]; [discriminate|].
    destruct (Ghb.cell_of_string ty tok) as [c|e] eqn:Ec; [|discriminate].
    simpl in E. destruct (Ghb.cells_of_strings dt toks) as [r'|e] eqn:Er; [|discriminate].
    injection E as <-. apply IH in Er.
    destruct ty; simpl in Ec.
    + destruct (Py.int tok); [|discriminate]. injection Ec as <-. exact Er.
    + destruct (float_of_string tok); [|discriminate]. injection Ec as <-. exact Er.
Qed.

Lemma row_conforms dt t r :
  Ghb.row_of_tokens dt t = Ok r -> conforms dt r = true.
Proof.
  unfold Ghb.row_of_tokens. destruct (_ <? _)%nat; [discriminate|].
  apply cells_conform.
Qed.

Lemma cells_ignore_rest dt : forall toks extra,
  (length dt <= length toks)%nat ->
  Ghb.cells_of_strings dt (toks ++ extra) = Ghb.cells_of_strings dt toks.
Proof.
  induction dt as [|[nm ty] dt IH]; intros toks extra Hlen; [reflexivity|].
  destruct toks as [|tok toks]; simpl in Hlen; [lia|].
  simpl. now rewrite IH by lia.
Qed.

Lemma cells_take dt : forall toks,
  (length dt <= length toks)%nat ->
  Ghb.cells_of_strings dt (take (length dt) toks) = Ghb.cells_of_strings dt toks.
Proof.
  intros toks Hlen. rewrite <- (take_drop (length dt) toks) at 2.
  rewrite cells_ignore_rest; [reflexivity|]. rewrite length_take. lia.
Qed.

(** X3. A record line is read by its first [len(dtype)] tokens: tokens after
    them are ignored, so that a line with more columns gives the same row;
    a line with fewer tokens than the schema has fields is refused with
    [ValueError]; and a row that is accepted has the fields of the schema. *)
Theorem ghb_record_line_tokens (dt : Ghb.dtype) (t : list string) :
  (forall extra, (length dt <= length t)%nat ->
     Ghb.row_of_tokens dt (t ++ extra) = Ghb.row_of_tokens dt t) /\
  ((length t < length dt)%nat ->
     Ghb.row_of_tokens dt t
     = Raise (PyErr ValueError "size of tuple must match number of fields.")) /\
  (forall r, Ghb.row_of_tokens dt t = Ok r ->
     conforms dt r = true /\ length r = length dt).
Proof.
  split; [|split].
  - intros extra Hlen. unfold Ghb.row_of_tokens.
    rewrite !length_take, length_app.
    replace (length dt `min` (length t + length extra))%nat with (length dt) by lia.
    replace (length dt `min` length t)%nat with (length dt) by lia.
    rewrite Nat.ltb_irrefl.
    rewrite !cells_take by (rewrite ?length_app; lia).
    now apply cells_ignore_rest.
  - intros Hlen. unfold Ghb.row_of_tokens. rewrite length_take.
    replace (length dt `min` length t)%nat with (length t) by lia.
    apply Nat.ltb_lt in Hlen. now rewrite Hlen.
  - intros r E. pose proof (row_conforms _ _ _ E) as Hc. split; [exact Hc|].
    clear E. revert r Hc. induction dt as [|[nm ty] dt IH]; intros [|c r] Hc;
      simpl in Hc; try discriminate; try reflexivity.
    + destruct ty; discriminate.
    + simpl. f_equal. apply IH. destruct ty, c; try discriminate; exact Hc.
Qed.

End GhbHeader.

Section GhbStore.
Context `{PyFloat}.

Lemma forallb_lookup {A} (P : A -> bool) (l : list A) :
  (forall i x, l !! i = Some x -> P x = true) -> forallb P l = true.
Proof.
  induction l as [|x l IH]; intros Hl; [reflexivity|]. simpl.
  rewrite (Hl 0%nat x eq_refl). apply IH. intros i y Hy. exact (Hl (S i) y Hy).
Qed.

Lemma dtype_of_not_empty aux : Ghb.dtype_of (Some aux) <> [].
Proof. discriminate. Qed.

Lemma load_records_conform dt n : forall ibnd cur s cur' s',
  Ghb.load_records dt n ibnd cur s = (Ok cur', s') ->
  length cur = (ibnd + n)%nat ->
  (forall i r, (i < ibnd)%nat -> cur !! i = Some r -> conforms dt r = true) ->
  forall i r, cur' !! i = Some r -> conforms dt r = true.
Proof.
  induction n as [|n IH]; intros ibnd cur s cur' s' E Hlen Hold i r Hi.
  - injection E as <- <-. apply (Hold i r); [|exact Hi].
    apply lookup_lt_Some in Hi. lia.
  - simpl in E.
    apply bind_inv in E as [(line & s1 & _ & E)|(e & _ & ?)]; [|discriminate].
    destruct (Py.contains _ _); [discriminate|].
    apply bind_inv in E as [(r0 & s2 & Er & E)|(e & _ & ?)]; [|discriminate].
    unfold of_result in Er. injection Er as Er _.
    apply (IH _ _ _ _ _ E) with (i := i); [rewrite length_insert; lia| |exact Hi].
    intros j rj Hj Hlook. destruct (decide (j = ibnd)) as [->|Hne].
    + rewrite list_lookup_insert_eq in Hlook by lia. injection Hlook as <-.
      now apply row_conforms in Er.
    + rewrite list_lookup_insert_ne in Hlook by congruence.
      apply (Hold j rj); [lia | exact Hlook].
Qed.

Lemma load_records_consume dt n : forall ibnd cur s cur' s',
  dt <> [] ->
  Ghb.load_records dt n ibnd cur s = (Ok cur', s') ->
  pending s' = drop n (pending s) /\ (n <= length (pending s))%nat.
Proof.
  induction n as [|n IH]; intros ibnd cur s cur' s' Hdt E.
  - injection E as <- <-. split; [reflexivity | lia].
  - simpl in E. destruct (pending s) as [|l rest] eqn:Ep.
    + rewrite (bind_ok _ _ _ _ _ (readline_eof _ Ep)) in E.
      change (Py.contains "open/close" (Py.lower "")) with false in E.
      cbv iota in E.
      apply bind_inv in E as [(r0 & s2 & Er & E)|(e & _ & ?)]; [|discriminate].
      unfold of_result in Er. injection Er as Er _.
      unfold Ghb.row_of_tokens in Er. simpl in Er.
      destruct dt; [congruence | discriminate].
    + rewrite (bind_ok _ _ _ _ _ (readline_cons _ _ _ Ep)) in E.
      destruct (Py.contains _ _); [discriminate|].
      apply bind_inv in E as [(r0 & s2 & Er & E)|(e & _ & ?)]; [|discriminate].
      unfold of_result in Er. injection Er as Er <-.
      apply IH in E as [E1 E2]; [|exact Hdt]. simpl in *. split; [exact E1 | lia].
Qed.

Lemma store_ok_insert dt iper spd v :
  store_ok dt iper spd -> loaded_value_ok dt v ->
  store_ok dt (S iper) (<[iper := v]> spd).
Proof.
  intros Hs Hv j w Hj. destruct (decide (j = iper)) as [->|Hne].
  - rewrite lookup_insert_eq in Hj. injection Hj as <-. split; [lia | exact Hv].
  - rewrite lookup_insert_ne in Hj by congruence.
    destruct (Hs j w Hj). split; [lia | assumption].
Qed.

Lemma store_ok_mono dt a b spd : store_ok dt a spd -> (a <= b)%nat -> store_ok dt b spd.
Proof. intros Hs Hab j v Hj. destruct (Hs j v Hj). split; [lia | assumption]. Qed.

Lemma load_block_ok aux iper line spd s spd' s' :
  store_ok (Ghb.dtype_of (Some aux)) iper spd ->
  Ghb.load_block aux iper line spd s = (Ok spd', s') ->
  store_ok (Ghb.dtype_of (Some aux)) (S iper) spd'.
Proof.
  intros Hs E. unfold Ghb.load_block in E.
  apply bind_inv in E as [(t0 & s1 & _ & E)|(e & _ & ?)]; [|discriminate].
  apply bind_inv in E as [(itmp & s2 & _ & E)|(e & _ & ?)]; [|discriminate].
  destruct ((itmp =? 0) || (itmp =? -1)) eqn:E01.
  { injection E as <- <-. apply store_ok_insert; [exact Hs|].
    apply orb_true_iff in E01 as [E0|E1]; [left | right]; lia. }
  destruct (0 <? itmp) eqn:Epos.
  - apply bind_inv in E as [(cur & s3 & Ec & E)|(e & _ & ?)]; [|discriminate].
    injection E as <- <-. apply store_ok_insert; [exact Hs|].
    apply Z.ltb_lt in Epos. split.
    + pose proof (load_records_length _ _ _ _ _ _ _ Ec) as Hlen.
      unfold Ghb.get_empty in Hlen. rewrite repeat_length in Hlen.
      destruct cur; [simpl in Hlen; lia | discriminate].
    + apply forallb_lookup. intros i r Hi.
      apply (load_records_conform _ _ _ _ _ _ _ Ec) with (i := i); [| |exact Hi].
      * unfold Ghb.get_empty. rewrite repeat_length. lia.
      * intros; lia.
  - injection E as <- <-. eapply store_ok_mono; [exact Hs | lia].
Qed.

Lemma load_periods_ok aux n : forall iper spd s spd' s',
  store_ok (Ghb.dtype_of (Some aux)) iper spd ->
  Ghb.load_periods aux n iper spd s = (Ok spd', s') ->
  store_ok (Ghb.dtype_of (Some aux)) (iper + n) spd'.
Proof.
  induction n as [|n IH]; intros iper spd s spd' s' Hs E.
  - injection E as <- <-. eapply store_ok_mono; [exact Hs | lia].
  - destruct (pending s) as [|l r] eqn:Ep.
    + rewrite load_periods_eof in E by exact Ep. injection E as <- <-.
      eapply store_ok_mono; [exact Hs | lia].
    + rewrite (load_periods_cons _ _ _ _ _ _ _ Ep) in E.
      apply bind_inv in E as [(spd1 & s1 & E1 & E)|(e & _ & ?)]; [|discriminate].
      replace (iper + S n)%nat with (S iper + n)%nat by lia.
      eapply IH; [|exact E]. eapply load_block_ok; eauto.
Qed.

(** X4. What a load that returns leaves in [stress_period_data]: a key is
    below the number of stress periods, and its value is the integer 0, the
    integer -1, or a record array that is not empty and each of whose rows
    has the fields of the schema of the package (an integer in [k], [i] and
    [j], a float in every other field). *)
Theorem ghb_loaded_store_wellformed f model nper s pkg s' :
  Ghb.load f model nper s = (Ok pkg, s') ->
  forall j v, Ghb.stress_period_data pkg !! j = Some v ->
    (j < match nper with Some n => n | None => h_nper model end)%nat
    /\ loaded_value_ok (Ghb.pkg_dtype pkg) v.
Proof.
  intros Hload. unfold Ghb.load in Hload.
  apply bind_inv in Hload as [([[ip o] a] & s1 & _ & Hload)|(e & _ & ?)];
    [|discriminate].
  apply bind_inv in Hload as [(spd & s2 & E & Hload)|(e & _ & ?)]; [|discriminate].
  injection Hload as <- <-. cbn [Ghb.stress_period_data Ghb.pkg_dtype Ghb.init].
  intros j v Hj.
  apply (load_periods_ok a _ 0%nat ∅ s1 spd s2) with (j := j) (v := v);
    [|exact E|exact Hj].
  intros j' v' Hj'. rewrite lookup_empty in Hj'. discriminate.
Qed.

(** X5. A block that is read has taken from the stream exactly the record
    lines its count announces, none for a count that is not positive: the
    stream is left where the count line of the next period is expected, and
    no block is read from a file that has fewer lines left than the count. *)
Theorem ghb_block_reads_its_lines aux iper line spd s tok itmp spd' s' :
  Py.split (Py.strip line) !! 0%nat = Some tok ->
  Py.int tok = Some itmp ->
  Ghb.load_block aux iper line spd s = (Ok spd', s') ->
  pending s' = drop (Z.to_nat itmp) (pending s)
  /\ (Z.to_nat itmp <= length (pending s))%nat.
Proof.
  intros Htok Hint E. unfold Ghb.load_block in E.
  rewrite (bind_ok _ _ _ _ _ (index_ok _ _ _ _ Htok)) in E.
  rewrite (bind_ok _ _ _ _ _ (int_of_ok _ _ _ Hint)) in E.
  destruct ((itmp =? 0) || (itmp =? -1)) eqn:E01.
  { injection E as <- <-. apply orb_true_iff in E01.
    replace (Z.to_nat itmp) with 0%nat by lia. split; [reflexivity | lia]. }
  destruct (0 <? itmp) eqn:Epos.
  - apply bind_inv in E as [(cur & s3 & Ec & E)|(e & _ & ?)]; [|discriminate].
    injection E as <- <-.
    now apply load_records_consume in Ec.
  - injection E as <- <-. apply Z.ltb_ge in Epos.
    replace (Z.to_nat itmp) with 0%nat by lia. split; [reflexivity | lia].
Qed.

Lemma load_records_eof dt : forall recs n ibnd cur s,
  dt <> [] ->
  pending s = recs ->
  (length recs < n)%nat ->
  forallb (good_record dt) recs = true ->
  Ghb.load_records dt n ibnd cur s
  = (Raise (PyErr ValueError "size of tuple must match number of fields."),
     {| pending := []; handle_open := handle_open s |}).
Proof.
  induction recs as [|r recs IH]; intros n ibnd cur s Hdt Ep Hn Hgood;
    (destruct n as [|n]; [simpl in Hn; lia|]); simpl Ghb.load_records.
  - rewrite (bind_ok _ _ _ _ _ (readline_eof _ Ep)).
    change (Py.contains "open/close" (Py.lower "")) with false. cbv iota.
    apply bind_raise. unfold of_result, Ghb.row_of_tokens. simpl.
    destruct dt; [congruence|]. simpl. destruct s; simpl in *; now subst.
  - simpl in Hgood. apply andb_prop in Hgood as [Hr Hgood].
    unfold good_record in Hr. apply andb_prop in Hr as [Hoc Hrow].
    rewrite (bind_ok _ _ _ _ _ (readline_cons _ _ _ Ep)).
    apply negb_true_iff in Hoc. rewrite Hoc.
    destruct (Ghb.row_of_tokens dt _) as [row|e] eqn:Erow; [|discriminate].
    unfold mbind at 1, M_bind, of_result.
    rewrite (IH n (S ibnd) _ {| pending := recs; handle_open := handle_open s |});
      simpl in *; auto; lia.
Qed.

(** X6. A file that ends inside the block of a period does not load: once
    the header and the blocks of the periods before [p] are read, if the
    count line of period [p] announces more records than the file has lines
    left, all of them well formed, [load] raises [ValueError], the empty
    line read at the end of the file having no field. *)
Theorem ghb_load_file_ends_in_block f model nper s ip opts aux s0 p spd_p s_p
    cline recs tok itmp :
  Ghb.load_header f s = (Ok (ip, opts, aux), s0) ->
  reads_blocks aux 0 p ∅ s0 spd_p s_p ->
  (p < match nper with Some n => n | None => h_nper model end)%nat ->
  pending s_p = cline :: recs ->
  Py.split (Py.strip (cline +:+ "
")) !! 0%nat = Some tok ->
  Py.int tok = Some itmp ->
  (length recs < Z.to_nat itmp)%nat ->
  forallb (good_record (Ghb.dtype_of (Some aux))) recs = true ->
  Ghb.load f model nper s
  = (Raise (PyErr ValueError "size of tuple must match number of fields."),
     {| pending := []; handle_open := handle_open s_p |}).
Proof.
  intros Hhdr Hr Hp Hline Htok Hint Hlen Hgood.
  rewrite (ghb_load_unfold _ _ _ _ _ _ _ _ Hhdr).
  set (n := match nper with Some n => n | None => h_nper model end) in *.
  pose proof (reads_load_periods _ _ _ _ _ _ _ Hr p (le_n _)
                ltac:(intros; lia)) as Ep.
  apply bind_raise.
  replace n with (p + S (n - S p))%nat by lia.
  rewrite (load_periods_split _ _ _ _ _ _ _ _ Ep).
  rewrite (load_periods_cons _ _ _ _ _ _ _ Hline).
  apply bind_raise. unfold Ghb.load_block.
  rewrite (bind_ok _ _ _ _ _ (index_ok _ _ _ _ Htok)).
  rewrite (bind_ok _ _ _ _ _ (int_of_ok _ _ _ Hint)).
  assert (0 < itmp) as Hpos by lia.
  replace ((itmp =? 0) || (itmp =? -1)) with false
    by (symmetry; apply orb_false_iff; split; apply Z.eqb_neq; lia).
  replace (0 <? itmp) with true by (symmetry; apply Z.ltb_lt; lia).
  apply bind_raise.
  now rewrite (load_records_eof _ recs (Z.to_nat itmp) 0%nat _
                 {| pending := recs; handle_open := handle_open s_p |}
                 (dtype_of_not_empty aux) eq_refl Hlen Hgood).
Qed.

End GhbStore.

Section GhbHeaderLine.
Context `{PyFloat}.

Lemma header_line_opened f s :
  Ghb.header_line f s = (skip_comments ≫= Ghb.check_parameters) (opened f s).
Proof. destruct f; reflexivity. Qed.

Lemma skip_comments_at (st : fstate) comments l rest :
  pending st = comments ++ l :: rest ->
  forallb is_comment comments = true -> is_comment l = false ->
  skip_comments st = (Ok (l +:+ "
"), {| pending := rest; handle_open := handle_open st |}).
Proof.
  intros Ep Hc Hl. destruct st as [pend h]. simpl in *. subst pend.
  now apply (proj1 (skip_comments_run comments h Hc)).
Qed.

Lemma pending_opened f s : pending (opened f s) = pending s.
Proof. now destruct f. Qed.

(** X7. The line after the leading comments is the header, unless the word
    [parameter] occurs in it (in any case of letters): then its second token
    must read 0, in which case the line after it is taken for the header
    without any test, the empty string at the end of the file included; any
    other count raises [AssertionError], parameters not being supported. *)
Theorem ghb_parameter_line f s comments pl rest :
  pending s = comments ++ pl :: rest ->
  forallb is_comment comments = true ->
  is_comment pl = false ->
  let after := {| pending := rest; handle_open := handle_open (opened f s) |} in
  (Py.contains "parameter" (Py.lower (pl +:+ "
")) = false ->
   Ghb.header_line f s = (Ok (pl +:+ "
"), after)) /\
  (forall tok n,
     Py.contains "parameter" (Py.lower (pl +:+ "
")) = true ->
     Py.split (Py.strip (pl +:+ "
")) !! 1%nat = Some tok ->
     Py.int tok = Some n ->
     Ghb.header_line f s
     = if n =? 0 then readline after
       else (Raise (PyErr AssertionError "Parameters are not supported"), after)).
Proof.
  intros Ep Hc Hl after.
  assert (Hskip : skip_comments (opened f s) = (Ok (pl +:+ "
"), after)).
  { apply (skip_comments_at _ comments); [|exact Hc|exact Hl].
    now rewrite pending_opened. }
  split.
  - intros Hpar. rewrite header_line_opened, (bind_ok _ _ _ _ _ Hskip).
    unfold Ghb.check_parameters. now rewrite Hpar.
  - intros tok n Hpar Htok Hint.
    rewrite header_line_opened, (bind_ok _ _ _ _ _ Hskip).
    unfold Ghb.check_parameters. rewrite Hpar.
    rewrite (bind_ok _ _ _ _ _ (index_ok _ _ _ _ Htok)).
    rewrite (bind_ok _ _ _ _ _ (int_of_ok _ _ _ Hint)).
    now destruct (n =? 0).
Qed.

(** The flag a header line gives: 53 for a second token that reads a
    number other than 0, and 0 otherwise. *)
Lemma header_ipakcb_value (t : list string) st :
  Ghb.header_ipakcb t st
  = (Ok (match t !! 1%nat with
         | Some tok => match Py.int tok with
                       | Some z => if z =? 0 then 0 else 53
                       | None => 0
                       end
         | None => 0
         end), st).
Proof.
  unfold Ghb.header_ipakcb, try_default, index.
  destruct (t !! 1%nat) as [tok|]; [|reflexivity].
  unfold mbind, M_bind, mret, M_ret, int_of.
  destruct (Py.int tok) as [z|]; [|reflexivity]. simpl. now destruct (z =? 0).
Qed.

(** The option loop reads no line: it leaves the stream as it is, also
    when it raises. *)
Lemma parse_options_state (t : list string) :
  forall o a (st : fstate), (Ghb.parse_options t o a st).2 = st.
Proof.
  remember (length t) as n eqn:Hn. revert t Hn.
  induction n as [n IH] using lt_wf_ind. intros t -> o a st.
  destruct t as [|x t]; [reflexivity|]. simpl.
  destruct (Ghb.lower_is x "noprint");
    [eapply IH; [|reflexivity]; simpl; lia|].
  destruct (Py.contains "aux" (Py.lower x)).
  - destruct t as [|nm t]; [reflexivity|].
    eapply IH; [|reflexivity]; simpl; lia.
  - eapply IH; [|reflexivity]; simpl; lia.
Qed.

Lemma header_options_state (t : list string) (st : fstate) :
  (Ghb.header_options t st).2 = st.
Proof.
  unfold Ghb.header_options. destruct (_ <? _)%nat; [|reflexivity].
  apply parse_options_state.
Qed.

(** X8. The package a load returns, by the tokens of the header line: its
    cell-by-cell flag is 53 when the second token reads a number other than
    0 and 0 otherwise, so that the unit written in the file is not kept; its
    options and the names of its auxiliary fields are those of the option
    loop; its schema is the default one followed by one float field per
    auxiliary name; and [no_print] is not set. *)
Theorem ghb_loaded_package_fields f model nper s pkg s' :
  Ghb.load f model nper s = (Ok pkg, s') ->
  exists line s1 opts aux,
    Ghb.header_line f s = (Ok line, s1) /\
    Ghb.header_options (Py.split (Py.strip line)) s1 = (Ok (opts, aux), s1) /\
    Ghb.ipakcb pkg
    = match Py.split (Py.strip line) !! 1%nat with
      | Some tok => match Py.int tok with
                    | Some z => if z =? 0 then 0 else 53
                    | None => 0
                    end
      | None => 0
      end /\
    Ghb.options pkg = opts /\
    Ghb.pkg_dtype pkg
    = Ghb.get_default_dtype ++ map (fun n => (n, Ghb.np_float32)) aux /\
    Ghb.no_print pkg = false.
Proof.
  intros Hload. unfold Ghb.load, Ghb.load_header in Hload.
  apply bind_inv in Hload as [([[ip o] a] & s2 & Hh & Hload)|(e & _ & ?)];
    [|discriminate].
  apply bind_inv in Hh as [(line & s1 & Hl & Hh)|(e & _ & ?)]; [|discriminate].
  rewrite (bind_ok _ _ _ _ _ (header_ipakcb_value _ s1)) in Hh.
  apply bind_inv in Hh as [([o' a'] & s3 & Ho & Hh)|(e & _ & ?)]; [|discriminate].
  injection Hh as <- <- <- <-.
  assert (s3 = s1) as ->.
  { eapply (state_after (fun st => st)); [|exact Ho].
    intros st. apply header_options_state. }
  apply bind_inv in Hload as [(spd & s4 & _ & Hload)|(e & _ & ?)]; [|discriminate].
  injection Hload as <- <-.
  exists line, s1, o', a'. repeat split; try reflexivity; assumption.
Qed.

End GhbHeaderLine.

(* ===================================================================== *)
(** ** Further properties of the Lake package *)
(* ===================================================================== *)

Section LakLoad.
Context `{PyFloat} `{ArrayIO}.

(** *** What the loader has read when it returns *)

Lemma load_head_inv f s o td line s1 :
  Lak.load_head f s = (Ok (o, td, line), s1) ->
  (o = ["TABLEINPUT"] /\ td = true) \/ (o = [] /\ td = false).
Proof.
  intros E. unfold Lak.load_head in E.
  apply bind_inv in E as [(u & s2 & _ & E)|(e & _ & ?)]; [|discriminate].
  apply bind_inv in E as [(l & s3 & _ & E)|(e & _ & ?)]; [|discriminate].
  destruct (Py.contains _ _).
  - apply bind_inv in E as [(l' & s4 & _ & E)|(e & _ & ?)]; [|discriminate].
    injection E as <- <- <- <-. now left.
  - injection E as <- <- <- <-. now right.
Qed.

Lemma load_stream_inv f model nper s r s1 :
  Lak.load_stream f model nper s = (Ok r, s1) ->
  exists o td line sa nl sb ip sc th ns ss sd sd' stg sr tu se per,
    Lak.load_head f s = (Ok (o, td, line), sa) /\
    Lak.int_at (Py.split (Py.strip line)) 0 sa = (Ok nl, sb) /\
    try_default (Lak.int_at (Py.split (Py.strip line)) 1) 0 sb = (Ok ip, sc) /\
    Lak.load_dataset2 model sc = (Ok (th, ns, ss, sd), sd') /\
    foldM (Lak.load_lake_line model td) (range (Z.to_nat nl)) ([], [], []) sd'
    = (Ok (stg, sr, tu), se) /\
    foldM (Lak.load_period model
             (match nper with
              | None => Some (h_nlay model, h_nrow model, h_ncol model)
              | Some _ => None
              end) nl sr)
          (range (match nper with Some n => n | None => h_nper model end))
          {| Lak.lake_loc := ∅; Lak.lake_lknc := ∅;
             Lak.l_sill_data := ∅; Lak.l_flux_data := ∅ |} se
    = (Ok per, s1) /\
    r = {| Lak.f_options := o; Lak.f_nlakes := nl; Lak.f_ipakcb := ip;
           Lak.f_theta := th; Lak.f_nssitr := ns; Lak.f_sscncr := ss;
           Lak.f_surfdep := sd; Lak.f_stages := stg; Lak.f_stage_range := sr;
           Lak.f_tab_units := if td then Some tu else None;
           Lak.f_dims := match nper with
                         | None => Some (h_nlay model, h_nrow model, h_ncol model)
                         | Some _ => None
                         end;
           Lak.f_periods := per |}.
Proof.
  intros E. unfold Lak.load_stream in E.
  apply bind_inv in E as [([[o td] line] & sa & Eh & E)|(e & _ & ?)]; [|discriminate].
  apply bind_inv in E as [(nl & sb & Enl & E)|(e & _ & ?)]; [|discriminate].
  apply bind_inv in E as [(ip & sc & Eip & E)|(e & _ & ?)]; [|discriminate].
  apply bind_inv in E as [([[[th ns] ss] sd] & sd' & E2 & E)|(e & _ & ?)];
    [|discriminate].
  apply bind_inv in E as [([[stg sr] tu] & se & E3 & E)|(e & _ & ?)]; [|discriminate].
  apply bind_inv in E as [(per & sf & Ep & E)|(e & _ & ?)]; [|discriminate].
  injection E as <- <-.
  exists o, td, line, sa, nl, sb, ip, sc, th, ns, ss, sd, sd', stg, sr, tu, se, per.
  repeat split; assumption.
Qed.

Lemma build_inv model r p m' :
  Lak.build model r = Ok (p, m') ->
  exists dims loc lknc,
    Lak.f_dims r = Some dims /\
    transient3d_init dims (Some (Lak.lake_loc (Lak.f_periods r))) = Ok loc /\
    transient3d_init dims (Some (Lak.lake_lknc (Lak.f_periods r))) = Ok lknc /\
    Lak.init (loaded_args r loc lknc) model = (Ok p, m').
Proof.
  unfold Lak.build. intros E.
  destruct (Lak.f_dims r) as [dims|]; [|discriminate].
  destruct (transient3d_init dims (Some (Lak.lake_loc _))) as [loc|e] eqn:E1;
    [|discriminate].
  destruct (transient3d_init dims (Some (Lak.lake_lknc _))) as [lknc|e] eqn:E2;
    [|discriminate].
  exists dims, loc, lknc. repeat split; try assumption.
  fold (loaded_args r loc lknc) in E.
  destruct (Lak.init (loaded_args r loc lknc) model) as [[p0|e] m0];
    [|discriminate].
  now injection E as <- <-.
Qed.

Lemma load_inv f model nper s p m' s' :
  Lak.load f model nper s = (Ok (p, m'), s') ->
  exists r, Lak.load_stream f model nper s = (Ok r, s') /\
            Lak.build model r = Ok (p, m').
Proof.
  unfold Lak.load. intros E.
  apply bind_inv in E as [(r & s1 & Er & E)|(e & _ & ?)]; [|discriminate].
  unfold of_result in E. injection E as E <-. eauto.
Qed.

(** X9. A load that is given the number of stress periods never returns a
    package: [nlay], [nrow] and [ncol] are bound only when [nper] is left to
    the model, and they are read when the containers of the arrays are
    built, at the latest; a stream that is read to its end without error
    ends in [UnboundLocalError]. *)
Theorem lak_load_explicit_nper_never_loads f model n s :
  is_ok (Lak.load f model (Some n) s).1 = false /\
  (forall r s1, Lak.load_stream f model (Some n) s = (Ok r, s1) ->
     Lak.load f model (Some n) s = (Raise unbound_nlay, s1)).
Proof.
  assert (Hr : forall r s1, Lak.load_stream f model (Some n) s = (Ok r, s1) ->
                 Lak.load f model (Some n) s = (Raise unbound_nlay, s1)).
  { intros r s1 E. unfold Lak.load. rewrite (bind_ok _ _ _ _ _ E).
    apply load_stream_inv in E
      as (o & td & line & sa & nl & sb & ip & sc & th & ns & ss & sd & sd' & stg
          & sr & tu & se & per & _ & _ & _ & _ & _ & _ & ->).
    reflexivity. }
  split; [|exact Hr].
  destruct (Lak.load_stream f model (Some n) s) as [[r|e] s1] eqn:E.
  - now rewrite (Hr r s1 eq_refl).
  - unfold Lak.load. now rewrite (bind_raise _ _ _ _ _ E).
Qed.

(** *** What the constructor has checked when it returns *)

Lemma init_stages_keeps {B} (proj : host -> B) nl st :
  preserves proj (Lak.init_stages nl st).
Proof. unfold Lak.init_stages, shape0. preserves_tac. Qed.

Lemma init_stage_range_keeps {B} (proj : host -> B) nl sr :
  preserves proj (Lak.init_stage_range nl sr).
Proof. unfold Lak.init_stage_range. preserves_tac. Qed.

Lemma check_stage_range_keeps {B} (proj : host -> B) model nl sr :
  preserves proj (Lak.check_stage_range model nl sr).
Proof. unfold Lak.check_stage_range. preserves_tac. Qed.

Lemma lak_init_inv a m p m' :
  Lak.init a m = (Ok p, m') ->
  exists ipk m1 tu m2 stg sr lk bd fd,
    Lak.init_tab_files (Lak.has_tableinput (Lak.a_options a)) (Lak.a_nlakes a)
      (Lak.fill_filenames (Lak.a_filenames a)
         (Lak.name_count (Lak.has_tableinput (Lak.a_options a)) (Lak.a_nlakes a)))
      (Lak.a_tab_files a) (Lak.a_tab_units a) m1 = (Ok tu, m2) /\
    Lak.init_stages (Lak.a_nlakes a) (Lak.a_stages a) m2 = (Ok stg, m2) /\
    Lak.init_stage_range (Lak.a_nlakes a) (Lak.a_stage_range a) m2 = (Ok sr, m2) /\
    Lak.check_stage_range m2 (Lak.a_nlakes a) sr m2 = (Ok tt, m2) /\
    ~ (Lak.a_lakarr a = None /\ Lak.a_bdlknc a = None) /\
    Lak.init_flux_data m2 (Lak.a_nlakes a) (Lak.a_flux_data a) m2 = (Ok fd, m') /\
    h_steady m2 = h_steady m /\
    p = {| Lak.options := default [] (Lak.a_options a);
           Lak.nlakes := Lak.a_nlakes a; Lak.ipakcb := ipk;
           Lak.theta := Lak.a_theta a; Lak.nssitr := Lak.a_nssitr a;
           Lak.sscncr := Lak.a_sscncr a; Lak.surfdep := Lak.a_surfdep a;
           Lak.stages := stg; Lak.stage_range := sr;
           Lak.tabdata := Lak.has_tableinput (Lak.a_options a);
           Lak.iunit_tab := tu; Lak.lakarr := lk; Lak.bdlknc := bd;
           Lak.sill_data := Lak.init_sill_data (Lak.a_sill_data a);
           Lak.flux_data := fd;
           Lak.unit_number := default Lak.defaultunit (Lak.a_unitnumber a) |}.
Proof.
  intros E. unfold Lak.init in E.
  apply bind_inv in E as [(ipk & m1 & Ei & E)|(e & _ & ?)]; [|discriminate].
  apply bind_inv in E as [(tu & m2 & Et & E)|(e & _ & ?)]; [|discriminate].
  apply bind_inv in E as [(stg & m3 & Es & E)|(e & _ & ?)]; [|discriminate].
  apply bind_inv in E as [(sr & m4 & Er & E)|(e & _ & ?)]; [|discriminate].
  apply bind_inv in E as [(mm & m5 & Eg & E)|(e & _ & ?)]; [|discriminate].
  unfold get in Eg. injection Eg as <- <-.
  apply bind_inv in E as [(u1 & m6 & Ec & E)|(e & _ & ?)]; [|discriminate].
  apply bind_inv in E as [(u2 & m7 & Em & E)|(e & _ & ?)]; [|discriminate].
  apply bind_inv in E as [(lk & m8 & El & E)|(e & _ & ?)]; [|discriminate].
  apply bind_inv in E as [(bd & m9 & Eb & E)|(e & _ & ?)]; [|discriminate].
  apply bind_inv in E as [(fd & m10 & Ef & E)|(e & _ & ?)]; [|discriminate].
  injection E as <- <-.
  assert (m3 = m2)
    by exact (state_after (fun x => x) _ _ _ _
                (init_stages_keeps (fun x => x) _ _) Es).
  subst m3.
  assert (m4 = m2)
    by exact (state_after (fun x => x) _ _ _ _
                (init_stage_range_keeps (fun x => x) _ _) Er).
  subst m4.
  assert (m6 = m2)
    by exact (state_after (fun x => x) _ _ _ _
                (check_stage_range_keeps (fun x => x) _ _ _) Ec).
  subst m6.
  assert (Hm : m7 = m2 /\ ~ (Lak.a_lakarr a = None /\ Lak.a_bdlknc a = None)).
  { destruct (Lak.a_lakarr a), (Lak.a_bdlknc a); try discriminate;
      injection Em as _ <-; (split; [reflexivity|]); intros [? ?]; discriminate. }
  destruct Hm as [-> Hnone].
  unfold of_result in El, Eb. injection El as El <-. injection Eb as Eb <-.
  destruct u1.
  assert (Hst : h_steady m2 = h_steady m).
  { rewrite (state_after h_steady _ _ _ _ (init_tab_files_steady _ _ _ _ _) Et).
    eapply (state_after h_steady); [|exact Ei].
    pose proof add_output_file_steady. preserves_tac. }
  exists ipk, m1, tu, m2, stg, sr, lk, bd, fd.
  repeat split; assumption.
Qed.

Lemma init_stages_list nl l m stg m1 :
  Lak.init_stages nl (Lak.StagesList l) m = (Ok stg, m1) ->
  stg = Lak.np_array1 l /\ Z.of_nat (length l) = nl.
Proof.
  unfold Lak.init_stages. intros E.
  rewrite bind_ok with (a := Lak.np_array1 l) (s' := m) in E by reflexivity.
  rewrite bind_ok with (a := length l) (s' := m) in E by reflexivity.
  destruct (Z.of_nat (length l) =? nl) eqn:El; simpl in E; [|discriminate].
  injection E as <- _. split; [reflexivity | now apply Z.eqb_eq].
Qed.

(** The constructor does not accept what [load] hands to it for a file with
    TABLEINPUT and at least one lake: no table file has a name. *)
Lemma init_loaded_tables r loc lknc model tu :
  Lak.f_options r = ["TABLEINPUT"] ->
  Lak.f_tab_units r = Some tu ->
  1 <= Lak.f_nlakes r ->
  exists m1,
    Lak.init (loaded_args r loc lknc) model
    = (Raise (PyErr ValueError
                "a filename must be specified for the tabfile for lake 1"), m1).
Proof.
  intros Ho Htu Hn. unfold Lak.init, loaded_args.
  cbn [Lak.a_options Lak.a_nlakes Lak.a_filenames Lak.a_ipakcb Lak.a_tab_files
       Lak.a_tab_units Lak.a_unitnumber].
  rewrite Ho, Htu.
  change (Lak.has_tableinput (Some ["TABLEINPUT"])) with true.
  unfold Lak.name_count, Lak.fill_filenames.
  rewrite repeat_length, Z2Nat.id, Z.ltb_irrefl by lia.
  destruct (Z.to_nat (2 + Lak.f_nlakes r)) as [|[|[|k]]] eqn:Ek; try lia.
  simpl repeat.
  erewrite bind_ok by reflexivity.
  eexists. apply bind_raise. reflexivity.
Qed.

(** X10. A file with TABLEINPUT and at least one lake never loads (the unit
    dictionary of the name file not being given): [load] hands a list of
    unnamed files to the constructor, which refuses the table file of the
    first lake with [ValueError] as soon as the containers of the arrays are
    built. *)
Theorem lak_load_tableinput_never_loads f model nper s r s1 :
  Lak.load_stream f model nper s = (Ok r, s1) ->
  Lak.f_options r = ["TABLEINPUT"] ->
  1 <= Lak.f_nlakes r ->
  is_ok (Lak.load f model nper s).1 = false /\
  (forall dims loc lknc,
     Lak.f_dims r = Some dims ->
     transient3d_init dims (Some (Lak.lake_loc (Lak.f_periods r))) = Ok loc ->
     transient3d_init dims (Some (Lak.lake_lknc (Lak.f_periods r))) = Ok lknc ->
     Lak.load f model nper s
     = (Raise (PyErr ValueError
                 "a filename must be specified for the tabfile for lake 1"), s1)).
Proof.
  intros E Ho Hn.
  assert (Htu : exists tu, Lak.f_tab_units r = Some tu).
  { pose proof E as E'. apply load_stream_inv in E'
      as (o & td & line & sa & nl & sb & ip & sc & th & ns & ss & sd & sd' & stg
          & sr & tu & se & per & Eh & _ & _ & _ & _ & _ & ->).
    simpl in Ho. apply load_head_inv in Eh as [[_ ->]|[-> _]]; [|discriminate].
    simpl. eauto. }
  destruct Htu as [tu Htu].
  unfold Lak.load. rewrite (bind_ok _ _ _ _ _ E). unfold of_result, Lak.build.
  split.
  - destruct (Lak.f_dims r) as [dims|]; [|reflexivity].
    destruct (transient3d_init dims (Some (Lak.lake_loc _))) as [loc|e];
      [|reflexivity].
    destruct (transient3d_init dims (Some (Lak.lake_lknc _))) as [lknc|e];
      [|reflexivity].
    fold (loaded_args r loc lknc).
    destruct (init_loaded_tables r loc lknc model tu Ho Htu Hn) as [m1 ->].
    reflexivity.
  - intros dims loc lknc -> -> ->.
    fold (loaded_args r loc lknc).
    destruct (init_loaded_tables r loc lknc model tu Ho Htu Hn) as [m1 ->].
    reflexivity.
Qed.

Lemma load_dataset2_not_negative model s th ns ss sd s' :
  Lak.load_dataset2 model s = (Ok (th, ns, ss, sd), s') ->
  float_is_neg th = false ->
  ns = 0 /\ ss = float_lit 0 /\ sd = float_lit 0.
Proof.
  unfold Lak.load_dataset2. intros E Hneg.
  apply bind_inv in E as [(line & s2 & _ & E)|(e & _ & ?)]; [|discriminate].
  apply bind_inv in E as [(t & s3 & _ & E)|(e & _ & ?)]; [|discriminate].
  apply bind_inv in E as [(th0 & s4 & _ & E)|(e & _ & ?)]; [|discriminate].
  apply bind_inv in E as [(nsp & s5 & Ens & E)|(e & _ & ?)]; [|discriminate].
  apply bind_inv in E as [(sd0 & s6 & Esd & E)|(e & _ & ?)]; [|discriminate].
  injection E as -> <- <- <- _.
  rewrite Hneg in Ens, Esd.
  injection Ens as <- _. injection Esd as <- _. auto.
Qed.

(** X11. The solver settings of a loaded package whose [theta] is not
    negative: [nssitr], [sscncr] and [surfdep] are 0, whatever dataset 2 of
    the file holds after [theta] (the writer puts [nssitr] and [sscncr]
    there when a stress period is steady). *)
Theorem lak_loaded_solver_settings f model nper s p m' s' :
  Lak.load f model nper s = (Ok (p, m'), s') ->
  float_is_neg (Lak.theta p) = false ->
  Lak.nssitr p = 0 /\ Lak.sscncr p = float_lit 0 /\ Lak.surfdep p = float_lit 0.
Proof.
  intros E Hneg.
  apply load_inv in E as (r & Er & Eb).
  apply build_inv in Eb as (dims & loc & lknc & _ & _ & _ & Ei).
  apply lak_init_inv in Ei
    as (ipk & m1 & tu & m2 & stg & sr & lk & bd & fd & _ & _ & _ & _ & _ & _ & _ & ->).
  cbn [Lak.theta Lak.nssitr Lak.sscncr Lak.surfdep loaded_args Lak.a_theta
       Lak.a_nssitr Lak.a_sscncr Lak.a_surfdep] in *.
  apply load_stream_inv in Er
    as (o & td & line & sa & nl & sb & ip & sc & th & ns & ss & sd & sd' & stg'
        & sr' & tu' & se & per & _ & _ & _ & E2 & _ & _ & ->).
  cbn [Lak.f_theta Lak.f_nssitr Lak.f_sscncr Lak.f_surfdep] in *.
  exact (load_dataset2_not_negative _ _ _ _ _ _ _ E2 Hneg).
Qed.

Lemma lake_lines_text model td l : forall acc s acc' s',
  foldM (Lak.load_lake_line model td) l acc s = (Ok acc', s') ->
  forallb is_text acc.1.1 = true ->
  forallb is_text acc'.1.1 = true
  /\ length acc'.1.1 = (length acc.1.1 + length l)%nat.
Proof.
  induction l as [|x l IH]; intros acc s acc' s' E Hacc.
  - injection E as <- <-. split; [exact Hacc | simpl; lia].
  - simpl in E.
    apply bind_inv in E as [(acc1 & s1 & E1 & E)|(e & _ & ?)]; [|discriminate].
    apply IH in E as [Ht Hl].
    + assert (length acc1.1.1 = S (length acc.1.1)) as Hlen.
      { clear -E1. destruct acc as [[stg sr] tu]. unfold Lak.load_lake_line in E1.
        apply bind_inv in E1 as [(line & s2 & _ & E1)|(e & _ & ?)]; [|discriminate].
        apply bind_inv in E1 as [(t & s3 & _ & E1)|(e & _ & ?)]; [|discriminate].
        apply bind_inv in E1 as [(t0 & s4 & _ & E1)|(e & _ & ?)]; [|discriminate].
        apply bind_inv in E1 as [(st0 & s5 & _ & E1)|(e & _ & ?)]; [|discriminate].
        apply bind_inv in E1 as [(r & s6 & _ & E1)|(e & _ & ?)]; [|discriminate].
        apply bind_inv in E1 as [(u & s7 & _ & E1)|(e & _ & ?)]; [|discriminate].
        injection E1 as <- _. simpl. rewrite length_app. simpl. lia. }
      split; [exact Ht | simpl; lia].
    + clear -E1 Hacc. destruct acc as [[stg sr] tu]. unfold Lak.load_lake_line in E1.
      apply bind_inv in E1 as [(line & s2 & _ & E1)|(e & _ & ?)]; [|discriminate].
      apply bind_inv in E1 as [(t & s3 & _ & E1)|(e & _ & ?)]; [|discriminate].
      apply bind_inv in E1 as [(t0 & s4 & _ & E1)|(e & _ & ?)]; [|discriminate].
      apply bind_inv in E1 as [(st0 & s5 & _ & E1)|(e & _ & ?)]; [|discriminate].
      apply bind_inv in E1 as [(r & s6 & _ & E1)|(e & _ & ?)]; [|discriminate].
      apply bind_inv in E1 as [(u & s7 & _ & E1)|(e & _ & ?)]; [|discriminate].
      injection E1 as <- _. simpl in *. rewrite forallb_app, Hacc. reflexivity.
Qed.

(** X12. The stages of a loaded package are the first tokens of the lines
    of dataset 3, kept as text: [load] never converts them to numbers, so
    that a line whose stage is not a number loads; there is one of them for
    each lake. *)
Theorem lak_loaded_stages_are_text f model nper s p m' s' :
  Lak.load f model nper s = (Ok (p, m'), s') ->
  shape (Lak.stages p) = [Z.to_nat (Lak.nlakes p)]
  /\ length (data (Lak.stages p)) = Z.to_nat (Lak.nlakes p)
  /\ forallb is_text (data (Lak.stages p)) = true.
Proof.
  intros E.
  apply load_inv in E as (r & Er & Eb).
  apply build_inv in Eb as (dims & loc & lknc & _ & _ & _ & Ei).
  apply lak_init_inv in Ei
    as (ipk & m1 & tu & m2 & stg & sr & lk & bd & fd & _ & Es & _ & _ & _ & _ & _ & ->).
  cbn [Lak.stages Lak.nlakes loaded_args Lak.a_nlakes Lak.a_stages] in *.
  apply init_stages_list in Es as [-> Hlen].
  apply load_stream_inv in Er
    as (o & td & line & sa & nl & sb & ip & sc & th & ns & ss & sd & sd' & stg'
        & sr' & tu' & se & per & _ & _ & _ & _ & E3 & _ & ->).
  cbn [Lak.f_stages Lak.f_nlakes] in *.
  apply lake_lines_text in E3 as [Ht Hl]; [|reflexivity].
  simpl in Ht, Hl. unfold range in Hl. rewrite length_seq in Hl.
  unfold Lak.np_array1. simpl. rewrite Hl. auto.
Qed.

End LakLoad.

Section LakConstructor.
Context `{PyFloat} `{ArrayIO}.

Lemma lak_write_body_raises model p st :
  Lak.sill_data p = None \/ Lak.flux_data p = None ->
  raises (Lak.write_body model p) st.
Proof.
  intros Hnone. unfold Lak.write_body.
  do 6 (apply raises_bind_any; intros ? ? _).
  destruct (Lak.sill_data p) as [sd|] eqn:Es.
  - destruct Hnone as [?|Hf]; [discriminate|]. rewrite Hf.
    apply raises_bind_any; intros ? ? _.
    apply raises_bind_l. eexists _, _. reflexivity.
  - apply raises_bind_l. eexists _, _. reflexivity.
Qed.

(** X13. A package built with [sill_data] or [flux_data] left to its
    default, [None], cannot be written: [write_file] raises for it, on every
    model and stream ([self.sill_data.keys()] and [self.flux_data.keys()]
    are taken without a test). *)
Theorem lak_write_file_needs_dictionaries a m p m' model st :
  Lak.init a m = (Ok p, m') ->
  Lak.a_sill_data a = None \/ Lak.a_flux_data a = None ->
  raises (Lak.write_file model p) st.
Proof.
  intros Ei Hnone.
  assert (Hp : Lak.sill_data p = None \/ Lak.flux_data p = None).
  { apply lak_init_inv in Ei
      as (ipk & m1 & tu & m2 & stg & sr & lk & bd & fd & _ & _ & _ & _ & _ & Ef & _ & ->).
    cbn [Lak.sill_data Lak.flux_data].
    destruct Hnone as [Hs|Hf]; [left; now rewrite Hs|right].
    rewrite Hf in Ef. now injection Ef as <- _. }
  unfold Lak.write_file.
  apply raises_bind_any; intros ? ? _.
  apply raises_bind_l. now apply lak_write_body_raises.
Qed.

(** X14. The constructor raises when [lakarr] and [bdlknc] are both left to
    their default, [None], whatever the other arguments are. *)
Theorem lak_init_requires_arrays a m :
  Lak.a_lakarr a = None -> Lak.a_bdlknc a = None ->
  raises (Lak.init a) m.
Proof.
  intros Hl Hb. unfold Lak.init. rewrite Hl, Hb.
  do 4 (apply raises_bind_any; intros ? ? _).
  apply raises_bind_any; intros ? ? _.
  apply raises_bind_any; intros ? ? _.
  apply raises_bind_l. eexists _, _. reflexivity.
Qed.

(** X15. Without TABLEINPUT, a [filenames] list of fewer than two names is
    not padded ([range(2, nlen)] is empty), and a constructor that is given
    the unit of the cell-by-cell flows raises [IndexError] on
    [filenames[1]], before anything is registered with the model. *)
Theorem lak_init_short_filenames a m u l :
  Lak.a_ipakcb a = Some u ->
  Lak.a_filenames a = Lak.FnList l ->
  (length l < 2)%nat ->
  Lak.has_tableinput (Lak.a_options a) = false ->
  Lak.init a m = (Raise (PyErr IndexError "list index out of range"), m).
Proof.
  intros Hip Hfn Hlen Htab. unfold Lak.init.
  rewrite Hip, Hfn, Htab. unfold Lak.name_count, Lak.fill_filenames.
  replace (Z.of_nat (length l) <? 2) with true by (symmetry; apply Z.ltb_lt; lia).
  change (Z.to_nat (2 - 2)) with 0%nat. simpl repeat. rewrite app_nil_r.
  apply bind_raise. apply bind_raise. unfold index.
  rewrite lookup_ge_None_2 by lia. reflexivity.
Qed.

End LakConstructor.

Section LakFlux.
Context `{PyFloat} `{ArrayIO}.

(** *** The flux data the constructor accepts *)

Lemma for_each_checks {St A} (body : A -> M St unit) (P : A -> Prop) :
  (forall a s r s', body a s = (Ok r, s') -> s' = s /\ P a) ->
  forall l s u s', for_each l body s = (Ok u, s') -> s' = s /\ Forall P l.
Proof.
  intros Hb. unfold for_each.
  induction l as [|x l IH]; intros s u s' E; simpl in E.
  - injection E as _ <-. split; [reflexivity | constructor].
  - apply bind_inv in E as [([] & s1 & E1 & E)|(e & _ & ?)]; [|discriminate].
    apply Hb in E1 as [-> Hx]. apply IH in E as [-> Hl].
    split; [reflexivity | now constructor].
Qed.

Lemma for_each_all_ok {St A} (body : A -> M St unit) (l : list A) (s : St) :
  (forall a, a ∈ l -> body a s = (Ok tt, s)) -> for_each l body s = (Ok tt, s).
Proof.
  unfold for_each. induction l as [|x l IH]; intros Hb; [reflexivity|]. simpl.
  rewrite (bind_ok _ _ _ _ _ (Hb x ltac:(left))).
  apply IH. intros a Ha. apply Hb. now right.
Qed.

Lemma check_flux_value_ok model nl nk key v s v' s' :
  Lak.check_flux_value model nl nk key v s = (Ok v', s') ->
  s' = s /\ v' = flux_value_stored v
  /\ flux_value_accepted (h_steady model) nl nk key v.
Proof.
  destruct v as [a|sc|d|l]; simpl; intros E.
  - unfold shape0 in E. destruct (shape a) as [|n sh] eqn:Esh; [discriminate|].
    rewrite bind_ok with (a := n) (s' := s) in E by reflexivity.
    destruct n as [|n].
    + destruct (Z.of_nat nk =? nl) eqn:Enk; simpl in E; [|discriminate].
      injection E as <- <-. apply Z.eqb_eq in Enk. eauto 6.
    + destruct sh as [|? sh]; discriminate.
  - destruct sc as [z|x|str].
    + destruct (0 <? nl) eqn:En; [discriminate|]. injection E as <- <-.
      apply Z.ltb_ge in En. auto.
    + destruct (0 <? nl) eqn:En; [discriminate|]. injection E as <- <-.
      apply Z.ltb_ge in En. auto.
    + injection E as <- <-. auto.
  - apply bind_inv in E as [(u & s1 & Ef & E)|(e & _ & ?)]; [|discriminate].
    injection E as <- <-.
    apply (for_each_checks _ (fun k =>
             exists td, d !! k = Some td
                        /\ (flux_entry_length (h_steady model) key <= length td)%nat))
      in Ef as [-> Hall].
    + split; [reflexivity|]. split; [reflexivity|]. intros k Hk.
      rewrite Forall_forall in Hall. apply Hall. unfold range.
      apply elem_of_seq. lia.
    + intros k s0 r s0' Ek. unfold Lak.dict_get in Ek.
      destruct (d !! k) as [td|]; [|discriminate].
      rewrite bind_ok with (a := td) (s' := s0) in Ek by reflexivity.
      unfold flux_entry_length, Lak.steady_or_true in *.
      destruct (length td <? _)%nat eqn:El; [discriminate|].
      injection Ek as _ <-. apply Nat.ltb_ge in El. eauto.
  - injection E as <- <-. auto.
Qed.

Lemma check_flux_value_six model nl nk key v s :
  six_values nl v -> Lak.check_flux_value model nl nk key v s = (Ok v, s).
Proof.
  intros (rows & -> & Hrows). simpl.
  rewrite (bind_ok _ _ _ tt s); [reflexivity|].
  apply for_each_all_ok. intros k Hk. unfold range in Hk.
  apply elem_of_seq in Hk. destruct (Hrows k ltac:(lia)) as (td & Etd & Hlen).
  unfold Lak.dict_get. rewrite Etd.
  rewrite bind_ok with (a := td) (s' := s) by reflexivity.
  rewrite Hlen. now destruct (_ && _).
Qed.

Lemma init_flux_fold model nl nk l :
  NoDup l.*1 ->
  forall (acc : gmap nat Lak.flux_value) s d' s',
    foldM (fun acc kv =>
             v' ← Lak.check_flux_value model nl nk kv.1 kv.2;
             mret (<[kv.1 := v']> acc)) l acc s = (Ok d', s') ->
    s' = s
    /\ (forall key v, (key, v) ∈ l ->
          flux_value_accepted (h_steady model) nl nk key v
          /\ d' !! key = Some (flux_value_stored v))
    /\ (forall key, key ∉ l.*1 -> d' !! key = acc !! key).
Proof.
  induction l as [|[k v] l IH]; intros Hnd acc s d' s' E; simpl in E.
  - injection E as <- <-. split; [reflexivity|]. split.
    + intros key v Hin. now apply elem_of_nil in Hin.
    + reflexivity.
  - rewrite fmap_cons in Hnd. apply NoDup_cons in Hnd as [Hk Hnd].
    apply bind_inv in E as [(acc1 & s1 & E1 & E)|(e & _ & ?)]; [|discriminate].
    apply bind_inv in E1 as [(v' & s2 & Ec & E1)|(e & _ & ?)]; [|discriminate].
    injection E1 as <- <-.
    apply check_flux_value_ok in Ec as (-> & -> & Hacc).
    apply (IH Hnd) in E as (-> & Hin & Hout).
    split; [reflexivity|]. split.
    + intros key v0 Hkv. apply elem_of_cons in Hkv as [Heq|Hkv].
      * injection Heq as -> ->. split; [exact Hacc|].
        rewrite (Hout k Hk). simpl. apply lookup_insert_eq.
      * now apply Hin.
    + intros key Hkey. rewrite fmap_cons in Hkey. simpl in Hkey.
      apply not_elem_of_cons in Hkey as [Hne Hkey].
      rewrite (Hout key Hkey). simpl. now apply lookup_insert_ne.
Qed.

Lemma init_flux_data_inv model nl d s fd s' :
  Lak.init_flux_data model nl (Some (Lak.FluxDict d)) s = (Ok fd, s') ->
  exists d', fd = Some d' /\
    forall key,
      match d !! key with
      | Some v => flux_value_accepted (h_steady model) nl (size d) key v
                  /\ d' !! key = Some (flux_value_stored v)
      | None => d' !! key = None
      end.
Proof.
  unfold Lak.init_flux_data. intros E.
  apply bind_inv in E as [(d' & s1 & Ef & E)|(e & _ & ?)]; [|discriminate].
  injection E as <- _. exists d'. split; [reflexivity|].
  apply init_flux_fold in Ef as (_ & Hin & Hout);
    [|apply NoDup_fst_map_to_list].
  intros key. destruct (d !! key) as [v|] eqn:Ek.
  - apply Hin. now apply elem_of_map_to_list.
  - rewrite Hout; [exact Ek|]. intros Hkey.
    apply list_elem_of_fmap in Hkey as ([k v] & -> & Hkv).
    apply elem_of_map_to_list in Hkv. simpl in Ek. congruence.
Qed.

(** X16. The flux data of a package the constructor returns, [flux_data]
    being a dictionary: the entry of a period is not an array that has rows
    and, when there are lakes, not a number ([aslist] is called on the array
    made of them); an entry that is a dictionary has, for each lake, a list
    of at least four values, six for a steady period other than the first;
    dictionaries, lists and strings are stored as they are, and an array
    without rows or a number as the empty dictionary. *)
Theorem lak_init_flux_data_checked a m p m' d :
  Lak.init a m = (Ok p, m') ->
  Lak.a_flux_data a = Some (Lak.FluxDict d) ->
  exists d', Lak.flux_data p = Some d' /\
    forall key,
      match d !! key with
      | Some v => flux_value_accepted (h_steady m) (Lak.a_nlakes a) (size d) key v
                  /\ d' !! key = Some (flux_value_stored v)
      | None => d' !! key = None
      end.
Proof.
  intros Ei Hd.
  apply lak_init_inv in Ei
    as (ipk & m1 & tu & m2 & stg & sr & lk & bd & fd & _ & _ & _ & _ & _ & Ef & Hst & ->).
  rewrite Hd in Ef. apply init_flux_data_inv in Ef as (d' & -> & Hd').
  exists d'. split; [reflexivity|]. now rewrite <- Hst.
Qed.

(** *** The flux data the loader builds *)

Lemma load_flux_row model iper sr ds9 n s ds9' s' :
  Lak.load_flux model iper sr ds9 n s = (Ok ds9', s') ->
  exists row, length row = 6%nat /\ ds9' = <[n := row]> ds9.
Proof.
  unfold Lak.load_flux. intros E.
  apply bind_inv in E as [(line & s1 & _ & E)|(e & _ & ?)]; [|discriminate].
  apply bind_inv in E as [(t & s2 & _ & E)|(e & _ & ?)]; [|discriminate].
  apply bind_inv in E as [(t0 & s3 & _ & E)|(e & _ & ?)]; [|discriminate].
  apply bind_inv in E as [(t1 & s4 & _ & E)|(e & _ & ?)]; [|discriminate].
  apply bind_inv in E as [(t2 & s5 & _ & E)|(e & _ & ?)]; [|discriminate].
  apply bind_inv in E as [(t3 & s6 & _ & E)|(e & _ & ?)]; [|discriminate].
  apply bind_inv in E as [(st & s7 & _ & E)|(e & _ & ?)]; [|discriminate].
  apply bind_inv in E as [(ext & s8 & Ee & E)|(e & _ & ?)]; [|discriminate].
  injection E as <- _. eexists. split; [|reflexivity].
  assert (length ext = 2%nat) as Hext.
  { destruct st.
    - destruct iper.
      + apply bind_inv in Ee as [(r & s9 & _ & Ee)|(e & _ & ?)]; [|discriminate].
        now injection Ee as <- _.
      + apply bind_inv in Ee as [(t4 & s9 & _ & Ee)|(e & _ & ?)]; [|discriminate].
        apply bind_inv in Ee as [(t5 & s10 & _ & Ee)|(e & _ & ?)]; [|discriminate].
        now injection Ee as <- _.
    - now injection Ee as <- _. }
  simpl. now rewrite Hext.
Qed.

Lemma load_flux_fold model iper sr l : forall ds9 s ds9' s',
  foldM (Lak.load_flux model iper sr) l ds9 s = (Ok ds9', s') ->
  (forall k td, ds9 !! k = Some td -> length td = 6%nat) ->
  (forall k td, ds9' !! k = Some td -> length td = 6%nat)
  /\ (forall k, k ∈ l \/ is_Some (ds9 !! k) -> is_Some (ds9' !! k)).
Proof.
  induction l as [|x l IH]; intros ds9 s ds9' s' E Hlen; simpl in E.
  - injection E as <- <-. split; [exact Hlen|].
    intros k [Hk|Hk]; [now apply elem_of_nil in Hk | exact Hk].
  - apply bind_inv in E as [(ds1 & s1 & E1 & E)|(e & _ & ?)]; [|discriminate].
    apply load_flux_row in E1 as (row & Hrow & ->).
    apply IH in E as [H6 Hkeys].
    + split; [exact H6|]. intros k Hk. apply Hkeys.
      destruct (decide (k = x)) as [->|Hne].
      * right. rewrite lookup_insert_eq. eauto.
      * destruct Hk as [Hk|Hk].
        -- left. apply elem_of_cons in Hk as [?|Hk]; [congruence | exact Hk].
        -- right. now rewrite lookup_insert_ne by congruence.
    + intros k td Hk. destruct (decide (k = x)) as [->|Hne].
      * rewrite lookup_insert_eq in Hk. now injection Hk as <-.
      * rewrite lookup_insert_ne in Hk by congruence. eauto.
Qed.

Lemma load_period_flux model dims nl sr acc iper s acc' s' :
  Lak.load_period model dims nl sr acc iper s = (Ok acc', s') ->
  Lak.l_flux_data acc' = Lak.l_flux_data acc
  \/ exists ds9,
       Lak.l_flux_data acc' = <[iper := Lak.FvDict ds9]> (Lak.l_flux_data acc)
       /\ six_values nl (Lak.FvDict ds9).
Proof.
  unfold Lak.load_period. intros E.
  apply bind_inv in E as [(line & s1 & _ & E)|(e & _ & ?)]; [|discriminate].
  apply bind_inv in E as [(t & s2 & _ & E)|(e & _ & ?)]; [|discriminate].
  apply bind_inv in E as [(itmp & s3 & _ & E)|(e & _ & ?)]; [|discriminate].
  apply bind_inv in E as [(itmp1 & s4 & _ & E)|(e & _ & ?)]; [|discriminate].
  apply bind_inv in E as [(lwrt & s5 & _ & E)|(e & _ & ?)]; [|discriminate].
  apply bind_inv in E as [(acc1 & s6 & Ea & E)|(e & _ & ?)]; [|discriminate].
  assert (Hacc1 : Lak.l_flux_data acc1 = Lak.l_flux_data acc).
  { destruct (0 <? itmp).
    - apply bind_inv in Ea as [(shp & s7 & _ & Ea)|(e & _ & ?)]; [|discriminate].
      apply bind_inv in Ea as [(la & s8 & _ & Ea)|(e & _ & ?)]; [|discriminate].
      apply bind_inv in Ea as [(bd & s9 & _ & Ea)|(e & _ & ?)]; [|discriminate].
      apply bind_inv in Ea as [(l7 & s10 & _ & Ea)|(e & _ & ?)]; [|discriminate].
      apply bind_inv in Ea as [(nslms & s11 & _ & Ea)|(e & _ & ?)]; [|discriminate].
      apply bind_inv in Ea as [(sills & s12 & _ & Ea)|(e & _ & ?)]; [|discriminate].
      now injection Ea as <- _.
    - now injection Ea as <- _. }
  destruct (0 <=? itmp1).
  - apply bind_inv in E as [(ds9 & s7 & Ef & E)|(e & _ & ?)]; [|discriminate].
    injection E as <- _. right. exists ds9. simpl. rewrite Hacc1.
    split; [reflexivity|]. exists ds9. split; [reflexivity|]. intros k Hk.
    apply load_flux_fold in Ef as [H6 Hkeys].
    + destruct (Hkeys k) as [td Etd].
      * left. unfold range. apply elem_of_seq. lia.
      * exists td. split; [exact Etd | now apply (H6 k)].
    + intros k' td Hx. rewrite lookup_empty in Hx. discriminate.
  - injection E as <- _. left. exact Hacc1.
Qed.

Lemma load_periods_flux model dims nl sr l : forall acc s acc' s',
  foldM (Lak.load_period model dims nl sr) l acc s = (Ok acc', s') ->
  forall key v, Lak.l_flux_data acc' !! key = Some v ->
    (key ∈ l /\ six_values nl v) \/ Lak.l_flux_data acc !! key = Some v.
Proof.
  induction l as [|x l IH]; intros acc s acc' s' E key v Hv; simpl in E.
  - injection E as <- <-. now right.
  - apply bind_inv in E as [(acc1 & s1 & E1 & E)|(e & _ & ?)]; [|discriminate].
    destruct (IH _ _ _ _ E key v Hv) as [[Hin Hsix]|Hv1].
    + left. split; [now right | exact Hsix].
    + apply load_period_flux in E1 as [Heq|(ds9 & Heq & Hsix)].
      * right. now rewrite <- Heq.
      * rewrite Heq in Hv1. destruct (decide (key = x)) as [->|Hne].
        -- rewrite lookup_insert_eq in Hv1. injection Hv1 as <-.
           left. split; [now left | exact Hsix].
        -- rewrite lookup_insert_ne in Hv1 by congruence. now right.
Qed.

Lemma load_stream_flux f model nper s r s1 :
  Lak.load_stream f model nper s = (Ok r, s1) ->
  forall key v, Lak.l_flux_data (Lak.f_periods r) !! key = Some v ->
    (key < match nper with Some n => n | None => h_nper model end)%nat
    /\ six_values (Lak.f_nlakes r) v.
Proof.
  intros E key v Hv.
  apply load_stream_inv in E
    as (o & td & line & sa & nl & sb & ip & sc & th & ns & ss & sd & sd' & stg
        & sr & tu & se & per & _ & _ & _ & _ & _ & Ep & ->).
  cbn [Lak.f_periods Lak.f_nlakes] in *.
  destruct (load_periods_flux _ _ _ _ _ _ _ _ _ Ep key v Hv) as [[Hin Hsix]|Hv0].
  - split; [|exact Hsix]. unfold range in Hin. apply elem_of_seq in Hin. lia.
  - simpl in Hv0. rewrite lookup_empty in Hv0. discriminate.
Qed.

(** X17. The flux data of a loaded package: [flux_data] has an entry for
    stress periods of the file only, and each entry is a dictionary that
    holds, for every lake, a list of six values (the four of the line, then
    the stage range of the lake in a steady first period, the fifth and
    sixth values of the line in a later steady period, and two zeros in a
    transient one). *)
Theorem lak_loaded_flux_rows f model nper s p m' s' :
  Lak.load f model nper s = (Ok (p, m'), s') ->
  exists fd, Lak.flux_data p = Some fd /\
    forall key v, fd !! key = Some v ->
      (key < match nper with Some n => n | None => h_nper model end)%nat
      /\ six_values (Lak.nlakes p) v.
Proof.
  intros E.
  apply load_inv in E as (r & Er & Eb).
  apply build_inv in Eb as (dims & loc & lknc & _ & _ & _ & Ei).
  apply lak_init_inv in Ei
    as (ipk & m1 & tu & m2 & stg & sr & lk & bd & fd & _ & _ & _ & _ & _ & Ef & _ & ->).
  cbn [Lak.flux_data Lak.nlakes loaded_args Lak.a_nlakes Lak.a_flux_data] in *.
  apply init_flux_data_inv in Ef as (d' & -> & Hd').
  exists d'. split; [reflexivity|]. intros key v Hv.
  specialize (Hd' key).
  destruct (Lak.l_flux_data (Lak.f_periods r) !! key) as [v0|] eqn:Ek.
  - destruct Hd' as [_ Hd'].
    destruct (load_stream_flux _ _ _ _ _ _ Er key v0 Ek) as [Hlt Hsix].
    assert (v = v0) as ->.
    { destruct Hsix as (rows & -> & _). simpl in Hd'. congruence. }
    auto.
  - congruence.
Qed.

Lemma init_flux_fold_same model nl nk l : forall (acc : gmap nat Lak.flux_value) s,
  (forall k v, (k, v) ∈ l -> acc !! k = Some v /\ six_values nl v) ->
  foldM (fun acc kv =>
           v' ← Lak.check_flux_value model nl nk kv.1 kv.2;
           mret (<[kv.1 := v']> acc)) l acc s = (Ok acc, s).
Proof.
  induction l as [|[k v] l IH]; intros acc s Hl; [reflexivity|]. simpl.
  destruct (Hl k v ltac:(left)) as [Hk Hsix].
  rewrite (bind_ok _ _ _ acc s).
  - apply IH. intros k' v' Hin. apply Hl. now right.
  - rewrite (bind_ok _ _ _ _ _ (check_flux_value_six model nl nk k v s Hsix)).
    unfold mret, M_ret. now rewrite insert_id.
Qed.

(** X18. The constructor never refuses the flux data the loader has built:
    its test of the entries of [flux_data] passes for them, on every model,
    and leaves them as they are. *)
Theorem lak_loaded_flux_accepted f model nper s r s1 :
  Lak.load_stream f model nper s = (Ok r, s1) ->
  forall model' m,
    Lak.init_flux_data model' (Lak.f_nlakes r)
      (Some (Lak.FluxDict (Lak.l_flux_data (Lak.f_periods r)))) m
    = (Ok (Some (Lak.l_flux_data (Lak.f_periods r))), m).
Proof.
  intros E model' m. unfold Lak.init_flux_data.
  rewrite (bind_ok _ _ _ (Lak.l_flux_data (Lak.f_periods r)) m); [reflexivity|].
  apply init_flux_fold_same. intros k v Hin.
  apply elem_of_map_to_list in Hin. split; [exact Hin|].
  exact (proj2 (load_stream_flux _ _ _ _ _ _ E k v Hin)).
Qed.

End LakFlux.

Section LakEdges.
Context `{PyFloat} `{ArrayIO}.

(** *** Lines that are short, and files that end early *)

Lemma try_int_at t i (s : fstate) :
  try_default (Lak.int_at t i) 0 s = (Ok (default 0 (t !! i ≫= Py.int)), s).
Proof.
  unfold try_default, Lak.int_at, index, int_of, mbind at 1, M_bind.
  destruct (t !! i) as [x|]; simpl; [|reflexivity].
  now destruct (Py.int x).
Qed.

Lemma try_float_at t i (s : fstate) :
  try_default (Lak.float_at t i) (float_lit 0) s
  = (Ok (default (float_lit 0) (t !! i ≫= float_of_string)), s).
Proof.
  unfold try_default, Lak.float_at, index, float_of, mbind at 1, M_bind.
  destruct (t !! i) as [x|]; simpl; [|reflexivity].
  now destruct (float_of_string x).
Qed.

Lemma float_at_ok t i x v (s : fstate) :
  t !! i = Some x -> float_of_string x = Some v -> Lak.float_at t i s = (Ok v, s).
Proof.
  intros Ht Hx. unfold Lak.float_at. rewrite (bind_ok _ _ _ _ _ (index_ok _ _ _ _ Ht)).
  unfold float_of. now rewrite Hx.
Qed.

Lemma int_at_ok t i x v (s : fstate) :
  t !! i = Some x -> Py.int x = Some v -> Lak.int_at t i s = (Ok v, s).
Proof.
  intros Ht Hx. unfold Lak.int_at. rewrite (bind_ok _ _ _ _ _ (index_ok _ _ _ _ Ht)).
  now apply int_of_ok.
Qed.

Lemma float_at_short t i (s : fstate) :
  (length t <= i)%nat ->
  Lak.float_at t i s = (Raise (PyErr IndexError "list index out of range"), s).
Proof.
  intros Hlen. unfold Lak.float_at. apply bind_raise. unfold index.
  now rewrite lookup_ge_None_2 by lia.
Qed.

(** X19. Dataset 2 of a lake file in free format, for a negative [theta]:
    [nssitr] and [sscncr] are read under a guard, and a second or third
    field that is missing or is not a number gives 0; [surfdep] is read
    without one, and a line of fewer than four fields raises
    [IndexError]. *)
Theorem lak_dataset2_negative_theta model s line rest x th :
  h_array_free_format model = true ->
  pending s = line :: rest ->
  Py.split (Py.rstrip (line +:+ "
")) !! 0%nat = Some x ->
  float_of_string x = Some th ->
  float_is_neg th = true ->
  let t := Py.split (Py.rstrip (line +:+ "
")) in
  let after := {| pending := rest; handle_open := handle_open s |} in
  ((length t <= 3)%nat ->
   Lak.load_dataset2 model s
   = (Raise (PyErr IndexError "list index out of range"), after)) /\
  (forall y sd, t !! 3%nat = Some y -> float_of_string y = Some sd ->
     Lak.load_dataset2 model s
     = (Ok (th, default 0 (t !! 1%nat ≫= Py.int),
            default (float_lit 0) (t !! 2%nat ≫= float_of_string), sd), after)).
Proof.
  intros Hfree Hs Hx Hth Hneg t after.
  assert (Hd : Lak.load_dataset2 model s
               = (surfdep ← Lak.float_at t 3;
                  mret (th, default 0 (t !! 1%nat ≫= Py.int),
                        default (float_lit 0) (t !! 2%nat ≫= float_of_string),
                        surfdep)) after).
  { unfold Lak.load_dataset2.
    rewrite (bind_ok _ _ _ _ _ (readline_cons _ _ _ Hs)).
    unfold Lak.tokens. rewrite Hfree.
    rewrite bind_ok with (a := t) (s' := after) by reflexivity.
    rewrite (bind_ok _ _ _ _ _ (float_at_ok _ _ _ _ after Hx Hth)).
    rewrite Hneg.
    rewrite bind_ok with (a := (default 0 (t !! 1%nat ≫= Py.int),
                                default (float_lit 0) (t !! 2%nat ≫= float_of_string)))
                         (s' := after).
    - reflexivity.
    - rewrite (bind_ok _ _ _ _ _ (try_int_at t 1 after)).
      rewrite (bind_ok _ _ _ _ _ (try_float_at t 2 after)). reflexivity. }
  split.
  - intros Hlen. rewrite Hd. apply bind_raise. now apply float_at_short.
  - intros y sd Hy Hsd. rewrite Hd.
    now rewrite (bind_ok _ _ _ _ _ (float_at_ok _ _ _ _ after Hy Hsd)).
Qed.

(** X20. A stress period of a lake file whose second count is not negative
    (0 included) is followed by one flux line for each lake: when the file
    ends with the count line of such a period, no array being announced and
    there being a lake, the loader raises [IndexError] on the empty line it
    reads at the end of the file. *)
Theorem lak_period_flux_lines_expected model dims nl sr acc iper s cline
    a b c itmp itmp1 lwrt :
  h_array_free_format model = true ->
  pending s = [cline] ->
  Py.split (Py.rstrip (cline +:+ "
")) !! 0%nat = Some a ->
  Py.split (Py.rstrip (cline +:+ "
")) !! 1%nat = Some b ->
  Py.split (Py.rstrip (cline +:+ "
")) !! 2%nat = Some c ->
  Py.int a = Some itmp -> Py.int b = Some itmp1 -> Py.int c = Some lwrt ->
  itmp <= 0 -> 0 <= itmp1 -> 1 <= nl ->
  Lak.load_period model dims nl sr acc iper s
  = (Raise (PyErr IndexError "list index out of range"),
     {| pending := []; handle_open := handle_open s |}).
Proof.
  intros Hfree Hs Ha Hb Hc Hia Hib Hic Hitmp Hitmp1 Hnl.
  set (after := {| pending := []; handle_open := handle_open s |}).
  unfold Lak.load_period.
  rewrite (bind_ok _ _ _ _ _ (readline_cons _ _ _ Hs)). fold after.
  unfold Lak.tokens at 1. rewrite Hfree.
  rewrite bind_ok with (a := Py.split (Py.rstrip (cline +:+ "
"))) (s' := after) by reflexivity.
  rewrite (bind_ok _ _ _ _ _ (int_at_ok _ _ _ _ after Ha Hia)).
  rewrite (bind_ok _ _ _ _ _ (int_at_ok _ _ _ _ after Hb Hib)).
  rewrite (bind_ok _ _ _ _ _ (int_at_ok _ _ _ _ after Hc Hic)).
  replace (0 <? itmp) with false by (symmetry; apply Z.ltb_ge; lia).
  rewrite bind_ok with (a := acc) (s' := after) by reflexivity.
  replace (0 <=? itmp1) with true by (symmetry; apply Z.leb_le; lia).
  apply bind_raise.
  destruct (Z.to_nat nl) as [|k] eqn:Ek; [lia|].
  unfold range. simpl seq. simpl foldM. apply bind_raise.
  unfold Lak.load_flux.
  rewrite bind_ok with (a := "") (s' := after) by reflexivity.
  unfold Lak.tokens. rewrite Hfree.
  rewrite bind_ok with (a := []) (s' := after) by reflexivity.
  apply bind_raise. now apply float_at_short.
Qed.

Lemma foldM_appends {St A B} (f : list B -> A -> M St (list B)) :
  (forall acc x s acc1 s1, f acc x s = (Ok acc1, s1) -> exists v, acc1 = acc ++ [v]) ->
  forall l acc s acc' s',
    foldM f l acc s = (Ok acc', s') ->
    exists ext, acc' = acc ++ ext /\ length ext = length l.
Proof.
  intros Hf. induction l as [|x l IH]; intros acc s acc' s' E; simpl in E.
  - injection E as <- <-. exists []. now rewrite app_nil_r.
  - apply bind_inv in E as [(acc1 & s1 & E1 & E)|(e & _ & ?)]; [|discriminate].
    apply Hf in E1 as [v ->]. apply IH in E as (ext & -> & Hlen).
    exists (v :: ext). rewrite <- app_assoc. split; [reflexivity | simpl; lia].
Qed.

(** X21. A sill record that is read (datasets 8a and 8b): the first list
    starts with the count [ic] of the first line and goes on with [ic] lake
    numbers, and the second list has [ic - 1] sill values. *)
Theorem lak_sill_record_shape model s ds8a silvt s' :
  Lak.load_sill model s = (Ok (ds8a, silvt), s') ->
  exists ic,
    ds8a !! 0%nat = Some (SInt ic)
    /\ length ds8a = S (Z.to_nat ic)
    /\ length silvt = Z.to_nat (ic - 1).
Proof.
  unfold Lak.load_sill. intros E.
  apply bind_inv in E as [(l1 & s1 & _ & E)|(e & _ & ?)]; [|discriminate].
  apply bind_inv in E as [(t1 & s2 & _ & E)|(e & _ & ?)]; [|discriminate].
  apply bind_inv in E as [(ic & s3 & _ & E)|(e & _ & ?)]; [|discriminate].
  apply bind_inv in E as [(a8 & s4 & Ea & E)|(e & _ & ?)]; [|discriminate].
  apply bind_inv in E as [(l2 & s5 & _ & E)|(e & _ & ?)]; [|discriminate].
  apply bind_inv in E as [(t2 & s6 & _ & E)|(e & _ & ?)]; [|discriminate].
  apply bind_inv in E as [(b8 & s7 & Eb & E)|(e & _ & ?)]; [|discriminate].
  injection E as <- <- _. exists ic.
  apply foldM_appends in Ea as (ext & -> & Hext).
  2:{ intros acc x s0 acc1 s0' E0.
      apply bind_inv in E0 as [(v & s8 & _ & E0)|(e & _ & ?)]; [|discriminate].
      injection E0 as <- _. eauto. }
  apply foldM_appends in Eb as (ext' & -> & Hext').
  2:{ intros acc x s0 acc1 s0' E0.
      apply bind_inv in E0 as [(v & s8 & _ & E0)|(e & _ & ?)]; [|discriminate].
      injection E0 as <- _. eauto. }
  unfold zrange in Hext. rewrite length_map, length_seq in Hext.
  unfold range in Hext'. rewrite length_seq in Hext'.
  split; [reflexivity|]. split.
  - simpl. rewrite Hext. f_equal. lia.
  - simpl. exact Hext'.
Qed.

End LakEdges.

(* ===================================================================== *)
(** ** The further properties on concrete files *)
(* ===================================================================== *)

Section MoreRuns.
Import Run Cases MoreCases.

Lemma skip_comments_first_line_witness :
  skip_comments (closed_file (two_comments ++ ["1 0"; "2"]))
  = (Ok "1 0
", {| pending := ["2"]; handle_open := false |})
  /\ skip_comments (closed_file two_comments)
     = (Raise (PyErr IndexError "string index out of range"),
        {| pending := []; handle_open := false |}).
Proof.
  split.
  - exact (proj1 (skip_comments_first_line two_comments false eq_refl)
             "1 0" ["2"] eq_refl).
  - exact (proj2 (skip_comments_first_line two_comments false eq_refl)).
Defined.

Lemma ghb_option_loop_witness :
  Ghb.parse_options ["NOPRINT"; "cbc"] [] [] (closed_file [])
  = (Ok ([], []), closed_file [])
  /\ Ghb.parse_options ["NOPRINT"; "AUX"; "temp"; "AUXILIARY"; "Salt"] [] []
       (closed_file [])
     = Ghb.parse_options ["AUXILIARY"; "Salt"] ["AUX temp"] ["temp"] (closed_file [])
  /\ Ghb.parse_options ["NOPRINT"; "AUX"] [] [] (closed_file [])
     = (Raise (PyErr IndexError "list index out of range"), closed_file []).
Proof.
  split; [|split].
  - exact (proj1 (ghb_option_loop [] [] (closed_file []))
             ["NOPRINT"; "cbc"] eq_refl).
  - exact (proj1 (proj2 (ghb_option_loop [] [] (closed_file [])))
             ["NOPRINT"] "AUX" "temp" ["AUXILIARY"; "Salt"] eq_refl eq_refl).
  - exact (proj2 (proj2 (ghb_option_loop [] [] (closed_file [])))
             ["NOPRINT"] "AUX" eq_refl eq_refl).
Defined.

Lemma ghb_record_line_tokens_witness :
  Ghb.row_of_tokens Ghb.get_default_dtype
    (["1"; "1"; "1"; "4.0"; "5.0"] ++ ["# north"; "edge"])
  = Ghb.row_of_tokens Ghb.get_default_dtype ["1"; "1"; "1"; "4.0"; "5.0"]
  /\ Ghb.row_of_tokens Ghb.get_default_dtype ["1"; "1"; "1"; "4.0"]
     = Raise (PyErr ValueError "size of tuple must match number of fields.")
  /\ (conforms Ghb.get_default_dtype a_record = true
      /\ length a_record = length Ghb.get_default_dtype).
Proof.
  split; [|split].
  - apply (proj1 (ghb_record_line_tokens Ghb.get_default_dtype
                    ["1"; "1"; "1"; "4.0"; "5.0"])).
    simpl. lia.
  - apply (proj1 (proj2 (ghb_record_line_tokens Ghb.get_default_dtype
                           ["1"; "1"; "1"; "4.0"]))).
    simpl. lia.
  - apply (proj2 (proj2 (ghb_record_line_tokens Ghb.get_default_dtype
                           ["1"; "1"; "1"; "4.0"; "5.0"]))).
    reflexivity.
Defined.

Lemma ghb_three_loads :
  ghb_run 3 ghb_three = (Ok ghb_three_loaded, after_header ghb_three 7).
Proof. reflexivity. Qed.

Lemma ghb_loaded_store_wellformed_witness :
  (1 < 3)%nat
  /\ loaded_value_ok (Ghb.dtype_of (Some ["temp"])) (Ghb.SpdInt (-1)).
Proof.
  exact (ghb_loaded_store_wellformed (FileName "x.ghb") (model0 3 [true]) None
           (closed_file ghb_three) ghb_three_loaded (after_header ghb_three 7)
           ghb_three_loads 1%nat (Ghb.SpdInt (-1)) eq_refl).
Defined.

Lemma ghb_block_reads_its_lines_witness :
  pending (after_header ghb_three 5)
  = drop (Z.to_nat 2) (pending (after_header ghb_three 3))
  /\ (Z.to_nat 2 <= length (pending (after_header ghb_three 3)))%nat.
Proof.
  refine (ghb_block_reads_its_lines ["temp"] 0%nat "2
" ∅ (after_header ghb_three 3) "2" 2 first_block (after_header ghb_three 5)
            _ _ _); reflexivity.
Defined.

Lemma ghb_load_file_ends_in_block_witness :
  ghb_run 1 ghb_short_block
  = (Raise (PyErr ValueError "size of tuple must match number of fields."),
     {| pending := []; handle_open := true |}).
Proof.
  refine (ghb_load_file_ends_in_block (FileName "x.ghb") (model0 1 [true]) None
            (closed_file ghb_short_block) 0 [] [] (after_header ghb_short_block 1)
            0%nat ∅ (after_header ghb_short_block 1)
            "2" ["1 2 3 4.0 5.0"] "2" 2 _ _ _ _ _ _ _ _).
  - reflexivity.
  - apply reads_done.
  - simpl. lia.
  - reflexivity.
  - reflexivity.
  - reflexivity.
  - simpl. lia.
  - reflexivity.
Defined.

Lemma ghb_parameter_line_witness :
  Ghb.header_line (FileName "x.ghb") (closed_file ghb_three)
  = (Ok "         2         0  AUX temp
", after_header ghb_three 2)
  /\ Ghb.header_line (FileName "x.ghb") (closed_file ghb_no_parameters)
     = (Ok "         1         0
", after_header ghb_no_parameters 3)
  /\ Ghb.header_line (FileName "x.ghb") (closed_file ghb_parameters)
     = (Raise (PyErr AssertionError "Parameters are not supported"),
        after_header ghb_parameters 2).
Proof.
  split; [|split].
  - refine (proj1 (ghb_parameter_line (FileName "x.ghb") (closed_file ghb_three)
                     ["# GHB for MODFLOW, generated by Flopy."]
                     "         2         0  AUX temp"
                     (drop 2 ghb_three) _ _ _) _); reflexivity.
  - refine (proj2 (ghb_parameter_line (FileName "x.ghb")
                     (closed_file ghb_no_parameters)
                     ["# GHB"] "PARAMETER 0 0" (drop 2 ghb_no_parameters) _ _ _)
                  "0" 0 _ _ _); reflexivity.
  - refine (proj2 (ghb_parameter_line (FileName "x.ghb")
                     (closed_file ghb_parameters)
                     ["# GHB"] "PARAMETER 2 10" (drop 2 ghb_parameters) _ _ _)
                  "2" 2 _ _ _); reflexivity.
Defined.

Lemma ghb_unit77_loads :
  ghb_run 1 ghb_unit77 = (Ok ghb_unit77_loaded, after_header ghb_unit77 3).
Proof. reflexivity. Qed.

Lemma ghb_loaded_package_fields_witness :
  exists line s1 opts aux,
    Ghb.header_line (FileName "x.ghb") (closed_file ghb_unit77) = (Ok line, s1) /\
    Ghb.header_options (Py.split (Py.strip line)) s1 = (Ok (opts, aux), s1) /\
    Ghb.ipakcb ghb_unit77_loaded
    = match Py.split (Py.strip line) !! 1%nat with
      | Some tok => match Py.int tok with
                    | Some z => if z =? 0 then 0 else 53
                    | None => 0
                    end
      | None => 0
      end /\
    Ghb.options ghb_unit77_loaded = opts /\
    Ghb.pkg_dtype ghb_unit77_loaded
    = Ghb.get_default_dtype ++ map (fun n => (n, Ghb.np_float32)) aux /\
    Ghb.no_print ghb_unit77_loaded = false.
Proof.
  exact (ghb_loaded_package_fields (FileName "x.ghb") (model0 1 [true]) None
           (closed_file ghb_unit77) ghb_unit77_loaded (after_header ghb_unit77 3)
           ghb_unit77_loads).
Defined.

Lemma lak_load_explicit_nper_witness :
  Lak.load (FileName "x.lak") one_period (Some 1%nat) (closed_file lak_small)
  = (Raise unbound_nlay, end_of_file).
Proof.
  refine (proj2 (lak_load_explicit_nper_never_loads (FileName "x.lak") one_period
                   1%nat (closed_file lak_small))
            (lak_small_read None) end_of_file _).
  reflexivity.
Defined.

Lemma lak_load_tableinput_witness :
  Lak.load (FileName "x.lak") one_period None (closed_file lak_tables)
  = (Raise (PyErr ValueError
              "a filename must be specified for the tabfile for lake 1"),
     end_of_file).
Proof.
  refine (proj2 (lak_load_tableinput_never_loads (FileName "x.lak") one_period None
                   (closed_file lak_tables) lak_tables_read end_of_file _ _ _)
            (1%nat, 10%nat, 10%nat) ∅ ∅ _ _ _).
  - reflexivity.
  - reflexivity.
  - change (1 <= 1). lia.
  - reflexivity.
  - reflexivity.
  - reflexivity.
Defined.

Lemma lak_small_loads :
  Lak.load (FileName "x.lak") one_period None (closed_file lak_small)
  = (Ok (lak_small_loaded, one_period_registered), end_of_file).
Proof. reflexivity. Qed.

Lemma lak_flux_loads :
  Lak.load (FileName "x.lak") one_period None (closed_file lak_flux)
  = (Ok (lak_flux_loaded, one_period_registered), end_of_file).
Proof. reflexivity. Qed.

Lemma lak_flux_reads :
  Lak.load_stream (FileName "x.lak") one_period None (closed_file lak_flux)
  = (Ok lak_flux_read, end_of_file).
Proof. reflexivity. Qed.

Lemma lak_loaded_solver_settings_witness :
  Lak.nssitr lak_small_loaded = 0
  /\ Lak.sscncr lak_small_loaded = float_lit 0
  /\ Lak.surfdep lak_small_loaded = float_lit 0.
Proof.
  refine (lak_loaded_solver_settings (FileName "x.lak") one_period None
            (closed_file lak_small) lak_small_loaded one_period_registered
            end_of_file lak_small_loads _).
  reflexivity.
Defined.

Lemma lak_loaded_stages_witness :
  shape (Lak.stages lak_flux_loaded) = [Z.to_nat (Lak.nlakes lak_flux_loaded)]
  /\ length (data (Lak.stages lak_flux_loaded))
     = Z.to_nat (Lak.nlakes lak_flux_loaded)
  /\ forallb is_text (data (Lak.stages lak_flux_loaded)) = true.
Proof.
  exact (lak_loaded_stages_are_text (FileName "x.lak") one_period None
           (closed_file lak_flux) lak_flux_loaded one_period_registered
           end_of_file lak_flux_loads).
Defined.

Lemma lake_no_sill_built :
  Lak.init lake_args_no_sill lake_model = (Ok lake_no_sill, lake_model).
Proof. reflexivity. Qed.

Lemma lak_write_file_needs_dictionaries_witness :
  raises (Lak.write_file lake_model lake_no_sill) no_stream.
Proof.
  refine (lak_write_file_needs_dictionaries lake_args_no_sill lake_model
            lake_no_sill lake_model lake_model no_stream lake_no_sill_built _).
  left. reflexivity.
Defined.

Lemma lak_init_requires_arrays_witness :
  raises (Lak.init lake_args_no_arrays) lake_model.
Proof.
  refine (lak_init_requires_arrays lake_args_no_arrays lake_model _ _);
    reflexivity.
Defined.

Lemma lak_init_short_filenames_witness :
  Lak.init lake_args_one_name lake_model
  = (Raise (PyErr IndexError "list index out of range"), lake_model).
Proof.
  refine (lak_init_short_filenames lake_args_one_name lake_model 53
            [Some "model.lak"] _ _ _ _).
  - reflexivity.
  - reflexivity.
  - simpl. lia.
  - reflexivity.
Defined.

Lemma lake_with_flux_built :
  Lak.init lake_args lake_model = (Ok lake_with_flux, lake_model).
Proof. reflexivity. Qed.

Lemma lak_init_flux_data_checked_witness :
  flux_value_accepted (h_steady lake_model) 1 1 0
    (Lak.FvDict {[ 0%nat := [SFloat 1; SFloat 2; SFloat 3;
                             SFloat 4; SFloat 5; SFloat 6] ]}).
Proof.
  destruct (lak_init_flux_data_checked lake_args lake_model lake_with_flux
              lake_model lake_flux_arg lake_with_flux_built eq_refl)
    as (d' & _ & Hall).
  exact (proj1 (Hall 0%nat)).
Defined.

Lemma lak_loaded_flux_rows_witness :
  (0 < 1)%nat /\ six_values 1 (Lak.FvDict lak_flux_rows).
Proof.
  destruct (lak_loaded_flux_rows (FileName "x.lak") one_period None
              (closed_file lak_flux) lak_flux_loaded one_period_registered
              end_of_file lak_flux_loads)
    as (fd & Hfd & Hall).
  injection Hfd as <-.
  exact (Hall 0%nat (Lak.FvDict lak_flux_rows) eq_refl).
Defined.

Lemma lak_loaded_flux_accepted_witness :
  Lak.init_flux_data lake_model 1 (Some (Lak.FluxDict lak_flux_data)) lake_model
  = (Ok (Some lak_flux_data), lake_model).
Proof.
  exact (lak_loaded_flux_accepted (FileName "x.lak") one_period None
           (closed_file lak_flux) lak_flux_read end_of_file lak_flux_reads
           lake_model lake_model).
Defined.

Lemma lak_dataset2_negative_theta_witness :
  Lak.load_dataset2 one_period (closed_file ["-1.0 abc"; "5.0"])
  = (Raise (PyErr IndexError "list index out of range"), closed_file ["5.0"])
  /\ Lak.load_dataset2 one_period (closed_file ["-1.0 abc 0.0 2.0"; "5.0"])
     = (Ok (-1, 0, 0, 2), closed_file ["5.0"]).
Proof.
  split.
  - refine (proj1 (lak_dataset2_negative_theta one_period
                     (closed_file ["-1.0 abc"; "5.0"]) "-1.0 abc" ["5.0"]
                     "-1.0" (-1) _ _ _ _ _) _); try reflexivity.
    simpl. lia.
  - refine (proj2 (lak_dataset2_negative_theta one_period
                     (closed_file ["-1.0 abc 0.0 2.0"; "5.0"]) "-1.0 abc 0.0 2.0"
                     ["5.0"] "-1.0" (-1) _ _ _ _ _) "2.0" 2 _ _); reflexivity.
Defined.

Lemma lak_period_flux_lines_expected_witness :
  Lak.load_period lake_model (Some (1%nat, 10%nat, 10%nat)) 1 [(-10000, 10000)]
    no_periods 1%nat
    {| pending := ["-1 0 1   # Stress period 2"]; handle_open := true |}
  = (Raise (PyErr IndexError "list index out of range"), end_of_file).
Proof.
  refine (lak_period_flux_lines_expected lake_model (Some (1%nat, 10%nat, 10%nat))
            1 [(-10000, 10000)] no_periods 1%nat
            {| pending := ["-1 0 1   # Stress period 2"]; handle_open := true |}
            "-1 0 1   # Stress period 2" "-1" "0" "1" (-1) 0 1
            _ _ _ _ _ _ _ _ _ _ _); try reflexivity.
  change (-1 <= 0). lia.
Defined.

Lemma lak_sill_record_shape_witness :
  exists ic,
    [SInt 2; SInt 1; SInt 2] !! 0%nat = Some (SInt ic)
    /\ length [SInt 2; SInt 1; SInt 2] = S (Z.to_nat ic)
    /\ length [SFloat 7] = Z.to_nat (ic - 1).
Proof.
  refine (lak_sill_record_shape one_period (closed_file ["2 1 2"; "7.0"])
            [SInt 2; SInt 1; SInt 2] [SFloat 7] (closed_file []) _).
  reflexivity.
Defined.

End MoreRuns.
